(** * Ukulele Tuesday data analysis: DataManager, QueryManager, PlotManager

    A shallow embedding of [Final_1.0.py].  The program keeps three pandas
    DataFrames in a [DataManager] object, filters them in [QueryManager]
    and aggregates them for charts in [PlotManager].

    The embedding has three layers:
    - [Pandas]: the slice of the pandas/numpy API the program calls
      (column-oriented frames, dtypes, [fillna], boolean masks,
      [value_counts], [sort_index], [count], [cumsum]);
    - [Py]: a state-and-exception monad for the methods, whose state is the
      [DataManager] object together with what has been printed;
    - the three classes, method by method. *)

From Stdlib Require Import ZArith List String Ascii Bool Lia QArith Qround.
From Stdlib Require Import Permutation Sorted.
Import ListNotations.

Open Scope string_scope.
Open Scope Z_scope.

(* ================================================================== *)
(** * Python exceptions and results *)

Inductive Exception : Type :=
| FileNotFoundError (msg : string)
| EmptyDataError
| ValueError (msg : string)
| KeyError (key : string)
| TypeError (msg : string)
| AttributeError (msg : string)
| OtherError (msg : string).

(** [str(e)], as the handlers of [load_data] interpolate it. *)
Definition str_of_exception (e : Exception) : string :=
  match e with
  | FileNotFoundError m => m
  | EmptyDataError => "No columns to parse from file"
  | ValueError m => m
  | KeyError k => "'" ++ k ++ "'"
  | TypeError m => m
  | AttributeError m => m
  | OtherError m => m
  end.

Inductive Result (A : Type) : Type :=
| Ok (a : A)
| Raise (e : Exception).
Arguments Ok {A} a.
Arguments Raise {A} e.


(* ================================================================== *)
(** * The pandas slice *)

Module Pandas.

(** numpy dtypes of a column. *)
Inductive Dtype : Type := int64 | float64 | bool_ | object_ | datetime64.

(** [np.issubdtype(d, np.number)]: booleans and datetimes are not numbers. *)
Definition issubdtype_number (d : Dtype) : bool :=
  match d with int64 | float64 => true | _ => false end.

(** A cell.  [NaN] stands for every missing value (NaN, None, NaT).
    [Int] is an int64; [Float q] is a finite float64 given by its exact
    value; [Timestamp t] is a datetime64 given by its offset from the
    epoch. *)
Inductive Cell : Type :=
| NaN
| Int (z : Z)
| Float (q : Q)
| Str (s : string)
| Bool (b : bool)
| Timestamp (t : Z).

Definition isna (c : Cell) : bool :=
  match c with NaN => true | _ => false end.

Definition notna (c : Cell) : bool := negb (isna c).

Record Series : Type := mkSeries { dtype : Dtype; values : list Cell }.

(** A frame is column-oriented, as in pandas: the row labels and, per
    column in file order, its name and its Series. *)
Record DataFrame : Type :=
  mkDataFrame { index : list Z; columns : list (string * Series) }.

Definition column_names (df : DataFrame) : list string :=
  map fst (columns df).

(** [name in df.columns] *)
Definition has_column (df : DataFrame) (name : string) : bool :=
  existsb (String.eqb name) (column_names df).

Fixpoint lookup_column (name : string) (cols : list (string * Series))
  : option Series :=
  match cols with
  | [] => None
  | (n, s) :: rest =>
      if String.eqb name n then Some s else lookup_column name rest
  end.

(** [df[name]] *)
Definition getitem (df : DataFrame) (name : string) : Result Series :=
  match lookup_column name (columns df) with
  | Some s => Ok s
  | None => Raise (KeyError name)
  end.

Fixpoint set_column (name : string) (s : Series)
  (cols : list (string * Series)) : list (string * Series) :=
  match cols with
  | [] => [(name, s)]
  | (n, old) :: rest =>
      if String.eqb name n then (n, s) :: rest
      else (n, old) :: set_column name s rest
  end.

(** [df[name] = s]: replaces the column in place, or appends it. *)
Definition setitem (df : DataFrame) (name : string) (s : Series)
  : DataFrame :=
  mkDataFrame (index df) (set_column name s (columns df)).

(** Every column is as long as the index. *)
Definition well_formed (df : DataFrame) : Prop :=
  Forall (fun c => List.length (values (snd c)) = List.length (index df)) (columns df).

(** ** Missing values *)

(** Filling a column that has a hole with a string makes it an object
    column, as pandas 1 and 2 do; a column without holes is left as it
    is. *)
Definition fill_dtype (d : Dtype) (v : Cell) : Dtype :=
  match v with Str _ => object_ | _ => d end.

Definition fillna_cell (v c : Cell) : Cell := if isna c then v else c.

Definition fillna_series (v : Cell) (s : Series) : Series :=
  mkSeries
    (if existsb isna (values s) then fill_dtype (dtype s) v else dtype s)
    (map (fillna_cell v) (values s)).

(** [df.fillna(v)] *)
Definition fillna (v : Cell) (df : DataFrame) : DataFrame :=
  mkDataFrame (index df)
    (map (fun c => (fst c, fillna_series v (snd c))) (columns df)).

(** [series.count()]: the number of non-missing cells. *)
Definition count (s : Series) : nat :=
  List.length (filter notna (values s)).

(** ** Boolean masks *)

Fixpoint select {A} (mask : list bool) (l : list A) : list A :=
  match mask, l with
  | b :: mask', x :: l' =>
      if b then x :: select mask' l' else select mask' l'
  | _, _ => []
  end.

(** [df[mask]] and [df.loc[mask]]: the rows at the true positions, with
    their labels, columns and dtypes kept. *)
Definition loc (df : DataFrame) (mask : list bool) : DataFrame :=
  mkDataFrame (select mask (index df))
    (map (fun c => (fst c, mkSeries (dtype (snd c))
                             (select mask (values (snd c)))))
       (columns df)).

(** [df.iterrows()]: each label with the cells of its row. *)
Fixpoint rows_of (idx : list Z) (cols : list (list Cell))
  : list (Z * list Cell) :=
  match idx with
  | [] => []
  | i :: idx' =>
      (i, map (hd NaN) cols) :: rows_of idx' (map (@tl Cell) cols)
  end.

Definition iterrows (df : DataFrame) : list (Z * list Cell) :=
  rows_of (index df) (map (fun c => values (snd c)) (columns df)).

(** The position of a column among the columns, to read a row's cell. *)
Fixpoint position (name : string) (names : list string) : option nat :=
  match names with
  | [] => None
  | n :: rest =>
      if String.eqb name n then Some O
      else option_map S (position name rest)
  end.

Definition row_cell (df : DataFrame) (name : string)
  (row : Z * list Cell) : Cell :=
  match position name (column_names df) with
  | Some k => nth k (snd row) NaN
  | None => NaN
  end.

(** ** Numbers *)

Definition Int64_min : Z := - 2 ^ 63.
Definition Int64_max : Z := 2 ^ 63 - 1.

(** int64 arithmetic wraps silently in numpy. *)
Definition wrap64 (z : Z) : Z := (z + 2 ^ 63) mod 2 ^ 64 - 2 ^ 63.

(** float64 has 53 bits of mantissa: a number between [- bound] and
    [bound], for [bound] up to 2^53, is a float64 when it is whole. *)
Definition within (bound : Z) (q : Q) : bool :=
  Qle_bool (inject_Z (- bound)) q && Qle_bool q (inject_Z bound).

Definition is_whole (q : Q) : bool := Qeq_bool q (inject_Z (Qfloor q)).

Definition map_series (f : Cell -> Cell) (s : Series) : Series :=
  mkSeries (dtype s) (map f (values s)).

(** The value of a numeric cell, to order and to compare keys. *)
Definition num_value (c : Cell) : Q :=
  match c with
  | Int z => inject_Z z
  | Float q => q
  | Bool b => if b then 1%Q else 0%Q
  | Timestamp t => inject_Z t
  | _ => 0%Q
  end.

(** The kind of a cell: cells of different kinds are never the same key. *)
Definition same_kind (a b : Cell) : bool :=
  match a, b with
  | NaN, NaN => true
  | Str s, Str t => String.eqb s t
  | Timestamp _, Timestamp _ => true
  | (Int _ | Float _ | Bool _), (Int _ | Float _ | Bool _) => true
  | _, _ => false
  end.

(** Two cells are the same key of a [value_counts]: numbers by value
    (1980 and 1980.0 are one key), strings by content. *)
Definition same_key (a b : Cell) : bool :=
  same_kind a b && Qeq_bool (num_value a) (num_value b).

(** ** value_counts and sort_index *)

Fixpoint bump (k : Cell) (acc : list (Cell * nat)) : list (Cell * nat) :=
  match acc with
  | [] => [(k, 1%nat)]
  | (k', n) :: rest =>
      if same_key k' k then (k', S n) :: rest
      else (k', n) :: bump k rest
  end.

(** The keys in order of first appearance with their numbers of
    occurrences. *)
Definition tally (l : list Cell) : list (Cell * nat) :=
  fold_left (fun acc k => bump k acc) l [].

(** A stable insertion sort. *)
Section Sort.
Context {A : Type} (leb : A -> A -> bool).

Fixpoint insert_sorted (x : A) (l : list A) : list A :=
  match l with
  | [] => [x]
  | y :: l' =>
      if leb x y then x :: y :: l' else y :: insert_sorted x l'
  end.

Definition sort_by (l : list A) : list A :=
  fold_right insert_sorted [] l.
End Sort.

(** [series.value_counts()]: missing values dropped, most frequent key
    first. *)
Definition value_counts (s : Series) : list (Cell * nat) :=
  sort_by (fun a b => Nat.leb (snd b) (snd a))
    (tally (filter notna (values s))).

Definition key_leb (a b : Cell * nat) : bool :=
  Qle_bool (num_value (fst a)) (num_value (fst b)).

(** [counts.sort_index()]: ascending keys. *)
Definition sort_index (vc : list (Cell * nat)) : list (Cell * nat) :=
  sort_by key_leb vc.

(** ** Dropping columns, counting per column, running sums *)

(** [df.drop(columns=names)]: a KeyError when a name is not a column. *)
Definition drop (df : DataFrame) (names : list string) : Result DataFrame :=
  match find (fun n => negb (has_column df n)) names with
  | Some n => Raise (KeyError n)
  | None =>
      Ok (mkDataFrame (index df)
            (filter (fun c => negb (existsb (String.eqb (fst c)) names))
               (columns df)))
  end.

(** [df.count(axis=0)]: per column, its number of non-missing cells. *)
Definition count_axis0 (df : DataFrame) : list (string * nat) :=
  map (fun c => (fst c, count (snd c))) (columns df).

Fixpoint cumsum_from (acc : nat) (l : list (string * nat))
  : list (string * nat) :=
  match l with
  | [] => []
  | (n, x) :: rest => (n, (acc + x)%nat) :: cumsum_from (acc + x)%nat rest
  end.

(** [series.cumsum()] *)
Definition cumsum (l : list (string * nat)) : list (string * nat) :=
  cumsum_from O l.

(** [df.empty]: no row or no column. *)
Definition empty (df : DataFrame) : bool :=
  match index df, columns df with
  | [], _ | _, [] => true
  | _, _ => false
  end.

End Pandas.

Import Pandas.

(* ================================================================== *)
(** * The object state and the method monad *)

(** [DataManager.__init__]: three paths, three tables that start unset. *)
Record DataManager : Type := mkDataManager {
  tabdb_path : string;
  playdb_path : string;
  requestdb_path : string;
  tabdb : option DataFrame;
  playdb : option DataFrame;
  requestdb : option DataFrame
}.

Definition DataManager_init (t p r : string) : DataManager :=
  mkDataManager t p r None None None.

(** What a method can see and change: the manager and the standard
    output. *)
Record World : Type := mkWorld { self : DataManager; stdout : list string }.

Module Py.

Definition M (A : Type) : Type := World -> World * Result A.

Definition ret {A} (a : A) : M A := fun w => (w, Ok a).

Definition raise {A} (e : Exception) : M A := fun w => (w, Raise e).

Definition bind {A B} (m : M A) (k : A -> M B) : M B :=
  fun w =>
    match m w with
    | (w', Ok a) => k a w'
    | (w', Raise e) => (w', Raise e)
    end.

(** A value computed without touching the state, or its exception. *)
Definition lift {A} (r : Result A) : M A := fun w => (w, r).

Definition get_self : M DataManager := fun w => (w, Ok (self w)).


(** [try: body except Exception as e: handler(e)]: the state changes made
    before the exception stay. *)
Definition try_except {A} (body : M A) (handler : Exception -> M A) : M A :=
  fun w =>
    match body w with
    | (w', Ok a) => (w', Ok a)
    | (w', Raise e) => handler e w'
    end.

(** Assignments to the three table attributes. *)
Definition with_tabdb (t : option DataFrame) (w : World) : World :=
  let d := self w in
  mkWorld (mkDataManager (tabdb_path d) (playdb_path d) (requestdb_path d)
             t (playdb d) (requestdb d)) (stdout w).

Definition with_playdb (t : option DataFrame) (w : World) : World :=
  let d := self w in
  mkWorld (mkDataManager (tabdb_path d) (playdb_path d) (requestdb_path d)
             (tabdb d) t (requestdb d)) (stdout w).

Definition with_requestdb (t : option DataFrame) (w : World) : World :=
  let d := self w in
  mkWorld (mkDataManager (tabdb_path d) (playdb_path d) (requestdb_path d)
             (tabdb d) (playdb d) t) (stdout w).

Definition printed (line : string) (w : World) : World :=
  mkWorld (self w) (stdout w ++ [line]).

Definition print (line : string) : M unit :=
  fun w => (printed line w, Ok tt).

Definition set_tabdb (t : option DataFrame) : M unit :=
  fun w => (with_tabdb t w, Ok tt).

Definition set_playdb (t : option DataFrame) : M unit :=
  fun w => (with_playdb t w, Ok tt).

Definition set_requestdb (t : option DataFrame) : M unit :=
  fun w => (with_requestdb t w, Ok tt).

End Py.

Import Py.

Notation "x <- c1 ;; c2" := (bind c1 (fun x => c2))
  (at level 61, c1 at next level, right associativity).
Notation "c1 ;; c2" := (bind c1 (fun _ => c2))
  (at level 61, right associativity).

(* ================================================================== *)
(** * What reaches the screen *)

(** A chart as a plot method hands it to the renderer: its title and its
    data. *)
Inductive Chart : Type :=
| Histogram (title : string) (data : Series) (bins : nat)
| BarChart (title : string) (data : list (Cell * nat))
| LineChart (title : string) (data : list (string * nat))
| PieChart (title : string) (data : list (Cell * nat)).

(** What a handler of the window does that the user sees: a message box,
    the window with the rows of a frame, or a chart. *)
Inductive Event : Type :=
| showinfo (title message : string)
| showerror (title message : string)
| showwarning (title message : string)
| Treeview (title : string) (columns : list string) (rows : list (list Cell))
| plotted (chart : Chart).

(* ================================================================== *)
(** * The program *)

Section Program.

(** The file system as [pd.read_csv] sees it: per path, the parsed frame
    or the exception of the read. *)
Variable read_csv : string -> Result DataFrame.

(** [pd.to_datetime(column, errors='coerce')] on one cell of a column
    (pandas guesses the format from the column): the parsed instant, or
    nothing, which becomes NaT. *)
Variable datetime_of : list Cell -> Cell -> option Z.

(** The instant a string bound denotes when it is compared with a
    datetime column, if it denotes one. *)
Variable Timestamp_of_string : string -> option Z.

(** The number a string denotes for [pd.to_numeric], if it denotes one:
    an integer or a float. *)
Variable number_of_string : string -> option (Z + Q).

(** The renderer ([.plot(...)] and [plt.show()]): it draws the chart or
    raises. *)
Variable render : Chart -> Result unit.

(** The float64 arithmetic of numpy where it rounds: the float64 made of
    an int64, and [x // 10] and [x * 10] as the float64 numpy returns for
    the float64 [x]. *)
Variable float64_of_int : Z -> Q.
Variable float64_floordiv10 : Q -> Q.
Variable float64_mul10 : Q -> Q.

(** ** The conversions of pandas the program calls *)

Definition to_datetime (s : Series) : Series :=
  mkSeries datetime64
    (map (fun c => match datetime_of (values s) c with
                   | Some t => Timestamp t
                   | None => NaN
                   end) (values s)).

Definition coerce_number (c : Cell) : Cell :=
  match c with
  | NaN => NaN
  | Int z => Int z
  | Float q => Float q
  | Bool b => Int (if b then 1 else 0)
  | Timestamp t => Int t
  | Str s =>
      match number_of_string s with
      | Some (inl z) => Int z
      | Some (inr q) => Float q
      | None => NaN
      end
  end.

Definition is_int (c : Cell) : bool :=
  match c with Int _ => true | _ => false end.

(** An integer cell of a column that becomes float64: the integers up
    to 2^53 in magnitude are float64, the others are rounded. *)
Definition as_float (c : Cell) : Cell :=
  match c with
  | Int z =>
      Float (if within (2 ^ 53) (inject_Z z) then inject_Z z
             else float64_of_int z)
  | _ => c
  end.

(** [pd.to_numeric(s, errors='coerce')]: a numeric column is returned as
    it is; otherwise each cell is converted, what is not a number becomes
    NaN, and the column is int64 when every cell is an integer and
    float64 otherwise. *)
Definition to_numeric (s : Series) : Series :=
  if issubdtype_number (dtype s) then s
  else
    let vs := map coerce_number (values s) in
    if forallb is_int vs then mkSeries int64 vs
    else mkSeries float64 (map as_float vs).

(** [c // 10] on a numeric column.  int64 wraps.  For a float64 [x]
    numpy computes [(x - fmod(x, 10)) / 10] and its floor: up to 2^53 in
    magnitude [x - fmod(x, 10)] and its tenth are whole numbers below
    2^53, so that no step rounds and the result is the floor of [x / 10];
    beyond, the steps round. *)
Definition floordiv10 (c : Cell) : Cell :=
  match c with
  | Int z => Int (wrap64 (z / 10))
  | Float q =>
      Float (if within (2 ^ 53) q then inject_Z (Qfloor (q / inject_Z 10))
             else float64_floordiv10 q)
  | _ => NaN
  end.

(** [c * 10] on a numeric column.  int64 wraps.  The float64 product is
    the float64 nearest to the exact one: ten times a whole number up to
    2^50 in magnitude is an even whole number below 2^54, a float64, and
    the product is exact; elsewhere it rounds. *)
Definition mul10 (c : Cell) : Cell :=
  match c with
  | Int z => Int (wrap64 (z * 10))
  | Float q =>
      Float (if is_whole q && within (2 ^ 50) q then Qred (q * inject_Z 10)
             else float64_mul10 q)
  | _ => NaN
  end.

(** [column == value], cell by cell: a missing cell equals nothing, a
    datetime cell is compared with the instant a string denotes. *)
Definition eq_cell (c v : Cell) : bool :=
  match c, v with
  | NaN, _ | _, NaN => false
  | Timestamp t, Str s =>
      match Timestamp_of_string s with
      | Some u => t =? u
      | None => false
      end
  | _, _ => same_key c v
  end.

(** [column >= bound] and [column <= bound] for a datetime column and a
    string bound: a TypeError when the string denotes no instant; NaT
    compares false. *)
Definition compare_datetime (cmp : Z -> Z -> bool) (s : Series)
  (bound : string) : Result (list bool) :=
  match Timestamp_of_string bound with
  | None =>
      Raise (TypeError
               "Invalid comparison between dtype=datetime64[ns] and str")
  | Some b =>
      Ok (map (fun c => match c with
                        | Timestamp t => cmp t b
                        | _ => false
                        end) (values s))
  end.

Fixpoint and_masks (a b : list bool) : list bool :=
  match a, b with
  | x :: a', y :: b' => (x && y) :: and_masks a' b'
  | _, _ => []
  end.

(** ** class DataManager *)

Definition required_columns_tabdb : list string :=
  ["song"; "artist"; "year"; "type"; "gender"; "duration"; "language";
   "tabber"; "source"; "date"; "difficulty"; "special books"].

Definition required_columns_playdb : list string := ["song"; "artist"].

Definition required_columns_requestdb : list string := ["song"; "artist"].

(** The loop [for column in required_columns: if column not in df.columns:
    raise ValueError(...)] of the three validators, which differ in the
    file name of the message. *)
Fixpoint check_required (file : string) (required : list string)
  (df : DataFrame) : Result unit :=
  match required with
  | [] => Ok tt
  | column :: rest =>
      if has_column df column then check_required file rest df
      else Raise (ValueError
                    ("Missing required column in " ++ file ++ ": " ++ column))
  end.

(** Reading an attribute of a table that is [None]. *)
Definition stored (t : option DataFrame) : M DataFrame :=
  match t with
  | Some df => ret df
  | None => raise (AttributeError "'NoneType' object has no attribute 'columns'")
  end.

Definition _validate_tabdb : M unit :=
  d <- get_self ;;
  df <- stored (tabdb d) ;;
  lift (check_required "tabdb.csv" required_columns_tabdb df) ;;
  year <- lift (getitem df "year") ;;
  if negb (issubdtype_number (dtype year)) then
    raise (ValueError "Column 'year' must be numeric in tabdb.csv.")
  else
    difficulty <- lift (getitem df "difficulty") ;;
    if negb (issubdtype_number (dtype difficulty)) then
      raise (ValueError "Column 'difficulty' must be numeric in tabdb.csv.")
    else
      set_tabdb (Some (fillna (Str "Unknown") df)).

Definition _validate_playdb : M unit :=
  d <- get_self ;;
  df <- stored (playdb d) ;;
  lift (check_required "playdb.csv" required_columns_playdb df) ;;
  set_playdb (Some (fillna (Str "") df)).

Definition _validate_requestdb : M unit :=
  d <- get_self ;;
  df <- stored (requestdb d) ;;
  lift (check_required "requestdb.csv" required_columns_requestdb df) ;;
  set_requestdb (Some (fillna (Str "") df)).

(** The body of the [try] of [load_data]: each table is assigned as soon
    as it is read, before its validator runs on it. *)
Definition load_data_body : M unit :=
  d <- get_self ;;
  t <- lift (read_csv (tabdb_path d)) ;;
  set_tabdb (Some t) ;;
  _validate_tabdb ;;
  print "tabdb.csv loaded successfully." ;;
  p <- lift (read_csv (playdb_path d)) ;;
  set_playdb (Some p) ;;
  _validate_playdb ;;
  print "playdb.csv loaded successfully." ;;
  r <- lift (read_csv (requestdb_path d)) ;;
  set_requestdb (Some r) ;;
  _validate_requestdb ;;
  print "requestdb.csv loaded successfully.".

(** The three [except] clauses, in order. *)
Definition load_data_handler (e : Exception) : M unit :=
  match e with
  | FileNotFoundError _ => print ("Error: " ++ str_of_exception e)
  | EmptyDataError => print "Error: One or more files are empty."
  | _ => print ("An unexpected error occurred: " ++ str_of_exception e)
  end.

Definition load_data : M unit := try_except load_data_body load_data_handler.

(** ** class QueryManager *)

Definition not_loaded : Exception :=
  ValueError
    "Data has not been loaded. Please load the data using DataManager first.".

Definition loaded (t : option DataFrame) : M DataFrame :=
  match t with
  | Some df => ret df
  | None => raise not_loaded
  end.

(** The loop of [filter_tabdb] over [filters.items()]; [df] is rebound to
    a new frame at each criterion, the stored frame is not written. *)
Fixpoint filter_loop (df : DataFrame) (filters : list (string * Cell))
  : Result DataFrame :=
  match filters with
  | [] => Ok df
  | (column, value) :: rest =>
      if has_column df column then
        match getitem df column with
        | Ok s =>
            filter_loop
              (loc df (map (fun c => eq_cell c value) (values s))) rest
        | Raise e => Raise e
        end
      else
        Raise (ValueError ("Column '" ++ column ++ "' does not exist in tabdb."))
  end.

Definition filter_tabdb (filters : list (string * Cell)) : M DataFrame :=
  d <- get_self ;;
  df <- loaded (tabdb d) ;;
  lift (filter_loop df filters).

(** [df] is the stored frame itself, so [df['date'] = ...] writes the
    parsed column into [data_manager.tabdb]; the frame returned by
    [df.loc[mask]] is a new one. *)
Definition filter_by_date_range (start_date end_date : string)
  : M DataFrame :=
  d <- get_self ;;
  df0 <- loaded (tabdb d) ;;
  date <- lift (getitem df0 "date") ;;
  let df := setitem df0 "date" (to_datetime date) in
  set_tabdb (Some df) ;;
  date' <- lift (getitem df "date") ;;
  ge <- lift (compare_datetime Z.geb date' start_date) ;;
  le <- lift (compare_datetime Z.leb date' end_date) ;;
  ret (loc df (and_masks ge le)).

Definition filter_playdb_by_song (song_title : Cell) : M DataFrame :=
  d <- get_self ;;
  df <- loaded (playdb d) ;;
  song <- lift (getitem df "song") ;;
  ret (loc df (map (fun c => eq_cell c song_title) (values song))).

Definition filter_requestdb_by_artist (artist_name : Cell) : M DataFrame :=
  d <- get_self ;;
  df <- loaded (requestdb d) ;;
  artist <- lift (getitem df "artist") ;;
  ret (loc df (map (fun c => eq_cell c artist_name) (values artist))).

Definition count_song_plays (song_title : string) : M nat :=
  d <- get_self ;;
  df <- loaded (playdb d) ;;
  s <- lift (getitem df song_title) ;;
  ret (count s).

(** ** class PlotManager

    A plot method returns the series it hands to the renderer. *)

(** [df] is the stored frame: both assignments write into
    [data_manager.tabdb]. *)
Definition plot_bar_chart_by_decade : M (list (Cell * nat)) :=
  d <- get_self ;;
  df0 <- loaded (tabdb d) ;;
  year <- lift (getitem df0 "year") ;;
  let df1 := setitem df0 "year" (to_numeric year) in
  set_tabdb (Some df1) ;;
  year' <- lift (getitem df1 "year") ;;
  let df2 :=
    setitem df1 "decade" (map_series mul10 (map_series floordiv10 year')) in
  set_tabdb (Some df2) ;;
  decade <- lift (getitem df2 "decade") ;;
  ret (sort_index (value_counts decade)).

Definition plot_cumulative_line_chart : M (list (string * nat)) :=
  d <- get_self ;;
  df <- loaded (playdb d) ;;
  dropped <- lift (drop df ["song"; "artist"]) ;;
  ret (cumsum (count_axis0 dropped)).

(** ** class PlotManager, the other charts *)

Definition plot_difficulty_histogram : M (Series * nat) :=
  d <- get_self ;;
  df <- loaded (tabdb d) ;;
  difficulty <- lift (getitem df "difficulty") ;;
  ret (difficulty, 5%nat).

Definition plot_duration_histogram : M (Series * nat) :=
  d <- get_self ;;
  df <- loaded (tabdb d) ;;
  duration <- lift (getitem df "duration") ;;
  ret (duration, 10%nat).

Definition plot_language_bar_chart : M (list (Cell * nat)) :=
  d <- get_self ;;
  df <- loaded (tabdb d) ;;
  language <- lift (getitem df "language") ;;
  ret (value_counts language).

Definition plot_source_bar_chart : M (list (Cell * nat)) :=
  d <- get_self ;;
  df <- loaded (tabdb d) ;;
  source <- lift (getitem df "source") ;;
  ret (value_counts source).

Definition plot_pie_chart_by_gender : M (list (Cell * nat)) :=
  d <- get_self ;;
  df <- loaded (tabdb d) ;;
  gender <- lift (getitem df "gender") ;;
  ret (value_counts gender).

(** ** class UserInterface

    A handler takes the answers of its dialogs and gives the state it
    leaves and what it shows.  Each handler catches every exception. *)

(** [if s:] for the answer of a dialog: given, and not empty. *)
Definition truthy (s : option string) : bool :=
  match s with
  | Some x => negb (String.eqb x "")
  | None => false
  end.

Definition UserInterface_load_data (w : World) : World * list Event :=
  match load_data w with
  | (w', Ok _) => (w', [showinfo "Info" "Data loaded successfully."])
  | (w', Raise e) => (w', [showerror "Error" (str_of_exception e)])
  end.

(** [display_dataframe(df)] *)
Definition display_dataframe (df : option DataFrame) : list Event :=
  match df with
  | Some d =>
      if negb (empty d) then
        [Treeview "Filtered Data" (column_names d) (map snd (iterrows d))]
      else [showinfo "Info" "No data available for the selected filter."]
  | None => [showinfo "Info" "No data available for the selected filter."]
  end.

(** The call of [filter_tabdb] with the dict [{column: value}] unpacked
    into keywords: a keyword [self] meets the receiver of the method, and
    the call raises before the body runs. *)
Definition call_filter_tabdb (column : string) (value : Cell) : M DataFrame :=
  if String.eqb column "self" then
    raise (TypeError
             "QueryManager.filter_tabdb() got multiple values for argument 'self'")
  else filter_tabdb [(column, value)].

(** [filter_data]: both dialogs are asked; the value is the string
    typed. *)
Definition UserInterface_filter_data (column value : option string)
  (w : World) : World * list Event :=
  match column, value with
  | Some c, Some v =>
      if truthy column && truthy value then
        match call_filter_tabdb c (Str v) w with
        | (w', Ok filtered_df) => (w', display_dataframe (Some filtered_df))
        | (w', Raise e) => (w', [showerror "Error" (str_of_exception e)])
        end
      else (w, [])
  | _, _ => (w, [])
  end.

(** A plot method followed by the renderer. *)
Definition draw {A} (method : M A) (chart : A -> Chart) : M Chart :=
  data <- method ;;
  lift (render (chart data)) ;;
  ret (chart data).

Definition is_selected (selected_plot : option string) (name : string)
  : bool :=
  match selected_plot with
  | Some s => String.eqb s name
  | None => false
  end.

(** The branch of [plot_data] for the answer, if the answer is one of the
    seven names. *)
Definition selected_chart (selected_plot : option string)
  : option (M Chart) :=
  if is_selected selected_plot "Difficulty Histogram" then
    Some (draw plot_difficulty_histogram
            (fun sb => Histogram "Histogram of Songs by Difficulty Level"
                         (fst sb) (snd sb)))
  else if is_selected selected_plot "Duration Histogram" then
    Some (draw plot_duration_histogram
            (fun sb => Histogram "Histogram of Songs by Duration"
                         (fst sb) (snd sb)))
  else if is_selected selected_plot "Language Bar Chart" then
    Some (draw plot_language_bar_chart
            (BarChart "Bar Chart of Songs by Language"))
  else if is_selected selected_plot "Source Bar Chart" then
    Some (draw plot_source_bar_chart (BarChart "Bar Chart of Songs by Source"))
  else if is_selected selected_plot "Decade Bar Chart" then
    Some (draw plot_bar_chart_by_decade
            (BarChart "Bar Chart of Songs by Decade"))
  else if is_selected selected_plot "Cumulative Line Chart" then
    Some (draw plot_cumulative_line_chart
            (LineChart "Cumulative Line Chart of Songs Played Each Tuesday"))
  else if is_selected selected_plot "Gender Pie Chart" then
    Some (draw plot_pie_chart_by_gender (PieChart "Pie Chart of Songs by Gender"))
  else None.

Definition UserInterface_plot_data (selected_plot : option string)
  (w : World) : World * list Event :=
  match selected_chart selected_plot with
  | Some method =>
      match method w with
      | (w', Ok chart) => (w', [plotted chart])
      | (w', Raise e) => (w', [showerror "Error" (str_of_exception e)])
      end
  | None => (w, [showwarning "Warning" "Invalid plot type selected."])
  end.

(* ================================================================== *)
(** * Vocabulary of the statements *)

(** The first required column a frame lacks. *)
Definition first_missing (required : list string) (df : DataFrame)
  : option string :=
  find (fun c => negb (has_column df c)) required.

Definition numeric_column (df : DataFrame) (name : string) : bool :=
  match lookup_column name (columns df) with
  | Some s => issubdtype_number (dtype s)
  | None => false
  end.

(** A tab source that passes [_validate_tabdb]: the twelve columns, with
    numeric [year] and [difficulty]. *)
Definition valid_tab_source (df : DataFrame) : bool :=
  forallb (has_column df) required_columns_tabdb
  && numeric_column df "year" && numeric_column df "difficulty".

Definition valid_play_source (df : DataFrame) : bool :=
  forallb (has_column df) required_columns_playdb.

Definition valid_request_source (df : DataFrame) : bool :=
  forallb (has_column df) required_columns_requestdb.


(** The line [load_data] prints for an exception: its three handlers. *)
Definition error_line (e : Exception) : string :=
  match e with
  | FileNotFoundError m => "Error: " ++ m
  | EmptyDataError => "Error: One or more files are empty."
  | _ => "An unexpected error occurred: " ++ str_of_exception e
  end.

Definition missing_column_error (file column : string) : Exception :=
  ValueError ("Missing required column in " ++ file ++ ": " ++ column).

(** The exception a validator raises on a frame, if it raises one. *)
Definition tabdb_error (df : DataFrame) : option Exception :=
  match first_missing required_columns_tabdb df with
  | Some c => Some (missing_column_error "tabdb.csv" c)
  | None =>
      if negb (numeric_column df "year") then
        Some (ValueError "Column 'year' must be numeric in tabdb.csv.")
      else if negb (numeric_column df "difficulty") then
        Some (ValueError "Column 'difficulty' must be numeric in tabdb.csv.")
      else None
  end.

Definition playdb_error (df : DataFrame) : option Exception :=
  option_map (missing_column_error "playdb.csv")
    (first_missing required_columns_playdb df).

Definition requestdb_error (df : DataFrame) : option Exception :=
  option_map (missing_column_error "requestdb.csv")
    (first_missing required_columns_requestdb df).

(** The world [load_data] ends in, case by case: the three sources in
    order, up to the first exception. *)
Definition load_requestdb_outcome (d : DataManager) (w : World) : World :=
  match read_csv (requestdb_path d) with
  | Raise e => printed (error_line e) w
  | Ok r =>
      match requestdb_error r with
      | Some e => printed (error_line e) (with_requestdb (Some r) w)
      | None =>
          printed "requestdb.csv loaded successfully."
            (with_requestdb (Some (fillna (Str "") r)) w)
      end
  end.

Definition load_playdb_outcome (d : DataManager) (w : World) : World :=
  match read_csv (playdb_path d) with
  | Raise e => printed (error_line e) w
  | Ok p =>
      match playdb_error p with
      | Some e => printed (error_line e) (with_playdb (Some p) w)
      | None =>
          load_requestdb_outcome d
            (printed "playdb.csv loaded successfully."
               (with_playdb (Some (fillna (Str "") p)) w))
      end
  end.

Definition load_data_outcome (w : World) : World :=
  let d := self w in
  match read_csv (tabdb_path d) with
  | Raise e => printed (error_line e) w
  | Ok t =>
      match tabdb_error t with
      | Some e => printed (error_line e) (with_tabdb (Some t) w)
      | None =>
          load_playdb_outcome d
            (printed "tabdb.csv loaded successfully."
               (with_tabdb (Some (fillna (Str "Unknown") t)) w))
      end
  end.

(** No cell of the frame is missing, by columns and by rows. *)
Definition no_null_column (df : DataFrame) : Prop :=
  forall name s, In (name, s) (columns df) ->
    Forall (fun c => isna c = false) (values s).

Definition no_null_row (df : DataFrame) : Prop :=
  Forall (fun row => Forall (fun c => isna c = false) (snd row))
    (iterrows df).

(** The year rounded down to a multiple of ten, for a cell that holds a
    number; the other cells have no decade. *)
Definition decade_of_year (c : Cell) : option Z :=
  match c with
  | Int z => Some (10 * (z / 10))
  | Float q => Some (10 * Qfloor (q / inject_Z 10))
  | _ => None
  end.

Definition has_decade (d : Z) (c : Cell) : bool :=
  match decade_of_year c with
  | Some d' => d =? d'
  | None => false
  end.

(** A number whose decade the arithmetic gives without wrapping or
    rounding: an int64 whose decade is an int64 too (all but the eight
    lowest values of the type), a float64 up to 2^53 in magnitude. *)
Definition year_in_range (c : Cell) : Prop :=
  match c with
  | Int z => Int64_min + 8 <= z <= Int64_max
  | Float q => within (2 ^ 53) q = true
  | _ => True
  end.

(** The year of a row of the table as the specification reads it: the
    number the cell holds or, for a text, the number the text denotes;
    a missing cell and a text that denotes no number have no year. *)
Definition year_number (c : Cell) : option (Z + Q) :=
  match c with
  | Int z => Some (inl z)
  | Float q => Some (inr q)
  | Str s => number_of_string s
  | _ => None
  end.

(** The year rounded down to the nearest multiple of ten. *)
Definition decade_of_number (n : Z + Q) : Z :=
  match n with
  | inl z => 10 * (z / 10)
  | inr q => 10 * Qfloor (q / inject_Z 10)
  end.

(** The row has a year, and its decade is [d]. *)
Definition in_decade (d : Z) (c : Cell) : bool :=
  match year_number c with
  | Some n => d =? decade_of_number n
  | None => false
  end.

(** A number a float64 holds exactly, with its decade. *)
Definition number_fits (n : Z + Q) : Prop :=
  match n with
  | inl z => - 2 ^ 53 <= z <= 2 ^ 53
  | inr q => within (2 ^ 53) q = true
  end.

(** A cell of a [year] column, by the dtype of the column.  A numeric
    column holds numbers and missing cells, no text: an int64 year has
    its decade in the int64 range.  A column of another dtype holds
    numbers, texts and missing cells: its numbers, and the numbers its
    texts denote, are up to 2^53 in magnitude, as pandas makes float64 of
    them when some cell is no integer.  A float64 year is up to 2^53 in
    magnitude. *)
Definition year_fits (numeric : bool) (c : Cell) : Prop :=
  match c with
  | NaN => True
  | Int z =>
      if numeric then Int64_min + 8 <= z <= Int64_max
      else - 2 ^ 53 <= z <= 2 ^ 53
  | Float q => within (2 ^ 53) q = true
  | Str s =>
      numeric = false /\
      match number_of_string s with
      | Some n => number_fits n
      | None => True
      end
  | Bool _ | Timestamp _ => False
  end.

(** The count a counted series gives to a decade. *)
Definition count_of_decade (d : Z) (counts : list (Cell * nat)) : nat :=
  list_sum
    (map (fun e : Cell * nat => snd e)
       (filter (fun e : Cell * nat => same_key (fst e) (Int d)) counts)).

(** A Python dict as the list of its items in insertion order: setting a
    key that is present replaces its value where it stands. *)
Fixpoint dict_set (k : string) (v : Cell) (d : list (string * Cell))
  : list (string * Cell) :=
  match d with
  | [] => [(k, v)]
  | (k', v') :: rest =>
      if String.eqb k k' then (k', v) :: rest
      else (k', v') :: dict_set k v rest
  end.

(** The dict a literal [{k1: v1, k2: v2, ...}] denotes. *)
Definition dict_of (items : list (string * Cell)) : list (string * Cell) :=
  fold_left (fun d kv => dict_set (fst kv) (snd kv) d) items [].

Definition unknown_column_error (column : string) : Exception :=
  ValueError ("Column '" ++ column ++ "' does not exist in tabdb.").

(** The date cell of a row parses, within its column, to an instant of
    the closed range. *)
Definition parses_within (column : list Cell) (lo hi : Z) (c : Cell) : bool :=
  match datetime_of column c with
  | Some t => (lo <=? t) && (t <=? hi)
  | None => false
  end.

(** The parsed date of a row of a frame whose [date] column was parsed
    lies in the closed range. *)
Definition date_within (lo hi : Z) (c : Cell) : bool :=
  match c with
  | Timestamp t => (lo <=? t) && (t <=? hi)
  | _ => false
  end.

(** What a frame keeps when some of its columns are assigned: its row
    labels, and every column that is not among the named ones, with its
    dtype and its cells. *)
Definition same_but (names : list string) (df df' : DataFrame) : Prop :=
  index df' = index df /\
  forall name, ~ In name names ->
    lookup_column name (columns df') = lookup_column name (columns df).

(** The other fields of the world under an assignment to [tabdb]. *)
Definition same_but_tabdb (w w' : World) : Prop :=
  tabdb_path (self w') = tabdb_path (self w) /\
  playdb_path (self w') = playdb_path (self w) /\
  requestdb_path (self w') = requestdb_path (self w) /\
  playdb (self w') = playdb (self w) /\
  requestdb (self w') = requestdb (self w) /\
  stdout w' = stdout w.

(** The keys of a counted series are pairwise different keys. *)
Definition distinct_keys : list (Cell * nat) -> Prop :=
  StronglySorted (fun a b => same_key (fst a) (fst b) = false).

(** A column has a missing cell. *)
Definition has_null (s : Series) : bool := existsb isna (values s).

(** A cell of a numeric or boolean column: a number, a boolean or a
    missing value, no text and no instant. *)
Definition number_or_missing (c : Cell) : bool :=
  match c with
  | Str _ | Timestamp _ => false
  | _ => true
  end.

(** A row meets every criterion of a list. *)
Definition meets (df : DataFrame) (filters : list (string * Cell))
  (row : Z * list Cell) : bool :=
  forallb (fun kv : string * Cell =>
             eq_cell (row_cell df (fst kv) row) (snd kv)) filters.

(** Counts that never go up, and running sums that never go down. *)
Definition descending (counts : list (Cell * nat)) : Prop :=
  StronglySorted (fun a b : Cell * nat => (snd b <= snd a)%nat) counts.

Definition ascending (sums : list (string * nat)) : Prop :=
  StronglySorted (fun a b : string * nat => (snd a <= snd b)%nat) sums.

(** What [value_counts] gives for a column: one entry per key that
    occurs, with the number of cells that are that key; the counts never
    go up along the entries and add up to the number of cells that are
    not missing. *)
Definition counts_of (s : Series) (counts : list (Cell * nat)) : Prop :=
  descending counts /\
  distinct_keys counts /\
  (forall k n, In (k, n) counts ->
     (0 < n)%nat /\
     n = List.length
           (filter (fun c => same_key c k) (filter notna (values s)))) /\
  (forall c, In c (values s) -> notna c = true ->
     exists k n, In (k, n) counts /\ same_key k c = true) /\
  list_sum (map snd counts) = count s.

(** The year of a row is a number once coerced. *)
Definition is_number (c : Cell) : bool :=
  match decade_of_year c with
  | Some _ => true
  | None => false
  end.

(** Every table that is set is rectangular. *)
Definition rectangular (w : World) : Prop :=
  forall df,
    tabdb (self w) = Some df \/ playdb (self w) = Some df
    \/ requestdb (self w) = Some df ->
    well_formed df.

(** The seven names [plot_data] knows. *)
Definition plot_options : list string :=
  ["Difficulty Histogram"; "Duration Histogram"; "Language Bar Chart";
   "Source Bar Chart"; "Decade Bar Chart"; "Cumulative Line Chart";
   "Gender Pie Chart"].

Definition no_data : Event :=
  showinfo "Info" "No data available for the selected filter.".

Definition not_loaded_box : Event :=
  showerror "Error"
    "Data has not been loaded. Please load the data using DataManager first.".

(* ================================================================== *)
(** * Sample data

    Three small sources and simple readings of dates and numbers, to run
    the program on. *)

Definition digit (c : ascii) : option Z :=
  let n := Z.of_nat (nat_of_ascii c) in
  if (48 <=? n) && (n <=? 57) then Some (n - 48) else None.

Fixpoint decimal_from (acc : Z) (s : string) : option Z :=
  match s with
  | EmptyString => Some acc
  | String c rest =>
      match digit c with
      | Some d => decimal_from (10 * acc + d) rest
      | None => None
      end
  end.

Definition decimal (s : string) : option Z :=
  match s with
  | EmptyString => None
  | _ => decimal_from 0 s
  end.

(** A date written YYYY-MM-DD, as the number yyyymmdd: later dates have
    greater numbers. *)
Definition iso_date (s : string) : option Z :=
  match decimal (substring 0 4 s), decimal (substring 5 2 s),
        decimal (substring 8 2 s) with
  | Some y, Some m, Some d =>
      if (String.length s =? 10)%nat
         && String.eqb (substring 4 1 s) "-"
         && String.eqb (substring 7 1 s) "-"
         && (1 <=? m) && (m <=? 12) && (1 <=? d) && (d <=? 31)
      then Some (y * 10000 + m * 100 + d)
      else None
  | _, _, _ => None
  end.

Definition sample_datetime_of (column : list Cell) (c : Cell) : option Z :=
  match c with
  | Str s => iso_date s
  | Timestamp t => Some t
  | _ => None
  end.

Definition sample_number_of_string (s : string) : option (Z + Q) :=
  option_map inl (decimal s).

(** No number of the samples is beyond 2^53, where float64 rounds: the
    roundings are not reached on them. *)
Definition sample_float64_of_int (z : Z) : Q := inject_Z z.

Definition sample_float64_floordiv10 (q : Q) : Q :=
  inject_Z (Qfloor (q / inject_Z 10)).

Definition sample_float64_mul10 (q : Q) : Q := Qred (q * inject_Z 10).

Definition texts (l : list string) : Series := mkSeries object_ (map Str l).

Definition sample_tab : DataFrame :=
  mkDataFrame [0; 1; 2]
    [("song", texts ["Song A"; "Song B"; "Song C"]);
     ("artist", texts ["Artist X"; "Artist Y"; "Artist X"]);
     ("year", mkSeries int64 [Int 1985; Int 1989; Int 1994]);
     ("type", texts ["pop"; "rock"; "rock"]);
     ("gender", texts ["male"; "female"; "female"]);
     ("duration", mkSeries float64 [Float (7 # 2); Float (4 # 1); NaN]);
     ("language", texts ["english"; "english"; "spanish"]);
     ("tabber", mkSeries object_ [Str "Tabber T"; NaN; Str "Tabber U"]);
     ("source", texts ["new"; "old"; "new"]);
     ("date", mkSeries object_ [Str "2020-01-05"; Str "2020-03-10"; NaN]);
     ("difficulty", mkSeries int64 [Int 1; Int 3; Int 2]);
     ("special books", mkSeries object_ [NaN; NaN; Str "book one"])].


Definition sample_play_first_date : Series :=
  mkSeries float64 [Float 1; NaN; Float 1; NaN; Float 1].

(** A play source of five rows: three cells of the first date column and
    the five cells of the second hold a value. *)
Definition sample_play : DataFrame :=
  mkDataFrame [0; 1; 2; 3; 4]
    [("song", texts ["Song A"; "Song B"; "Song C"; "Song D"; "Song E"]);
     ("artist",
      texts ["Artist X"; "Artist Y"; "Artist X"; "Artist Z"; "Artist Z"]);
     ("20200107", sample_play_first_date);
     ("20200114", mkSeries int64 [Int 1; Int 1; Int 1; Int 1; Int 1])].

Definition sample_request : DataFrame :=
  mkDataFrame [0; 1]
    [("song", texts ["Song A"; "Song F"]);
     ("artist", texts ["Artist X"; "Artist W"]);
     ("20200107", mkSeries object_ [Str "yes"; NaN])].

Definition no_such_file (path : string) : Exception :=
  FileNotFoundError ("[Errno 2] No such file or directory: '" ++ path ++ "'").

(** A directory with the three files. *)
Definition sample_files (path : string) : Result DataFrame :=
  if String.eqb path "tabdb.csv" then Ok sample_tab
  else if String.eqb path "playdb.csv" then Ok sample_play
  else if String.eqb path "requestdb.csv" then Ok sample_request
  else Raise (no_such_file path).


(** The directory without a tab file. *)
Definition files_without_tab (path : string) : Result DataFrame :=
  if String.eqb path "tabdb.csv" then Raise (no_such_file path)
  else sample_files path.

(** The state the script starts in. *)
Definition initial_world : World :=
  mkWorld (DataManager_init "tabdb.csv" "playdb.csv" "requestdb.csv") [].

(** The tab source with a [year] column of text. *)
Definition sample_tab_text_year : DataFrame :=
  setitem sample_tab "year" (texts ["1985"; "eighties"; "1994"]).

Definition files_tab_text_year (path : string) : Result DataFrame :=
  if String.eqb path "tabdb.csv" then Ok sample_tab_text_year
  else sample_files path.

(** A renderer that draws every chart. *)
Definition sample_render (chart : Chart) : Result unit := Ok tt.

(** The initial state with the tab source, or the play source, set as
    parsed. *)
Definition tab_world : World := with_tabdb (Some sample_tab) initial_world.

Definition play_world : World := with_playdb (Some sample_play) initial_world.

(* ================================================================== *)
(** * Facts about frames *)

Lemma has_column_lookup (df : DataFrame) (name : string) :
  has_column df name = true <->
  exists s, lookup_column name (columns df) = Some s.
Proof.
  unfold has_column, column_names. destruct df as [idx cols]; simpl.
  induction cols as [|[n s] cols IH]; simpl.
  - split; [discriminate | intros [s Hs]; discriminate].
  - destruct (String.eqb name n); simpl.
    + split; [eauto | reflexivity].
    + exact IH.
Qed.

Lemma has_column_false (df : DataFrame) (name : string) :
  has_column df name = false <-> lookup_column name (columns df) = None.
Proof.
  destruct (has_column df name) eqn:E.
  - apply has_column_lookup in E as [s Hs]. rewrite Hs.
    split; discriminate.
  - split; [intros _ | reflexivity].
    destruct (lookup_column name (columns df)) eqn:L; [|reflexivity].
    assert (has_column df name = true) by (apply has_column_lookup; eauto).
    congruence.
Qed.

Lemma numeric_column_getitem (df : DataFrame) (name : string) :
  has_column df name = true ->
  exists s, getitem df name = Ok s /\
            numeric_column df name = issubdtype_number (dtype s).
Proof.
  intros H. apply has_column_lookup in H as [s Hs].
  exists s. unfold getitem, numeric_column. rewrite Hs. auto.
Qed.

Lemma check_required_first_missing file required df :
  check_required file required df =
  match first_missing required df with
  | Some c => Raise (missing_column_error file c)
  | None => Ok tt
  end.
Proof.
  unfold first_missing.
  induction required as [|c rest IH]; simpl; [reflexivity|].
  destruct (has_column df c); simpl; [exact IH | reflexivity].
Qed.

Lemma first_missing_none required df :
  first_missing required df = None <->
  forallb (has_column df) required = true.
Proof.
  unfold first_missing.
  induction required as [|c rest IH]; simpl; [tauto|].
  destruct (has_column df c); simpl; [exact IH | split; discriminate].
Qed.

Lemma first_missing_some required df c :
  first_missing required df = Some c ->
  In c required /\ has_column df c = false.
Proof.
  unfold first_missing. intros H. apply find_some in H as [Hin Hc].
  split; [exact Hin|]. now destruct (has_column df c).
Qed.

Lemma tabdb_error_none df :
  tabdb_error df = None <-> valid_tab_source df = true.
Proof.
  unfold tabdb_error, valid_tab_source.
  destruct (first_missing required_columns_tabdb df) eqn:F.
  - split; [discriminate|]. intros H.
    apply andb_prop in H as [H _]. apply andb_prop in H as [H _].
    apply first_missing_none in H. congruence.
  - apply first_missing_none in F. rewrite F.
    destruct (numeric_column df "year"),
      (numeric_column df "difficulty"); simpl; split;
      (reflexivity || discriminate).
Qed.

Lemma playdb_error_none df :
  playdb_error df = None <-> valid_play_source df = true.
Proof.
  unfold playdb_error, valid_play_source.
  rewrite <- first_missing_none.
  destruct (first_missing required_columns_playdb df); simpl;
    split; (reflexivity || discriminate).
Qed.

Lemma requestdb_error_none df :
  requestdb_error df = None <-> valid_request_source df = true.
Proof.
  unfold requestdb_error, valid_request_source.
  rewrite <- first_missing_none.
  destruct (first_missing required_columns_requestdb df); simpl;
    split; (reflexivity || discriminate).
Qed.

(* ================================================================== *)
(** * DataManager *)

Ltac run_py :=
  cbv [bind get_self lift stored loaded ret raise print set_tabdb set_playdb
       set_requestdb try_except].

Lemma validate_tabdb_run w df :
  tabdb (self w) = Some df ->
  _validate_tabdb w =
  match tabdb_error df with
  | Some e => (w, Raise e)
  | None => (with_tabdb (Some (fillna (Str "Unknown") df)) w, Ok tt)
  end.
Proof.
  intros Ht. unfold _validate_tabdb, tabdb_error. run_py. rewrite Ht.
  cbv beta iota. rewrite check_required_first_missing.
  destruct (first_missing required_columns_tabdb df) eqn:F; [reflexivity|].
  apply first_missing_none in F.
  assert (Hy : has_column df "year" = true).
  { eapply forallb_forall in F; [exact F|]. simpl; tauto. }
  assert (Hd : has_column df "difficulty" = true).
  { eapply forallb_forall in F; [exact F|]. simpl; tauto. }
  apply numeric_column_getitem in Hy as (y & Gy & Ny).
  apply numeric_column_getitem in Hd as (x & Gd & Nd).
  rewrite Gy, Ny.
  destruct (issubdtype_number (dtype y)); simpl; [|reflexivity].
  rewrite Gd, Nd.
  destruct (issubdtype_number (dtype x)); reflexivity.
Qed.

Lemma validate_playdb_run w df :
  playdb (self w) = Some df ->
  _validate_playdb w =
  match playdb_error df with
  | Some e => (w, Raise e)
  | None => (with_playdb (Some (fillna (Str "") df)) w, Ok tt)
  end.
Proof.
  intros Hp. unfold _validate_playdb, playdb_error. run_py. rewrite Hp.
  cbv beta iota. rewrite check_required_first_missing.
  destruct (first_missing required_columns_playdb df); reflexivity.
Qed.

Lemma validate_requestdb_run w df :
  requestdb (self w) = Some df ->
  _validate_requestdb w =
  match requestdb_error df with
  | Some e => (w, Raise e)
  | None => (with_requestdb (Some (fillna (Str "") df)) w, Ok tt)
  end.
Proof.
  intros Hr. unfold _validate_requestdb, requestdb_error. run_py. rewrite Hr.
  cbv beta iota. rewrite check_required_first_missing.
  destruct (first_missing required_columns_requestdb df); reflexivity.
Qed.

Lemma load_data_handler_run e w :
  load_data_handler e w = (printed (error_line e) w, Ok tt).
Proof. destruct e; reflexivity. Qed.

(** [load_data] always returns normally, in the world described by
    [load_data_outcome]. *)
Lemma load_data_run w : load_data w = (load_data_outcome w, Ok tt).
Proof.
  unfold load_data, load_data_body, load_data_outcome, load_playdb_outcome,
    load_requestdb_outcome.
  cbv [try_except bind get_self lift set_tabdb set_playdb set_requestdb print].
  destruct (read_csv (tabdb_path (self w))) as [t|e];
    [|apply load_data_handler_run].
  rewrite (validate_tabdb_run _ t) by reflexivity.
  destruct (tabdb_error t); [apply load_data_handler_run|].
  destruct (read_csv (playdb_path (self w))) as [p|e];
    [|apply load_data_handler_run].
  rewrite (validate_playdb_run _ p) by reflexivity.
  destruct (playdb_error p); [apply load_data_handler_run|].
  destruct (read_csv (requestdb_path (self w))) as [r|e];
    [|apply load_data_handler_run].
  rewrite (validate_requestdb_run _ r) by reflexivity.
  destruct (requestdb_error r); [apply load_data_handler_run|].
  reflexivity.
Qed.

(** The later blocks of [load_data] leave the tables of the earlier ones
    and what was printed in place. *)
Lemma load_requestdb_outcome_frame d w :
  tabdb (self (load_requestdb_outcome d w)) = tabdb (self w) /\
  playdb (self (load_requestdb_outcome d w)) = playdb (self w) /\
  exists lines, stdout (load_requestdb_outcome d w) = (stdout w ++ lines)%list.
Proof.
  unfold load_requestdb_outcome.
  destruct (read_csv (requestdb_path d)) as [r|e]; simpl; [|eauto].
  destruct (requestdb_error r); simpl; eauto.
Qed.

Lemma load_playdb_outcome_frame d w :
  tabdb (self (load_playdb_outcome d w)) = tabdb (self w) /\
  exists lines, stdout (load_playdb_outcome d w) = (stdout w ++ lines)%list.
Proof.
  unfold load_playdb_outcome.
  destruct (read_csv (playdb_path d)) as [p|e]; simpl; [|eauto].
  destruct (playdb_error p); simpl; [eauto|].
  destruct (load_requestdb_outcome_frame d
              (printed "playdb.csv loaded successfully."
                 (with_playdb (Some (fillna (Str "") p)) w)))
    as (Ht & _ & lines & Hl).
  rewrite Ht, Hl. simpl. split; [reflexivity|].
  rewrite <- app_assoc. eauto.
Qed.

(** ** Filling the missing cells *)

Lemma fillna_cell_notna v c : isna v = false -> isna (fillna_cell v c) = false.
Proof. unfold fillna_cell. destruct c; simpl; auto. Qed.

Lemma fillna_index v df : index (fillna v df) = index df.
Proof. reflexivity. Qed.

Lemma fillna_column_names v df :
  column_names (fillna v df) = column_names df.
Proof.
  unfold column_names, fillna; simpl. rewrite map_map. reflexivity.
Qed.

Lemma fillna_has_column v df name :
  has_column (fillna v df) name = has_column df name.
Proof. unfold has_column. now rewrite fillna_column_names. Qed.

Lemma fillna_lookup v df name :
  lookup_column name (columns (fillna v df)) =
  option_map (fillna_series v) (lookup_column name (columns df)).
Proof.
  destruct df as [idx cols]; simpl.
  induction cols as [|[n s] cols IH]; simpl; [reflexivity|].
  destruct (String.eqb name n); [reflexivity | exact IH].
Qed.

Lemma fillna_no_null_column v df :
  isna v = false -> no_null_column (fillna v df).
Proof.
  intros Hv name s Hin. unfold fillna in Hin; simpl in Hin.
  apply in_map_iff in Hin as ([n s0] & Heq & _).
  inversion Heq; subst; simpl.
  apply Forall_map, Forall_forall. intros c _.
  now apply fillna_cell_notna.
Qed.

Lemma fillna_well_formed v df : well_formed df -> well_formed (fillna v df).
Proof.
  unfold well_formed, fillna; simpl. intros H.
  apply Forall_map. eapply Forall_impl; [|exact H].
  intros [n s]; simpl. now rewrite length_map.
Qed.

Lemma rows_of_Forall (P : Cell -> Prop) idx cols :
  Forall (fun col => List.length col = List.length idx) cols ->
  Forall (Forall P) cols ->
  Forall (fun row : Z * list Cell => Forall P (snd row)) (rows_of idx cols).
Proof.
  revert cols. induction idx as [|i idx IH]; intros cols Hlen HP; simpl.
  - constructor.
  - constructor; simpl.
    + apply Forall_map, Forall_forall. intros col Hin.
      pose proof (proj1 (Forall_forall _ _) Hlen col Hin) as L.
      pose proof (proj1 (Forall_forall _ _) HP col Hin) as Q.
      destruct col as [|c col]; [discriminate|]. now inversion Q.
    + apply IH.
      * apply Forall_map, Forall_forall. intros col Hin.
        pose proof (proj1 (Forall_forall _ _) Hlen col Hin) as L.
        destruct col as [|c col]; [discriminate|]. simpl in *. lia.
      * apply Forall_map, Forall_forall. intros col Hin.
        pose proof (proj1 (Forall_forall _ _) HP col Hin) as Q.
        destruct col as [|c col]; simpl; [constructor | now inversion Q].
Qed.

Lemma no_null_column_row df :
  well_formed df -> no_null_column df -> no_null_row df.
Proof.
  unfold well_formed, no_null_column, no_null_row, iterrows. intros W N.
  apply rows_of_Forall.
  - apply Forall_map. exact W.
  - apply Forall_map, Forall_forall. intros [n s] Hin. simpl. eauto.
Qed.

Lemma count_no_null (s : Series) :
  Forall (fun c => isna c = false) (values s) ->
  count s = List.length (values s).
Proof.
  unfold count. induction 1 as [|c l Hc _ IH]; simpl; [reflexivity|].
  unfold notna at 1. rewrite Hc. simpl. now rewrite IH.
Qed.

(** ** Loading a valid tab source *)

(** C7. For a tab source that has the twelve required columns with
    numeric [year] and [difficulty], [load_data] returns normally, reports
    the tab table as loaded and installs it with the same rows and
    columns and no missing cell, by columns and by rows: every cell that
    was missing holds the string "Unknown" and every other cell is kept. *)
Theorem load_valid_tab_fills_unknown (w : World) (df : DataFrame) :
  read_csv (tabdb_path (self w)) = Ok df ->
  valid_tab_source df = true ->
  well_formed df ->
  snd (load_data w) = Ok tt /\
  In "tabdb.csv loaded successfully." (stdout (fst (load_data w))) /\
  exists df',
    tabdb (self (fst (load_data w))) = Some df' /\
    index df' = index df /\
    column_names df' = column_names df /\
    no_null_column df' /\
    no_null_row df' /\
    forall name s,
      lookup_column name (columns df) = Some s ->
      exists s',
        lookup_column name (columns df') = Some s' /\
        values s' =
        map (fun c => if isna c then Str "Unknown" else c) (values s).
Proof.
  intros Hread Hvalid Hwf.
  rewrite load_data_run; simpl. split; [reflexivity|].
  unfold load_data_outcome. rewrite Hread.
  apply tabdb_error_none in Hvalid. rewrite Hvalid.
  match goal with
  | |- context [load_playdb_outcome ?d ?w0] =>
      destruct (load_playdb_outcome_frame d w0) as (Ht & lines & Hl)
  end.
  rewrite Ht, Hl. simpl. split.
  - apply in_or_app; left. apply in_or_app; right. simpl; auto.
  - exists (fillna (Str "Unknown") df).
    split; [reflexivity|].
    split; [apply fillna_index|].
    split; [apply fillna_column_names|].
    split; [now apply fillna_no_null_column|].
    split.
    + apply no_null_column_row;
        [now apply fillna_well_formed | now apply fillna_no_null_column].
    + intros name s Hs. rewrite fillna_lookup, Hs. simpl. eauto.
Qed.

(** ** A tab source that lacks a required column *)


(** ** The play table after validation *)

Lemma drop_columns_subset df names dropped :
  drop df names = Ok dropped ->
  index dropped = index df /\
  forall c, In c (columns dropped) -> In c (columns df).
Proof.
  unfold drop.
  destruct (find (fun n => negb (has_column df n)) names); [discriminate|].
  intros H. inversion H; subst; simpl. split; [reflexivity|].
  intros c Hc. apply filter_In in Hc. tauto.
Qed.

Lemma drop_ok df names :
  forallb (has_column df) names = true ->
  exists dropped, drop df names = Ok dropped.
Proof.
  intros H. unfold drop.
  destruct (find (fun n => negb (has_column df n)) names) eqn:F; [|eauto].
  apply find_some in F as [Hin Hc].
  rewrite (proj1 (forallb_forall _ _) H _ Hin) in Hc. discriminate.
Qed.

Lemma lookup_column_In name cols s :
  lookup_column name cols = Some s -> In (name, s) cols.
Proof.
  induction cols as [|[n s0] cols IH]; simpl; [discriminate|].
  destruct (String.eqb name n) eqn:E.
  - apply String.eqb_eq in E. subst n. intros H; inversion H; auto.
  - auto.
Qed.

Lemma count_song_plays_run w df name :
  playdb (self w) = Some df ->
  count_song_plays name w =
  (w, match getitem df name with
      | Ok s => Ok (count s)
      | Raise e => Raise e
      end).
Proof.
  intros Hp. unfold count_song_plays. run_py. rewrite Hp. cbv beta iota.
  destruct (getitem df name); reflexivity.
Qed.

Lemma plot_cumulative_line_chart_run w df :
  playdb (self w) = Some df ->
  plot_cumulative_line_chart w =
  (w, match drop df ["song"; "artist"] with
      | Ok dropped => Ok (cumsum (count_axis0 dropped))
      | Raise e => Raise e
      end).
Proof.
  intros Hp. unfold plot_cumulative_line_chart. run_py. rewrite Hp.
  cbv beta iota. destruct (drop df ["song"; "artist"]); reflexivity.
Qed.

(** C10. When [_validate_playdb] succeeds, the play table it leaves has a
    value in every cell, the empty string standing where the source had
    none; hence the count of non-missing cells of any of its columns, as
    [count_song_plays] returns it and as [plot_cumulative_line_chart]
    takes it for each column it keeps, is the number of rows of the
    table. *)
Theorem validated_playdb_counts_every_row (w w' : World) (df : DataFrame) :
  playdb (self w) = Some df ->
  well_formed df ->
  _validate_playdb w = (w', Ok tt) ->
  exists df',
    playdb (self w') = Some df' /\
    df' = fillna (Str "") df /\
    no_null_column df' /\
    List.length (index df') = List.length (index df) /\
    (forall name, has_column df' name = true ->
       count_song_plays name w' = (w', Ok (List.length (index df)))) /\
    exists dropped,
      drop df' ["song"; "artist"] = Ok dropped /\
      count_axis0 dropped =
      map (fun c => (fst c, List.length (index df))) (columns dropped) /\
      plot_cumulative_line_chart w' =
      (w', Ok (cumsum (map (fun c => (fst c, List.length (index df)))
                         (columns dropped)))).
Proof.
  intros Hp Hwf Hrun. rewrite (validate_playdb_run _ df Hp) in Hrun.
  destruct (playdb_error df) eqn:E; [discriminate|].
  inversion Hrun; subst w'; clear Hrun.
  apply playdb_error_none in E.
  pose proof (fillna_no_null_column (Str "") df eq_refl) as Hnn.
  pose proof (fillna_well_formed (Str "") df Hwf) as Hwf'.
  assert (Hcount : forall name s,
             In (name, s) (columns (fillna (Str "") df)) ->
             count s = List.length (index df)).
  { intros name s Hin. rewrite count_no_null by (eapply Hnn; eauto).
    unfold well_formed in Hwf'.
    apply (proj1 (Forall_forall _ _) Hwf' (name, s) Hin). }
  exists (fillna (Str "") df).
  split; [reflexivity|]. split; [reflexivity|]. split; [exact Hnn|].
  split; [reflexivity|]. split.
  - intros name Hc. apply has_column_lookup in Hc as [s Hs].
    rewrite (count_song_plays_run _ (fillna (Str "") df)) by reflexivity.
    unfold getitem. rewrite Hs. f_equal. f_equal.
    eapply Hcount, lookup_column_In, Hs.
  - destruct (drop_ok (fillna (Str "") df) ["song"; "artist"])
      as [dropped Hd].
    { unfold valid_play_source, required_columns_playdb in E.
      simpl in *. now rewrite !fillna_has_column. }
    exists dropped. split; [exact Hd|].
    assert (Hc : count_axis0 dropped =
                 map (fun c => (fst c, List.length (index df)))
                   (columns dropped)).
    { unfold count_axis0. apply map_ext_in. intros [n s] Hin. simpl.
      f_equal. apply (Hcount n).
      now apply (proj2 (drop_columns_subset _ _ _ Hd)). }
    split; [exact Hc|].
    rewrite (plot_cumulative_line_chart_run _ (fillna (Str "") df))
      by reflexivity.
    now rewrite Hd, Hc.
Qed.

(* ================================================================== *)
(** * Masks and rows *)

Lemma select_map_filter {A} (p : A -> bool) (l : list A) :
  select (map p l) l = filter p l.
Proof.
  induction l as [|x l IH]; simpl; [reflexivity|].
  destruct (p x); now rewrite IH.
Qed.

Lemma select_map {A B} (g : A -> B) (m : list bool) (l : list A) :
  map g (select m l) = select m (map g l).
Proof.
  revert l. induction m as [|b m IH]; intros [|x l]; simpl; try reflexivity.
  destruct b; simpl; now rewrite IH.
Qed.

Lemma select_length_eq {A B} (m : list bool) (l1 : list A) (l2 : list B) :
  List.length l1 = List.length l2 ->
  List.length (select m l1) = List.length (select m l2).
Proof.
  revert l1 l2. induction m as [|b m IH]; intros [|x l1] [|y l2] H;
    simpl in *; try reflexivity; try discriminate.
  destruct b; simpl; auto.
Qed.

Lemma filter_filter {A} (p q : A -> bool) (l : list A) :
  filter q (filter p l) = filter (fun x => p x && q x) l.
Proof.
  induction l as [|x l IH]; simpl; [reflexivity|].
  destruct (p x); simpl; [destruct (q x)|]; now rewrite IH.
Qed.

Lemma rows_of_cons i idx cols :
  rows_of (i :: idx) cols
  = (i, map (hd NaN) cols) :: rows_of idx (map (@tl Cell) cols).
Proof. reflexivity. Qed.

Lemma select_cons {A} (b : bool) m (x : A) l :
  select (b :: m) (x :: l) = if b then x :: select m l else select m l.
Proof. reflexivity. Qed.

Lemma rows_of_select m idx cols :
  List.length m = List.length idx ->
  Forall (fun col => List.length col = List.length idx) cols ->
  rows_of (select m idx) (map (select m) cols) = select m (rows_of idx cols).
Proof.
  revert idx cols.
  induction m as [|b m IH]; intros [|i idx] cols Hm Hc;
    simpl in Hm; try discriminate; [reflexivity|].
  injection Hm as Hm.
  assert (Htl : Forall (fun col => List.length col = List.length idx)
                  (map (@tl Cell) cols)).
  { apply Forall_map. eapply Forall_impl; [|exact Hc].
    intros [|c col] L; simpl in *; [discriminate | lia]. }
  assert (Hne : forall col, In col cols -> exists c col', col = c :: col').
  { intros col Hin. pose proof (proj1 (Forall_forall _ _) Hc col Hin) as L.
    destruct col as [|c col']; [discriminate | eauto]. }
  destruct b.
  - assert (Hhd : map (hd NaN) (map (select (true :: m)) cols)
                  = map (hd NaN) cols).
    { rewrite map_map. apply map_ext_in. intros col Hin.
      destruct (Hne col Hin) as (c & col' & ->). reflexivity. }
    assert (Htl' : map (@tl Cell) (map (select (true :: m)) cols)
                   = map (select m) (map (@tl Cell) cols)).
    { rewrite !map_map. apply map_ext_in. intros col Hin.
      destruct (Hne col Hin) as (c & col' & ->). reflexivity. }
    rewrite !rows_of_cons, !select_cons, rows_of_cons, Hhd, Htl'.
    now rewrite <- IH by assumption.
  - assert (Hsel : map (select (false :: m)) cols
                   = map (select m) (map (@tl Cell) cols)).
    { rewrite map_map. apply map_ext_in. intros col Hin.
      destruct (Hne col Hin) as (c & col' & ->). reflexivity. }
    rewrite rows_of_cons, !select_cons, Hsel.
    now rewrite <- IH by assumption.
Qed.

Lemma iterrows_loc df m :
  well_formed df ->
  List.length m = List.length (index df) ->
  iterrows (loc df m) = select m (iterrows df).
Proof.
  intros W Hm. unfold iterrows, loc; simpl.
  rewrite <- rows_of_select; [|exact Hm|apply Forall_map; exact W].
  f_equal. rewrite !map_map. reflexivity.
Qed.

Lemma rows_of_labels idx cols : map fst (rows_of idx cols) = idx.
Proof.
  revert cols. induction idx as [|i idx IH]; intros cols; simpl;
    [reflexivity | now rewrite IH].
Qed.

Lemma rows_of_length idx cols : List.length (rows_of idx cols) = List.length idx.
Proof. rewrite <- (rows_of_labels idx cols) at 2. now rewrite length_map. Qed.

Lemma rows_of_column k idx cols :
  Forall (fun col => List.length col = List.length idx) cols ->
  (k < List.length cols)%nat ->
  map (fun row : Z * list Cell => nth k (snd row) NaN) (rows_of idx cols)
  = nth k cols [].
Proof.
  revert cols. induction idx as [|i idx IH]; intros cols Hc Hk; simpl.
  - pose proof (proj1 (Forall_forall _ _) Hc (nth k cols [])
                  (nth_In cols [] Hk)) as L.
    destruct (nth k cols []); [reflexivity | discriminate].
  - rewrite IH.
    + pose proof (proj1 (Forall_forall _ _) Hc (nth k cols [])
                    (nth_In cols [] Hk)) as L.
      change (nth k (map (hd NaN) cols) NaN)
        with (nth k (map (hd NaN) cols) (hd NaN (@nil Cell))).
      change (nth k (map (@tl Cell) cols) [])
        with (nth k (map (@tl Cell) cols) (tl (@nil Cell))).
      rewrite !map_nth.
      destruct (nth k cols []); [discriminate | reflexivity].
    + apply Forall_map. eapply Forall_impl; [|exact Hc].
      intros [|c col] L; simpl in *; [discriminate | lia].
    + now rewrite length_map.
Qed.

Lemma lookup_position name cols s :
  lookup_column name cols = Some s ->
  exists k, position name (map fst cols) = Some k /\
            (k < List.length cols)%nat /\
            nth k (map (fun c => values (snd c)) cols) [] = values s.
Proof.
  induction cols as [|[n s0] cols IH]; simpl; [discriminate|].
  destruct (String.eqb name n).
  - intros H; inversion H; subst. exists O. repeat split. lia.
  - intros H. destruct (IH H) as (k & Hp & Hk & Hn).
    exists (S k). rewrite Hp. simpl. repeat split; [lia | exact Hn].
Qed.

(** A column is the list of the cells its name selects in the rows. *)
Lemma column_as_rows df name s :
  well_formed df ->
  lookup_column name (columns df) = Some s ->
  values s = map (row_cell df name) (iterrows df).
Proof.
  intros W L. destruct (lookup_position _ _ _ L) as (k & Hp & Hk & Hn).
  unfold row_cell, column_names, iterrows. rewrite Hp, <- Hn.
  symmetry. apply rows_of_column.
  - apply Forall_map. exact W.
  - now rewrite length_map.
Qed.

(** Selecting by a mask computed from a column is filtering the rows by
    that column's cell. *)
Lemma loc_rows_by_column df name s (f : Cell -> bool) :
  well_formed df ->
  lookup_column name (columns df) = Some s ->
  iterrows (loc df (map f (values s)))
  = filter (fun row => f (row_cell df name row)) (iterrows df).
Proof.
  intros W L. rewrite iterrows_loc; [|exact W|].
  - rewrite (column_as_rows df name s W L), map_map.
    apply select_map_filter.
  - rewrite length_map.
    apply (proj1 (Forall_forall _ _) W (name, s)).
    now apply lookup_column_In.
Qed.

Lemma loc_column_names df m : column_names (loc df m) = column_names df.
Proof. unfold column_names, loc; simpl. now rewrite map_map. Qed.

Lemma loc_has_column df m name :
  has_column (loc df m) name = has_column df name.
Proof. unfold has_column. now rewrite loc_column_names. Qed.

Lemma loc_well_formed df m : well_formed df -> well_formed (loc df m).
Proof.
  unfold well_formed, loc; simpl. intros W. apply Forall_map.
  eapply Forall_impl; [|exact W]. intros [n s] L; simpl in *.
  now apply select_length_eq.
Qed.

Lemma loc_row_cell df m name row :
  row_cell (loc df m) name row = row_cell df name row.
Proof. unfold row_cell. now rewrite loc_column_names. Qed.

(* ================================================================== *)
(** * QueryManager *)

Lemma filter_tabdb_run w df filters :
  tabdb (self w) = Some df ->
  filter_tabdb filters w = (w, filter_loop df filters).
Proof.
  intros Ht. unfold filter_tabdb. run_py. rewrite Ht. reflexivity.
Qed.

Lemma filter_loop_step df column value rest s :
  lookup_column column (columns df) = Some s ->
  filter_loop df ((column, value) :: rest)
  = filter_loop (loc df (map (fun c => eq_cell c value) (values s))) rest.
Proof.
  intros L. simpl. unfold getitem. rewrite L.
  assert (has_column df column = true) as ->; [|reflexivity].
  apply has_column_lookup; eauto.
Qed.

Lemma filter_loop_unknown df filters :
  (exists c, In c (map fst filters) /\ has_column df c = false) ->
  exists c, In c (map fst filters) /\ has_column df c = false /\
            filter_loop df filters = Raise (unknown_column_error c).
Proof.
  revert df. induction filters as [|[column value] rest IH];
    intros df (c & Hin & Hc); [destruct Hin|].
  destruct (has_column df column) eqn:E.
  - destruct (proj1 (has_column_lookup df column) E) as [s Hs].
    rewrite (filter_loop_step _ _ _ _ s Hs).
    destruct Hin as [<-|Hin]; [simpl in Hc; congruence|].
    destruct (IH (loc df (map (fun c0 => eq_cell c0 value) (values s))))
      as (c' & Hin' & Hc' & Hrun).
    { exists c. split; [exact Hin|]. now rewrite loc_has_column. }
    exists c'. rewrite loc_has_column in Hc'. simpl. auto.
  - exists column. simpl. rewrite E. auto.
Qed.

(** C6. When a criterion of [filter_tabdb] names a column the tab table
    does not have, the call raises the error of an unknown column, whose
    message quotes a criterion column that is absent; no frame is
    returned and the manager, with its stored tables, is as before. *)
Theorem filter_tabdb_unknown_column
  (w : World) (df : DataFrame) (filters : list (string * Cell)) :
  tabdb (self w) = Some df ->
  (exists c, In c (map fst filters) /\ has_column df c = false) ->
  exists c,
    In c (map fst filters) /\
    has_column df c = false /\
    filter_tabdb filters w =
    (w, Raise (ValueError ("Column '" ++ c ++ "' does not exist in tabdb."))).
Proof.
  intros Ht Habs. rewrite (filter_tabdb_run _ df) by exact Ht.
  destruct (filter_loop_unknown df filters Habs) as (c & Hin & Hc & Hrun).
  exists c. rewrite Hrun. auto.
Qed.

Lemma loc_lookup df m name :
  lookup_column name (columns (loc df m)) =
  option_map (fun s => mkSeries (dtype s) (select m (values s)))
    (lookup_column name (columns df)).
Proof.
  destruct df as [idx cols]; simpl.
  induction cols as [|[n s] cols IH]; simpl; [reflexivity|].
  destruct (String.eqb name n); [reflexivity | exact IH].
Qed.

Lemma select_all_true {A} (m : list bool) (l : list A) :
  Forall (fun b => b = true) m ->
  List.length m = List.length l ->
  select m l = l.
Proof.
  intros H. revert l. induction H as [|b m Hb _ IH]; intros [|x l] L;
    simpl in *; try reflexivity; try discriminate.
  subst b. f_equal. apply IH. lia.
Qed.

Lemma map_filter_all_true {A} (p : A -> bool) (l : list A) :
  Forall (fun b => b = true) (map p (filter p l)).
Proof.
  apply Forall_map, Forall_forall. intros x Hx.
  now apply filter_In in Hx.
Qed.

(** Selecting again by the criterion that selected a frame gives the
    frame. *)
Lemma loc_idempotent df name s (p : Cell -> bool) :
  well_formed df ->
  lookup_column name (columns df) = Some s ->
  let r1 := loc df (map p (values s)) in
  forall s', lookup_column name (columns r1) = Some s' ->
  loc r1 (map p (values s')) = r1.
Proof.
  intros W L r1 s' L'. unfold r1 in L'. rewrite loc_lookup, L in L'.
  simpl in L'. inversion L'; subst s'; clear L'. simpl values.
  rewrite select_map_filter.
  assert (Hlen : forall {B} (x : list B),
             List.length x = List.length (values s) ->
             select (map p (filter p (values s)))
               (select (map p (values s)) x)
             = select (map p (values s)) x).
  { intros B x Hx. apply select_all_true; [apply map_filter_all_true|].
    rewrite length_map, <- select_map_filter.
    symmetry. now apply select_length_eq. }
  assert (Hs : List.length (values s) = List.length (index df)).
  { apply (proj1 (Forall_forall _ _) W (name, s)).
    now apply lookup_column_In. }
  unfold r1, loc; simpl. f_equal.
  - apply Hlen. now rewrite Hs.
  - rewrite map_map. apply map_ext_in. intros [n c] Hin. simpl.
    f_equal. f_equal. apply Hlen.
    rewrite Hs. apply (proj1 (Forall_forall _ _) W (n, c) Hin).
Qed.

(** C5. For two columns of the tab table and two values that fit in one
    mapping (the columns differ, or the values are one value), filtering
    by [{col: v}] and then filtering the result by [{col2: v2}] gives the
    frame that one call with [{col: v, col2: v2}] gives; its rows are the
    rows of the table that have [v] under [col] and [v2] under [col2], in
    the order of the table. *)
Theorem filter_tabdb_and_composes
  (w : World) (df : DataFrame) (col col2 : string) (v v2 : Cell) :
  tabdb (self w) = Some df ->
  well_formed df ->
  has_column df col = true ->
  has_column df col2 = true ->
  col <> col2 \/ v = v2 ->
  exists r1 r,
    filter_tabdb (dict_of [(col, v)]) w = (w, Ok r1) /\
    filter_tabdb (dict_of [(col2, v2)]) (with_tabdb (Some r1) w)
    = (with_tabdb (Some r1) w, Ok r) /\
    filter_tabdb (dict_of [(col, v); (col2, v2)]) w = (w, Ok r) /\
    iterrows r =
    filter (fun row => eq_cell (row_cell df col row) v
                       && eq_cell (row_cell df col2 row) v2)
      (iterrows df).
Proof.
  intros Ht W Hc Hc2 Hfit.
  apply has_column_lookup in Hc as [s Hs].
  apply has_column_lookup in Hc2 as [s2 Hs2].
  set (r1 := loc df (map (fun c => eq_cell c v) (values s))).
  assert (Hs2' : exists s2', lookup_column col2 (columns r1) = Some s2').
  { apply has_column_lookup. unfold r1. rewrite loc_has_column.
    apply has_column_lookup. eauto. }
  destruct Hs2' as [s2' Hs2'].
  set (r := loc r1 (map (fun c => eq_cell c v2) (values s2'))).
  assert (Hrows : iterrows r =
                  filter (fun row => eq_cell (row_cell df col row) v
                                     && eq_cell (row_cell df col2 row) v2)
                    (iterrows df)).
  { unfold r. rewrite (loc_rows_by_column r1 col2 s2'
                         (fun c => eq_cell c v2));
      [|now apply loc_well_formed|exact Hs2'].
    unfold r1 at 2.
    rewrite (loc_rows_by_column df col s (fun c => eq_cell c v) W Hs).
    rewrite filter_filter. apply filter_ext. intros row.
    unfold r1. now rewrite loc_row_cell. }
  exists r1, r.
  change (dict_of [(col, v)]) with [(col, v)].
  change (dict_of [(col2, v2)]) with [(col2, v2)].
  rewrite (filter_tabdb_run w df [(col, v)] Ht).
  rewrite (filter_tabdb_run _ r1 [(col2, v2)]) by reflexivity.
  rewrite (filter_tabdb_run w df _ Ht).
  rewrite (filter_loop_step df col v [] s Hs). fold r1.
  rewrite (filter_loop_step r1 col2 v2 [] s2' Hs2'). fold r.
  split; [reflexivity|]. split; [reflexivity|]. split; [|exact Hrows].
  destruct (String.eqb col2 col) eqn:E.
  - (* one column: the mapping has one entry *)
    apply String.eqb_eq in E. subst col2.
    destruct Hfit as [Hne|Hv]; [congruence|]. subst v2.
    assert (Hd : dict_of [(col, v); (col, v)] = [(col, v)]).
    { unfold dict_of; simpl. now rewrite String.eqb_refl. }
    rewrite Hd, (filter_loop_step df col v [] s Hs). fold r1.
    simpl filter_loop. do 2 f_equal. symmetry. unfold r, r1.
    exact (loc_idempotent df col s (fun c => eq_cell c v) W Hs s2' Hs2').
  - assert (Hd : dict_of [(col, v); (col2, v2)] = [(col, v); (col2, v2)]).
    { unfold dict_of; simpl. now rewrite E. }
    rewrite Hd, (filter_loop_step df col v [(col2, v2)] s Hs). fold r1.
    now rewrite (filter_loop_step r1 col2 v2 [] s2' Hs2').
Qed.

(** ** The date range *)

Lemma lookup_set_column_same name s cols :
  lookup_column name (set_column name s cols) = Some s.
Proof.
  induction cols as [|[n old] cols IH]; simpl.
  - now rewrite String.eqb_refl.
  - destruct (String.eqb name n) eqn:E; simpl; rewrite E; auto.
Qed.

Lemma getitem_setitem df name s : getitem (setitem df name s) name = Ok s.
Proof. unfold getitem, setitem; simpl. now rewrite lookup_set_column_same. Qed.

Lemma setitem_well_formed df name s :
  well_formed df ->
  List.length (values s) = List.length (index df) ->
  well_formed (setitem df name s).
Proof.
  unfold well_formed, setitem; simpl. intros W L.
  induction (columns df) as [|[n old] cols IH]; simpl.
  - constructor; [exact L | constructor].
  - inversion W; subst.
    destruct (String.eqb name n); constructor; auto.
Qed.

Lemma and_masks_map {A} (f g : A -> bool) (l : list A) :
  and_masks (map f l) (map g l) = map (fun x => f x && g x) l.
Proof. induction l as [|x l IH]; simpl; [reflexivity | now rewrite IH]. Qed.

Lemma filter_by_date_range_run w df date start_date end_date lo hi :
  tabdb (self w) = Some df ->
  lookup_column "date" (columns df) = Some date ->
  Timestamp_of_string start_date = Some lo ->
  Timestamp_of_string end_date = Some hi ->
  filter_by_date_range start_date end_date w =
  (with_tabdb (Some (setitem df "date" (to_datetime date))) w,
   Ok (loc (setitem df "date" (to_datetime date))
         (map (date_within lo hi) (values (to_datetime date))))).
Proof.
  intros Ht Hd Hlo Hhi. unfold filter_by_date_range. run_py.
  rewrite Ht. cbv beta iota. unfold getitem at 1. rewrite Hd.
  cbv beta iota. rewrite getitem_setitem.
  unfold compare_datetime. rewrite Hlo, Hhi. cbv beta iota.
  rewrite and_masks_map. f_equal. f_equal. f_equal.
  apply map_ext. intros [| | | | |t]; try reflexivity.
  unfold date_within. now rewrite Z.geb_leb.
Qed.

(** C4. On a tab table with a [date] column and for bounds that denote
    the instants [lo <= hi], [filter_by_date_range] returns the rows,
    taken in the order of the table, whose date cell parses to an instant
    [t] with [lo <= t <= hi]; a row whose date does not parse is left out
    whatever the bounds; with [lo = hi] the rows returned are those whose
    date parses to that instant.  The rows come from the frame in which
    the date column holds the parsed instants. *)
Theorem filter_by_date_range_selects
  (w : World) (df : DataFrame) (date : Series)
  (start_date end_date : string) (lo hi : Z) :
  tabdb (self w) = Some df ->
  well_formed df ->
  lookup_column "date" (columns df) = Some date ->
  Timestamp_of_string start_date = Some lo ->
  Timestamp_of_string end_date = Some hi ->
  lo <= hi ->
  let parsed := setitem df "date" (to_datetime date) in
  exists r,
    snd (filter_by_date_range start_date end_date w) = Ok r /\
    index r =
    map fst (filter (fun row => parses_within (values date) lo hi
                                  (row_cell df "date" row))
               (iterrows df)) /\
    iterrows r =
    filter (fun row => date_within lo hi (row_cell parsed "date" row))
      (iterrows parsed) /\
    (forall row, In row (iterrows r) ->
       exists t, row_cell parsed "date" row = Timestamp t /\ lo <= t <= hi) /\
    (lo = hi ->
     forall row, In row (iterrows r) <->
                 In row (iterrows parsed) /\
                 row_cell parsed "date" row = Timestamp lo).
Proof.
  intros Ht W Hd Hlo Hhi Hle parsed.
  rewrite (filter_by_date_range_run w df date start_date end_date lo hi)
    by assumption.
  fold parsed. simpl snd.
  set (r := loc parsed (map (date_within lo hi) (values (to_datetime date)))).
  assert (Wp : well_formed parsed).
  { apply setitem_well_formed; [exact W|]. simpl. rewrite length_map.
    apply (proj1 (Forall_forall _ _) W ("date", date)).
    now apply lookup_column_In. }
  assert (Hrows : iterrows r =
                  filter (fun row => date_within lo hi
                                       (row_cell parsed "date" row))
                    (iterrows parsed)).
  { unfold r. apply loc_rows_by_column; [exact Wp|].
    unfold parsed, setitem; simpl. apply lookup_set_column_same. }
  assert (Hwithin : forall c, date_within lo hi c = true ->
                      exists t, c = Timestamp t /\ lo <= t <= hi).
  { intros [| | | | |t] Hc; try discriminate. exists t. split; [reflexivity|].
    simpl in Hc. apply andb_prop in Hc as [H1 H2].
    apply Z.leb_le in H1. apply Z.leb_le in H2. lia. }
  exists r. split; [reflexivity|]. split; [|split; [exact Hrows|split]].
  - change (index r)
      with (select (map (date_within lo hi) (values (to_datetime date)))
              (index df)).
    assert (Hmask : map (date_within lo hi) (values (to_datetime date))
                    = map (fun row => parses_within (values date) lo hi
                                        (row_cell df "date" row))
                        (iterrows df)).
    { unfold to_datetime; simpl values. generalize (values date) at 1 3.
      intros col. rewrite (column_as_rows df "date" date W Hd).
      rewrite !map_map. apply map_ext. intros row. unfold parses_within.
      destruct (datetime_of _ _); reflexivity. }
    rewrite Hmask, <- select_map_filter, select_map.
    f_equal. unfold iterrows. now rewrite rows_of_labels.
  - intros row Hin. rewrite Hrows in Hin. apply filter_In in Hin as [_ Hc].
    now apply Hwithin.
  - intros -> row. rewrite Hrows, filter_In. split; intros [Hin Hc].
    + split; [exact Hin|]. destruct (Hwithin _ Hc) as (t & -> & Ht').
      f_equal. lia.
    + split; [exact Hin|]. rewrite Hc. simpl.
      rewrite Z.leb_refl. reflexivity.
Qed.

(* ================================================================== *)
(** * PlotManager *)

(** ** The cumulative line chart *)

Lemma cumsum_from_names acc l : map fst (cumsum_from acc l) = map fst l.
Proof.
  revert acc. induction l as [|[n x] l IH]; intros acc; simpl;
    [reflexivity | now rewrite IH].
Qed.

Lemma cumsum_from_nth acc l k :
  (k < List.length l)%nat ->
  nth k (map snd (cumsum_from acc l)) O
  = (acc + list_sum (firstn (S k) (map snd l)))%nat.
Proof.
  revert acc k. induction l as [|[n x] l IH]; intros acc k Hk; simpl in Hk;
    [lia|].
  destruct k as [|k].
  - simpl. lia.
  - change (nth (S k) (map snd (cumsum_from acc ((n, x) :: l))) O)
      with (nth k (map snd (cumsum_from (acc + x) l)) O).
    rewrite IH by lia.
    change (firstn (S (S k)) (map snd ((n, x) :: l)))
      with (x :: firstn (S k) (map snd l)).
    simpl list_sum. lia.
Qed.

(** C9. On a play table that has the [song] and [artist] columns,
    [plot_cumulative_line_chart] plots, for the other columns in the
    order they have in the table and under their names, the running sums
    of their counts of non-missing cells: the k-th value is the sum of
    the counts of the first k columns kept.  When those counts are 3 and
    5 the values are 3 and 8. *)
Theorem plot_cumulative_line_chart_running_sums (w : World) (df : DataFrame) :
  playdb (self w) = Some df ->
  has_column df "song" = true ->
  has_column df "artist" = true ->
  let kept :=
    filter (fun c => negb (existsb (String.eqb (fst c)) ["song"; "artist"]))
      (columns df) in
  let counts := map (fun c => count (snd c)) kept in
  exists sums,
    plot_cumulative_line_chart w = (w, Ok sums) /\
    map fst sums = map fst kept /\
    (forall k, (k < List.length kept)%nat ->
       nth k (map snd sums) O = list_sum (firstn (S k) counts)) /\
    (counts = [3; 5]%nat -> map snd sums = [3; 8]%nat).
Proof.
  intros Hp Hs Ha kept counts.
  rewrite (plot_cumulative_line_chart_run w df Hp).
  unfold drop. simpl find. rewrite Hs, Ha. simpl find. fold kept.
  exists (cumsum (count_axis0 (mkDataFrame (index df) kept))).
  split; [reflexivity|].
  unfold cumsum, count_axis0; simpl columns.
  assert (Hc : map snd (map (fun c : string * Series => (fst c, count (snd c)))
                          kept) = counts).
  { unfold counts. rewrite map_map. reflexivity. }
  split; [|split].
  - rewrite cumsum_from_names, map_map. reflexivity.
  - intros k Hk. rewrite cumsum_from_nth by now rewrite length_map.
    rewrite Hc. reflexivity.
  - intros H35. rewrite <- Hc in H35.
    destruct (map (fun c : string * Series => (fst c, count (snd c))) kept)
      as [|[n1 x1] [|[n2 x2] [|e l]]]; try discriminate.
    simpl in H35. inversion H35; subst. reflexivity.
Qed.

(** ** Keys of a count *)

Lemma same_kind_sym a b : same_kind a b = same_kind b a.
Proof. destruct a, b; simpl; try reflexivity. apply String.eqb_sym. Qed.

Lemma same_kind_trans a b c :
  same_kind a b = true -> same_kind b c = true -> same_kind a c = true.
Proof.
  destruct a, b, c; simpl; try discriminate; try reflexivity.
  intros H1 H2. apply String.eqb_eq in H1. apply String.eqb_eq in H2.
  subst. apply String.eqb_refl.
Qed.

Lemma same_key_refl a : same_key a a = true.
Proof.
  unfold same_key. rewrite Qeq_bool_refl, andb_true_r.
  destruct a; simpl; try reflexivity. apply String.eqb_refl.
Qed.

Lemma same_key_sym a b : same_key a b = same_key b a.
Proof.
  unfold same_key. rewrite same_kind_sym. f_equal.
  destruct (Qeq_bool (num_value a) (num_value b)) eqn:E.
  - symmetry. now apply Qeq_bool_sym.
  - destruct (Qeq_bool (num_value b) (num_value a)) eqn:E'; [|reflexivity].
    apply Qeq_bool_sym in E'. congruence.
Qed.

Lemma same_key_trans a b c :
  same_key a b = true -> same_key b c = true -> same_key a c = true.
Proof.
  unfold same_key. intros H1 H2.
  apply andb_prop in H1 as [K1 Q1]. apply andb_prop in H2 as [K2 Q2].
  rewrite (same_kind_trans a b c K1 K2). simpl.
  eapply Qeq_bool_trans; eauto.
Qed.

(** Two cells that are the same key are the same key as the same cells. *)
Lemma same_key_congr a b k :
  same_key a b = true -> same_key a k = same_key b k.
Proof.
  intros H. destruct (same_key b k) eqn:E.
  - eapply same_key_trans; eauto.
  - destruct (same_key a k) eqn:E'; [|reflexivity].
    rewrite same_key_sym in H.
    rewrite (same_key_trans b a k H E') in E. discriminate.
Qed.

(** The count a counted series gives to the key of a cell. *)
Lemma count_for_bump k x acc :
  list_sum (map snd (filter (fun e : Cell * nat => same_key (fst e) k)
                       (bump x acc)))
  = (list_sum (map snd (filter (fun e : Cell * nat => same_key (fst e) k)
                          acc))
     + if same_key x k then 1 else 0)%nat.
Proof.
  induction acc as [|[k' n] acc IH]; simpl.
  - destruct (same_key x k); reflexivity.
  - destruct (same_key k' x) eqn:E; simpl.
    + rewrite <- (same_key_congr k' x k E).
      destruct (same_key k' k); simpl; lia.
    + destruct (same_key k' k); simpl; rewrite IH; lia.
Qed.

Lemma tally_snoc l x : tally (l ++ [x]) = bump x (tally l).
Proof. unfold tally. now rewrite fold_left_app. Qed.

Lemma count_for_tally k l :
  list_sum (map snd (filter (fun e : Cell * nat => same_key (fst e) k)
                       (tally l)))
  = List.length (filter (fun c => same_key c k) l).
Proof.
  induction l as [|x l IH] using rev_ind; [reflexivity|].
  rewrite tally_snoc, count_for_bump, IH, filter_app, length_app. simpl.
  destruct (same_key x k); reflexivity.
Qed.

Lemma bump_keys x acc e :
  In e (bump x acc) -> fst e = x \/ exists e', In e' acc /\ fst e' = fst e.
Proof.
  induction acc as [|[k' n] acc IH]; simpl.
  - intros [<-|[]]. now left.
  - destruct (same_key k' x); simpl.
    + intros [<-|H]; right; [exists (k', n) | exists e]; simpl; auto.
    + intros [<-|H]; [right; exists (k', n); simpl; auto|].
      destruct (IH H) as [?|(e' & He' & Hk)]; [now left|].
      right. exists e'. auto.
Qed.

Lemma tally_keys l e : In e (tally l) -> In (fst e) l.
Proof.
  revert e. induction l as [|x l IH] using rev_ind; intros e; [intros []|].
  rewrite tally_snoc. intros H. apply in_or_app.
  destruct (bump_keys _ _ _ H) as [->|(e' & He' & <-)];
    [right; simpl; auto | left; auto].
Qed.

Lemma bump_distinct x acc : distinct_keys acc -> distinct_keys (bump x acc).
Proof.
  unfold distinct_keys.
  induction acc as [|[k' n] acc IH]; simpl; intros H.
  - constructor; constructor.
  - inversion H as [|? ? Hs Hf]; subst.
    destruct (same_key k' x) eqn:E.
    + constructor; [exact Hs|]. exact Hf.
    + constructor; [auto|].
      apply Forall_forall. intros e He.
      destruct (bump_keys _ _ _ He) as [->|(e' & He' & <-)];
        [exact E|].
      apply (proj1 (Forall_forall _ _) Hf e' He').
Qed.

Lemma tally_distinct l : distinct_keys (tally l).
Proof.
  induction l as [|x l IH] using rev_ind; [constructor|].
  rewrite tally_snoc. now apply bump_distinct.
Qed.

(** ** Sorting *)

Lemma insert_sorted_perm {A} (leb : A -> A -> bool) x l :
  Permutation (x :: l) (insert_sorted leb x l).
Proof.
  induction l as [|y l IH]; simpl; [apply Permutation_refl|].
  destruct (leb x y); [apply Permutation_refl|].
  eapply perm_trans; [apply perm_swap|]. now constructor.
Qed.

Lemma sort_by_perm {A} (leb : A -> A -> bool) l :
  Permutation l (sort_by leb l).
Proof.
  induction l as [|x l IH]; simpl; [constructor|].
  eapply perm_trans; [|apply insert_sorted_perm]. now constructor.
Qed.

Lemma insert_sorted_Sorted {A} (leb : A -> A -> bool) x l :
  (forall a b, leb a b = false -> leb b a = true) ->
  Sorted (fun a b => leb a b = true) l ->
  Sorted (fun a b => leb a b = true) (insert_sorted leb x l).
Proof.
  intros total. induction l as [|y l IH]; simpl; intros H.
  - repeat constructor.
  - destruct (leb x y) eqn:E.
    + constructor; [exact H | constructor; exact E].
    + inversion H as [|? ? Hs Hh]; subst.
      constructor; [auto|].
      destruct l as [|z l]; simpl.
      * constructor. now apply total.
      * destruct (leb x z); constructor; [now apply total|].
        now inversion Hh.
Qed.

Lemma sort_by_Sorted {A} (leb : A -> A -> bool) l :
  (forall a b, leb a b = false -> leb b a = true) ->
  Sorted (fun a b => leb a b = true) (sort_by leb l).
Proof.
  intros total. induction l as [|x l IH]; simpl; [constructor|].
  now apply insert_sorted_Sorted.
Qed.

Lemma key_leb_total a b : key_leb a b = false -> key_leb b a = true.
Proof.
  unfold key_leb. intros H. apply Qle_bool_iff.
  destruct (Qlt_le_dec (num_value (fst b)) (num_value (fst a))) as [L|L].
  - now apply Qlt_le_weak.
  - apply Qle_bool_iff in L. congruence.
Qed.

Lemma sort_index_sorted vc :
  StronglySorted (fun a b => key_leb a b = true) (sort_index vc).
Proof.
  apply Sorted_StronglySorted.
  - intros a b c H1 H2. unfold key_leb in *.
    apply Qle_bool_iff in H1. apply Qle_bool_iff in H2.
    apply Qle_bool_iff. eapply Qle_trans; eauto.
  - apply sort_by_Sorted. exact key_leb_total.
Qed.

Lemma value_counts_sort_index_perm s :
  Permutation (tally (filter notna (values s)))
    (sort_index (value_counts s)).
Proof.
  unfold sort_index, value_counts.
  eapply perm_trans; apply sort_by_perm.
Qed.

Lemma distinct_keys_perm l l' :
  Permutation l l' -> distinct_keys l -> distinct_keys l'.
Proof.
  unfold distinct_keys. induction 1 as [|x l l' P IH|x y l|l l' l'' P1 IH1 P2 IH2];
    intros H; auto.
  - inversion H as [|? ? Hs Hf]; subst. constructor; [auto|].
    eapply Permutation_Forall; eauto.
  - inversion H as [|? ? Hs Hf]; subst.
    inversion Hs as [|? ? Hs' Hf']; subst.
    inversion Hf as [|? ? Hyx Hf'']; subst.
    constructor; [constructor; assumption|].
    constructor; [|assumption]. now rewrite same_key_sym.
Qed.

Lemma count_for_perm (p : Cell * nat -> bool) l l' :
  Permutation l l' ->
  list_sum (map snd (filter p l)) = list_sum (map snd (filter p l')).
Proof.
  induction 1 as [|x l l' P IH|x y l|l l' l'' P1 IH1 P2 IH2]; simpl;
    try reflexivity; try congruence.
  - destruct (p x); simpl; congruence.
  - destruct (p x), (p y); simpl; lia.
Qed.

Lemma distinct_count_for r k n :
  distinct_keys r ->
  In (k, n) r ->
  list_sum (map snd (filter (fun e : Cell * nat => same_key (fst e) k) r)) = n.
Proof.
  unfold distinct_keys. induction 1 as [|e r Hs IH Hf]; intros Hin;
    [destruct Hin|].
  simpl. destruct Hin as [->|Hin].
  - simpl. rewrite same_key_refl. simpl.
    assert (filter (fun e : Cell * nat => same_key (fst e) k) r = []) as ->;
      [|simpl; lia].
    clear IH Hs. induction Hf as [|e r He Hf IHf]; [reflexivity|].
    simpl in *. now rewrite same_key_sym, He.
  - pose proof (proj1 (Forall_forall _ _) Hf (k, n) Hin) as Hk.
    simpl in Hk. rewrite Hk. auto.
Qed.

Lemma count_for_pos (p : Cell * nat -> bool) r :
  (0 < list_sum (map snd (filter p r)))%nat ->
  exists e, In e r /\ p e = true.
Proof.
  induction r as [|e r IH]; simpl; [lia|].
  destruct (p e) eqn:E; [eauto|].
  intros H. destruct (IH H) as (e' & He' & Hp). eauto.
Qed.

(** ** The decades *)

Lemma wrap64_in_range z : Int64_min <= z <= Int64_max -> wrap64 z = z.
Proof.
  unfold wrap64, Int64_min, Int64_max. intros H.
  rewrite Z.mod_small; lia.
Qed.

Lemma decade_cell_int z :
  Int64_min + 8 <= z <= Int64_max ->
  mul10 (floordiv10 (Int z)) = Int (10 * (z / 10)).
Proof.
  unfold Int64_min, Int64_max. intros H. unfold floordiv10, mul10.
  change (2 ^ 63) with 9223372036854775808 in H.
  assert (H1 : -9223372036854775808 <= z / 10 <= 9223372036854775807).
  { split; [apply Z.div_le_lower_bound | apply Z.div_le_upper_bound]; lia. }
  assert (H2 : -9223372036854775808 <= z / 10 * 10 <= 9223372036854775807).
  { pose proof (Z.mul_div_le z 10 eq_refl).
    assert (-922337203685477580 <= z / 10)
      by (apply Z.div_le_lower_bound; lia).
    lia. }
  rewrite (wrap64_in_range (z / 10)), (wrap64_in_range (z / 10 * 10));
    unfold Int64_min, Int64_max;
    change (2 ^ 63) with 9223372036854775808; try lia.
  f_equal. lia.
Qed.

Lemma Qeq_bool_inject_Z a b : Qeq_bool (inject_Z a) (inject_Z b) = (a =? b).
Proof.
  destruct (a =? b) eqn:E.
  - apply Z.eqb_eq in E. subst. apply Qeq_bool_refl.
  - destruct (Qeq_bool (inject_Z a) (inject_Z b)) eqn:E'; [|reflexivity].
    pose proof (proj1 (inject_Z_injective a b) (Qeq_bool_eq _ _ E')).
    apply Z.eqb_neq in E. congruence.
Qed.

Lemma Qfloor_tenth z : Qfloor (inject_Z z / inject_Z 10) = z / 10.
Proof.
  unfold Qdiv, Qmult, Qinv, inject_Z, Qfloor. cbn [Qnum Qden].
  rewrite Z.mul_1_r. reflexivity.
Qed.

Lemma within_inject_Z b z :
  within b (inject_Z z) = (- b <=? z) && (z <=? b).
Proof.
  unfold within, Qle_bool, inject_Z. cbn [Qnum Qden].
  rewrite !Z.mul_1_r. reflexivity.
Qed.

Lemma is_whole_inject_Z z : is_whole (inject_Z z) = true.
Proof.
  unfold is_whole. rewrite Qfloor_Z, Qeq_bool_inject_Z. apply Z.eqb_refl.
Qed.

(** The tenth of a float64 up to 2^53 is, rounded down, up to 2^50. *)
Lemma floor_tenth_within q :
  within (2 ^ 53) q = true ->
  within (2 ^ 50) (inject_Z (Qfloor (q / inject_Z 10))) = true.
Proof.
  unfold within at 1. intros H. apply andb_prop in H as [Hlo Hhi].
  apply Qle_bool_iff in Hlo, Hhi.
  assert (Hpos : (0 <= / inject_Z 10)%Q) by discriminate.
  pose proof (Qfloor_resp_le _ _
                (Qmult_le_compat_r _ _ _ Hlo Hpos)) as Flo.
  pose proof (Qfloor_resp_le _ _
                (Qmult_le_compat_r _ _ _ Hhi Hpos)) as Fhi.
  change (Qfloor (inject_Z (- 2 ^ 53) / inject_Z 10)
          <= Qfloor (q / inject_Z 10)) in Flo.
  change (Qfloor (q / inject_Z 10)
          <= Qfloor (inject_Z (2 ^ 53) / inject_Z 10)) in Fhi.
  rewrite Qfloor_tenth in Flo, Fhi.
  rewrite within_inject_Z.
  change (- 2 ^ 53 / 10) with (-900719925474100) in Flo.
  change (2 ^ 53 / 10) with 900719925474099 in Fhi.
  change (2 ^ 50) with 1125899906842624.
  apply andb_true_intro. split; apply Z.leb_le; lia.
Qed.

(** Up to 2^53 the float64 arithmetic of the decade is exact. *)
Lemma decade_cell_float q :
  within (2 ^ 53) q = true ->
  mul10 (floordiv10 (Float q))
  = Float (Qred (inject_Z (Qfloor (q / inject_Z 10)) * inject_Z 10)).
Proof.
  intros H. unfold floordiv10. rewrite H. unfold mul10.
  rewrite is_whole_inject_Z, (floor_tenth_within q H). reflexivity.
Qed.

(** The cell [(year // 10) * 10] is the key of the decade [d] exactly when
    the year is a number whose decade is [d]. *)
Lemma decade_key d c :
  year_in_range c ->
  notna (mul10 (floordiv10 c)) && same_key (mul10 (floordiv10 c)) (Int d)
  = has_decade d c.
Proof.
  intros R. destruct c as [|z|q|s|b|t]; try reflexivity.
  - simpl in R. rewrite (decade_cell_int z R).
    change (Qeq_bool (inject_Z (10 * (z / 10))) (inject_Z d)
            = (d =? 10 * (z / 10))).
    rewrite Qeq_bool_inject_Z. apply Z.eqb_sym.
  - simpl in R. rewrite (decade_cell_float q R).
    set (f := Qfloor (q / inject_Z 10)).
    change (Qeq_bool (Qred (inject_Z f * inject_Z 10)) (inject_Z d)
            = (d =? 10 * f)).
    destruct (d =? 10 * f) eqn:E.
    + apply Z.eqb_eq in E. apply Qeq_eq_bool.
      rewrite Qred_correct, <- inject_Z_mult.
      apply inject_Z_injective. lia.
    + destruct (Qeq_bool _ _) eqn:E'; [|reflexivity].
      apply Qeq_bool_eq in E'.
      rewrite Qred_correct, <- inject_Z_mult in E'.
      pose proof (proj1 (inject_Z_injective _ _) E').
      apply Z.eqb_neq in E. lia.
Qed.

Lemma decade_count d years :
  Forall year_in_range years ->
  List.length
    (filter (fun c => same_key c (Int d))
       (filter notna (map mul10 (map floordiv10 years))))
  = List.length (filter (has_decade d) years).
Proof.
  induction 1 as [|c years R _ IH]; [reflexivity|].
  simpl. rewrite <- (decade_key d c R).
  destruct (notna (mul10 (floordiv10 c))); simpl; [|exact IH].
  destruct (same_key (mul10 (floordiv10 c)) (Int d)); simpl; now rewrite IH.
Qed.

Lemma decade_cell_has_decade c :
  year_in_range c ->
  notna (mul10 (floordiv10 c)) = true ->
  exists d, same_key (mul10 (floordiv10 c)) (Int d) = true /\
            has_decade d c = true.
Proof.
  intros R N.
  assert (exists d, decade_of_year c = Some d) as [d Hd].
  { destruct c; simpl in *; try discriminate; eauto. }
  assert (Hh : has_decade d c = true).
  { unfold has_decade. rewrite Hd. apply Z.eqb_refl. }
  exists d. split; [|exact Hh].
  rewrite <- (decade_key d c R), N in Hh. exact Hh.
Qed.

Lemma numeric_keys_same_kind a b d d' :
  same_key a (Int d) = true -> same_key b (Int d') = true ->
  same_kind a b = true.
Proof.
  unfold same_key. intros Ha Hb.
  apply andb_prop in Ha as [Ha _]. apply andb_prop in Hb as [Hb _].
  destruct a, b; simpl in *; try discriminate; reflexivity.
Qed.

Lemma sorted_distinct_strict r :
  StronglySorted (fun a b => key_leb a b = true) r ->
  distinct_keys r ->
  Forall (fun e : Cell * nat => exists d, same_key (fst e) (Int d) = true) r ->
  StronglySorted
    (fun a b : Cell * nat => (num_value (fst a) < num_value (fst b))%Q) r.
Proof.
  unfold distinct_keys.
  induction r as [|e r IH]; intros Hs Hd Hk; [constructor|].
  inversion Hs as [|? ? Hs' Hf]; subst.
  inversion Hd as [|? ? Hd' Hg]; subst.
  inversion Hk as [|? ? [d He] Hk']; subst.
  constructor; [auto|].
  apply Forall_forall. intros e' Hin.
  pose proof (proj1 (Forall_forall _ _) Hf e' Hin) as Hle.
  pose proof (proj1 (Forall_forall _ _) Hg e' Hin) as Hne.
  destruct (proj1 (Forall_forall _ _) Hk' e' Hin) as [d' He'].
  unfold key_leb in Hle. apply Qle_bool_iff in Hle.
  unfold same_key in Hne.
  rewrite (numeric_keys_same_kind _ _ _ _ He He') in Hne. simpl in Hne.
  apply Qle_lteq in Hle as [Hlt|Heq]; [exact Hlt|].
  apply Qeq_bool_iff in Heq. congruence.
Qed.

Lemma plot_bar_chart_by_decade_run w df year :
  tabdb (self w) = Some df ->
  lookup_column "year" (columns df) = Some year ->
  plot_bar_chart_by_decade w =
  (with_tabdb
     (Some (setitem (setitem df "year" (to_numeric year)) "decade"
              (map_series mul10 (map_series floordiv10 (to_numeric year)))))
     w,
   Ok (sort_index
         (value_counts
            (map_series mul10 (map_series floordiv10 (to_numeric year)))))).
Proof.
  intros Ht Hy. unfold plot_bar_chart_by_decade. run_py.
  rewrite Ht. cbv beta iota. unfold getitem at 1. rewrite Hy.
  cbv beta iota. rewrite !getitem_setitem. reflexivity.
Qed.

(** What [pd.to_numeric] makes of the cells of a [year] column: cell by
    cell, a number the arithmetic of the decade is exact on, with the
    decade the specification reads off the cell of the table. *)
Lemma to_numeric_decades year :
  Forall (year_fits (issubdtype_number (dtype year))) (values year) ->
  exists g,
    values (to_numeric year) = map g (values year) /\
    forall c, In c (values year) ->
      year_in_range (g c) /\ forall d, has_decade d (g c) = in_decade d c.
Proof.
  intros F. unfold to_numeric.
  destruct (issubdtype_number (dtype year)) eqn:E.
  - exists (fun c => c). split; [symmetry; apply map_id|].
    intros c Hin. pose proof (proj1 (Forall_forall _ _) F c Hin) as R.
    destruct c as [|z|q|s|b|t]; simpl in R; try contradiction.
    + split; [exact I | reflexivity].
    + split; [exact R | reflexivity].
    + split; [exact R | reflexivity].
    + destruct R as [R _]. discriminate.
  - assert (Hint : forall z, - 2 ^ 53 <= z <= 2 ^ 53 ->
               Int64_min + 8 <= z <= Int64_max).
    { unfold Int64_min, Int64_max. intros z.
      change (2 ^ 53) with 9007199254740992.
      change (2 ^ 63) with 9223372036854775808. lia. }
    assert (Hfloat : forall z, - 2 ^ 53 <= z <= 2 ^ 53 ->
               within (2 ^ 53) (inject_Z z) = true).
    { intros z Hz. rewrite within_inject_Z.
      apply andb_true_intro. split; apply Z.leb_le; lia. }
    assert (Hdec : forall d z,
               has_decade d (Float (inject_Z z)) = in_decade d (Int z)).
    { intros d z.
      unfold has_decade, in_decade, decade_of_year, year_number,
        decade_of_number.
      now rewrite Qfloor_tenth. }
    assert (Hconv : forall z, - 2 ^ 53 <= z <= 2 ^ 53 ->
               as_float (Int z) = Float (inject_Z z)).
    { intros z Hz. unfold as_float. now rewrite (Hfloat z Hz). }
    destruct (forallb is_int (map coerce_number (values year))).
    + exists coerce_number. split; [reflexivity|].
      intros c Hin. pose proof (proj1 (Forall_forall _ _) F c Hin) as R.
      destruct c as [|z|q|s|b|t]; simpl in R; try contradiction.
      * split; [exact I | reflexivity].
      * split; [exact (Hint z R) | reflexivity].
      * split; [exact R | reflexivity].
      * destruct R as [_ R]. unfold in_decade. simpl.
        destruct (number_of_string s) as [[z|q]|]; simpl in R.
        -- split; [exact (Hint z R) | reflexivity].
        -- split; [exact R | reflexivity].
        -- split; [exact I | reflexivity].
    + exists (fun c => as_float (coerce_number c)).
      split; [simpl; apply map_map|].
      intros c Hin. pose proof (proj1 (Forall_forall _ _) F c Hin) as R.
      destruct c as [|z|q|s|b|t]; simpl in R; try contradiction.
      * split; [exact I | reflexivity].
      * cbn [coerce_number]. rewrite (Hconv z R).
        split; [exact (Hfloat z R) | exact (fun d => Hdec d z)].
      * split; [exact R | reflexivity].
      * destruct R as [_ R]. unfold in_decade. cbn [coerce_number year_number].
        destruct (number_of_string s) as [[z|q]|]; simpl in R.
        -- rewrite (Hconv z R).
           split; [exact (Hfloat z R) | exact (fun d => Hdec d z)].
        -- split; [exact R | reflexivity].
        -- split; [exact I | reflexivity].
Qed.

Lemma filter_map_length {A B : Type} (p : B -> bool) (q : A -> bool)
  (g : A -> B) (l : list A) :
  (forall x, In x l -> p (g x) = q x) ->
  List.length (filter p (map g l)) = List.length (filter q l).
Proof.
  induction l as [|x l IH]; intros H; [reflexivity|].
  simpl. rewrite (H x (or_introl eq_refl)).
  destruct (q x); simpl; rewrite IH; auto; intros y Hy; apply H; now right.
Qed.

(** C8. On a tab table whose [year] column holds, by its dtype, numbers
    the decade of which int64 and float64 give exactly, texts and missing
    cells, the series [plot_bar_chart_by_decade] plots is a mapping from
    decades to counts in strictly ascending order of the decades: each
    key is the decade [d] of some row, with the number of rows of the
    table whose year (the number of the cell, or the number its text
    denotes) rounds down to [d] as the multiple of ten below it; every
    decade some row has is a key; and the rows whose year is missing or
    denotes no number count for no key.  Over the years 1985, 1989 and
    1994 the series is 1980 with 2, then 1990 with 1. *)
Theorem plot_bar_chart_by_decade_counts
  (w : World) (df : DataFrame) (year : Series) :
  tabdb (self w) = Some df ->
  lookup_column "year" (columns df) = Some year ->
  Forall (year_fits (issubdtype_number (dtype year))) (values year) ->
  exists counts,
    snd (plot_bar_chart_by_decade w) = Ok counts /\
    StronglySorted
      (fun a b : Cell * nat => (num_value (fst a) < num_value (fst b))%Q)
      counts /\
    (forall k n, In (k, n) counts ->
       exists d, same_key k (Int d) = true /\
                 n = List.length (filter (in_decade d) (values year)) /\
                 (0 < n)%nat) /\
    (forall d, (0 < List.length (filter (in_decade d) (values year)))%nat ->
       exists k,
         In (k, List.length (filter (in_decade d) (values year))) counts /\
         same_key k (Int d) = true) /\
    (forall d, count_of_decade d counts
               = List.length (filter (in_decade d) (values year))) /\
    (values year = [Int 1985; Int 1989; Int 1994] ->
     counts = [(Int 1980, 2%nat); (Int 1990, 1%nat)]).
Proof.
  intros Ht Hy F.
  rewrite (plot_bar_chart_by_decade_run w df year Ht Hy). simpl snd.
  destruct (to_numeric_decades year F) as (g & Hg & Hcell).
  set (years := values (to_numeric year)).
  assert (R : Forall year_in_range years).
  { unfold years. rewrite Hg. apply Forall_forall. intros c' Hin.
    apply in_map_iff in Hin as (c & <- & Hin). apply (Hcell c Hin). }
  assert (Hrows : forall d,
             List.length (filter (has_decade d) years)
             = List.length (filter (in_decade d) (values year))).
  { intros d. unfold years. rewrite Hg. apply filter_map_length.
    intros c Hin. apply (Hcell c Hin). }
  set (decade := map_series mul10 (map_series floordiv10 (to_numeric year))).
  set (counts := sort_index (value_counts decade)).
  pose proof (value_counts_sort_index_perm decade) as P.
  fold counts in P.
  change (values decade) with (map mul10 (map floordiv10 years)) in P.
  set (keys := filter notna (map mul10 (map floordiv10 years))) in P.
  assert (Hcount : forall k,
             list_sum (map snd (filter (fun e : Cell * nat =>
                                          same_key (fst e) k) counts))
             = List.length (filter (fun c => same_key c k) keys)).
  { intros k. rewrite <- (count_for_perm _ _ _ P). apply count_for_tally. }
  assert (Hdist : distinct_keys counts).
  { eapply distinct_keys_perm; [exact P | apply tally_distinct]. }
  assert (Hkey : forall e, In e counts ->
             exists d, same_key (fst e) (Int d) = true /\
                       (0 < List.length (filter (has_decade d) years))%nat).
  { intros e He. apply (Permutation_in _ (Permutation_sym P)) in He.
    apply tally_keys in He. unfold keys in He.
    apply filter_In in He as [Hin N].
    rewrite map_map in Hin. apply in_map_iff in Hin as (c & Hc & Hin).
    rewrite <- Hc in N |- *.
    destruct (decade_cell_has_decade c
                (proj1 (Forall_forall _ _) R c Hin) N) as (d & Hs & Hh).
    exists d. split; [exact Hs|].
    assert (In c (filter (has_decade d) years))
      by (apply filter_In; auto).
    destruct (filter (has_decade d) years); [contradiction | simpl; lia]. }
  assert (Hentry : forall k n d, In (k, n) counts ->
             same_key k (Int d) = true ->
             n = List.length (filter (has_decade d) years)).
  { intros k n d Hin Hs.
    rewrite <- (distinct_count_for counts k n Hdist Hin), Hcount.
    rewrite <- (decade_count d years R). fold keys. f_equal.
    apply filter_ext. intros c. rewrite !(same_key_sym c).
    now apply same_key_congr. }
  exists counts. split; [reflexivity|]. split; [|split; [|split; [|split]]].
  - apply sorted_distinct_strict; [apply sort_index_sorted | exact Hdist|].
    apply Forall_forall. intros e He.
    destruct (Hkey e He) as (d & Hs & _). eauto.
  - intros k n Hin. destruct (Hkey _ Hin) as (d & Hs & Hpos).
    simpl in Hs. exists d. split; [exact Hs|].
    rewrite <- Hrows, (Hentry k n d Hin Hs). auto.
  - intros d Hpos. rewrite <- Hrows in Hpos |- *.
    rewrite <- (decade_count d years R) in Hpos. fold keys in Hpos.
    rewrite <- Hcount in Hpos.
    destruct (count_for_pos _ _ Hpos) as ([k n] & Hin & Hs). simpl in Hs.
    exists k. split; [|exact Hs].
    now rewrite <- (Hentry k n d Hin Hs).
  - intros d. unfold count_of_decade. rewrite Hcount, <- Hrows.
    apply (decade_count d years R).
  - intros Hyears.
    assert (Hnum : years = [Int 1985; Int 1989; Int 1994]).
    { unfold years, to_numeric.
      destruct (issubdtype_number (dtype year)); [exact Hyears|].
      rewrite Hyears. reflexivity. }
    unfold counts, value_counts.
    change (values decade) with (map mul10 (map floordiv10 years)).
    rewrite Hnum. reflexivity.
Qed.

(* ================================================================== *)
(** * What the queries and the charts write *)

Lemma lookup_set_column_other name n s cols :
  name <> n ->
  lookup_column name (set_column n s cols) = lookup_column name cols.
Proof.
  intros Hne. induction cols as [|[n' old] cols IH]; simpl.
  - destruct (String.eqb name n) eqn:E; [|reflexivity].
    apply String.eqb_eq in E. contradiction.
  - destruct (String.eqb n n') eqn:E; simpl.
    + apply String.eqb_eq in E. subst n'.
      destruct (String.eqb name n) eqn:E'; [|reflexivity].
      apply String.eqb_eq in E'. contradiction.
    + destruct (String.eqb name n'); [reflexivity | exact IH].
Qed.

Lemma set_column_names n s cols :
  map fst (set_column n s cols) =
  if existsb (String.eqb n) (map fst cols) then map fst cols
  else (map fst cols ++ [n])%list.
Proof.
  induction cols as [|[n' old] cols IH]; simpl; [reflexivity|].
  destruct (String.eqb n n'); simpl; [reflexivity|].
  rewrite IH. now destruct (existsb (String.eqb n) (map fst cols)).
Qed.

Lemma setitem_column_names df n s :
  column_names (setitem df n s) =
  if has_column df n then column_names df
  else (column_names df ++ [n])%list.
Proof. unfold column_names, setitem, has_column; simpl. apply set_column_names. Qed.

Lemma getitem_has_column df n s : getitem df n = Ok s -> has_column df n = true.
Proof.
  unfold getitem. destruct (lookup_column n (columns df)) eqn:L;
    [|discriminate].
  intros _. apply has_column_lookup. eauto.
Qed.

Lemma same_but_refl names df : same_but names df df.
Proof. split; reflexivity. Qed.

Lemma same_but_setitem names df n s :
  In n names -> same_but names df (setitem df n s).
Proof.
  intros Hn. split; [reflexivity|]. intros name Hname.
  unfold setitem; simpl. apply lookup_set_column_other.
  intros ->. contradiction.
Qed.

Lemma same_but_trans names a b c :
  same_but names a b -> same_but names b c -> same_but names a c.
Proof.
  intros [I1 L1] [I2 L2]. split; [congruence|].
  intros name Hn. rewrite L2, L1 by assumption. reflexivity.
Qed.

Lemma filter_by_date_range_world w start_date end_date :
  fst (filter_by_date_range start_date end_date w) =
  match tabdb (self w) with
  | Some df =>
      match getitem df "date" with
      | Ok date => with_tabdb (Some (setitem df "date" (to_datetime date))) w
      | Raise _ => w
      end
  | None => w
  end.
Proof.
  unfold filter_by_date_range. run_py.
  destruct (tabdb (self w)) as [df|]; cbv beta iota; [|reflexivity].
  destruct (getitem df "date") as [date|e]; cbv beta iota; [|reflexivity].
  rewrite getitem_setitem.
  destruct (compare_datetime Z.geb (to_datetime date) start_date);
    cbv beta iota; [|reflexivity].
  destruct (compare_datetime Z.leb (to_datetime date) end_date); reflexivity.
Qed.

Lemma plot_bar_chart_by_decade_world w :
  fst (plot_bar_chart_by_decade w) =
  match tabdb (self w) with
  | Some df =>
      match getitem df "year" with
      | Ok year =>
          with_tabdb
            (Some (setitem (setitem df "year" (to_numeric year)) "decade"
                     (map_series mul10
                        (map_series floordiv10 (to_numeric year))))) w
      | Raise _ => w
      end
  | None => w
  end.
Proof.
  unfold plot_bar_chart_by_decade. run_py.
  destruct (tabdb (self w)) as [df|]; cbv beta iota; [|reflexivity].
  destruct (getitem df "year") as [year|e]; cbv beta iota; [|reflexivity].
  rewrite !getitem_setitem. reflexivity.
Qed.

Lemma same_but_tabdb_refl w : same_but_tabdb w w.
Proof. repeat split. Qed.

Lemma same_but_tabdb_with t w : same_but_tabdb w (with_tabdb t w).
Proof. repeat split. Qed.

Lemma filter_by_date_range_writes w start_date end_date :
  let w' := fst (filter_by_date_range start_date end_date w) in
  same_but_tabdb w w' /\
  match tabdb (self w) with
  | None => tabdb (self w') = None
  | Some df =>
      exists df', tabdb (self w') = Some df' /\
                  same_but ["date"] df df' /\
                  column_names df' = column_names df
  end.
Proof.
  cbv zeta. rewrite filter_by_date_range_world.
  destruct (tabdb (self w)) as [df|] eqn:Ht;
    [|split; [apply same_but_tabdb_refl | exact Ht]].
  destruct (getitem df "date") as [date|e] eqn:Gd.
  - split; [apply same_but_tabdb_with|].
    exists (setitem df "date" (to_datetime date)).
    split; [reflexivity|].
    split; [apply same_but_setitem; simpl; auto|].
    rewrite setitem_column_names.
    now rewrite (getitem_has_column _ _ _ Gd).
  - split; [apply same_but_tabdb_refl|]. exists df.
    split; [exact Ht|]. split; [apply same_but_refl | reflexivity].
Qed.

Lemma plot_bar_chart_by_decade_writes w :
  let w' := fst (plot_bar_chart_by_decade w) in
  same_but_tabdb w w' /\
  match tabdb (self w) with
  | None => tabdb (self w') = None
  | Some df =>
      exists df', tabdb (self w') = Some df' /\
                  same_but ["year"; "decade"] df df' /\
                  (column_names df' = column_names df \/
                   column_names df' = (column_names df ++ ["decade"])%list)
  end.
Proof.
  cbv zeta. rewrite plot_bar_chart_by_decade_world.
  destruct (tabdb (self w)) as [df|] eqn:Ht;
    [|split; [apply same_but_tabdb_refl | exact Ht]].
  destruct (getitem df "year") as [year|e] eqn:Gy.
  - split; [apply same_but_tabdb_with|].
    eexists. split; [reflexivity|]. split.
    + eapply same_but_trans; apply same_but_setitem; simpl; auto.
    + rewrite !setitem_column_names.
      rewrite (getitem_has_column _ _ _ Gy).
      destruct (has_column _ "decade"); auto.
  - split; [apply same_but_tabdb_refl|]. exists df.
    split; [exact Ht|]. split; [apply same_but_refl | auto].
Qed.

(** C3, as the code has it. [filter_tabdb], [filter_playdb_by_song],
    [filter_requestdb_by_artist], [count_song_plays] and
    [plot_cumulative_line_chart] leave the manager and its tables as they
    are.  [filter_by_date_range] and [plot_bar_chart_by_decade] assign to
    the stored tab table: they leave the play and request tables, the row
    labels and their order, and every tab column other than [date], for
    the first, and other than [year] and [decade], for the second, with
    its dtype and cells; the columns keep their order, a [decade] column
    that is new coming last. *)
Theorem queries_write_only_date_year_decade (w : World) :
  (forall filters, fst (filter_tabdb filters w) = w) /\
  (forall song_title, fst (filter_playdb_by_song song_title w) = w) /\
  (forall artist_name, fst (filter_requestdb_by_artist artist_name w) = w) /\
  (forall song_title, fst (count_song_plays song_title w) = w) /\
  fst (plot_cumulative_line_chart w) = w /\
  (forall start_date end_date df,
     tabdb (self w) = Some df ->
     let w' := fst (filter_by_date_range start_date end_date w) in
     same_but_tabdb w w' /\
     exists df', tabdb (self w') = Some df' /\
                 same_but ["date"] df df' /\
                 column_names df' = column_names df) /\
  (forall df,
     tabdb (self w) = Some df ->
     let w' := fst (plot_bar_chart_by_decade w) in
     same_but_tabdb w w' /\
     exists df', tabdb (self w') = Some df' /\
                 same_but ["year"; "decade"] df df' /\
                 (column_names df' = column_names df \/
                  column_names df' = (column_names df ++ ["decade"])%list)).
Proof.
  split.
  { intros filters. unfold filter_tabdb. run_py.
    destruct (tabdb (self w)); reflexivity. }
  split.
  { intros song_title. unfold filter_playdb_by_song. run_py.
    destruct (playdb (self w)) as [df|]; cbv beta iota; [|reflexivity].
    destruct (getitem df "song"); reflexivity. }
  split.
  { intros artist_name. unfold filter_requestdb_by_artist. run_py.
    destruct (requestdb (self w)) as [df|]; cbv beta iota; [|reflexivity].
    destruct (getitem df "artist"); reflexivity. }
  split.
  { intros song_title. unfold count_song_plays. run_py.
    destruct (playdb (self w)) as [df|]; cbv beta iota; [|reflexivity].
    destruct (getitem df song_title); reflexivity. }
  split.
  { unfold plot_cumulative_line_chart. run_py.
    destruct (playdb (self w)) as [df|]; cbv beta iota; [|reflexivity].
    destruct (drop df ["song"; "artist"]); reflexivity. }
  split.
  - intros start_date end_date df Ht.
    pose proof (filter_by_date_range_writes w start_date end_date) as H.
    cbv zeta in H. rewrite Ht in H. exact H.
  - intros df Ht.
    pose proof (plot_bar_chart_by_decade_writes w) as H.
    cbv zeta in H. rewrite Ht in H. exact H.
Qed.

(* ================================================================== *)
(** * More on DataManager *)

(** X1. When the three sources are valid, [load_data] installs the
    three tables, the tab table filled with "Unknown" and the play and
    request tables with the empty string, and prints the three success
    lines in the order tab, play, request and nothing else. *)
Theorem load_data_all_valid (w : World) (t p r : DataFrame) :
  read_csv (tabdb_path (self w)) = Ok t ->
  valid_tab_source t = true ->
  read_csv (playdb_path (self w)) = Ok p ->
  valid_play_source p = true ->
  read_csv (requestdb_path (self w)) = Ok r ->
  valid_request_source r = true ->
  load_data w =
  (mkWorld
     (mkDataManager (tabdb_path (self w)) (playdb_path (self w))
        (requestdb_path (self w))
        (Some (fillna (Str "Unknown") t))
        (Some (fillna (Str "") p))
        (Some (fillna (Str "") r)))
     (stdout w ++ ["tabdb.csv loaded successfully.";
                   "playdb.csv loaded successfully.";
                   "requestdb.csv loaded successfully."])%list,
   Ok tt).
Proof.
  intros Rt Vt Rp Vp Rr Vr. rewrite load_data_run. f_equal.
  apply tabdb_error_none in Vt. apply playdb_error_none in Vp.
  apply requestdb_error_none in Vr.
  unfold load_data_outcome, load_playdb_outcome, load_requestdb_outcome.
  rewrite Rt, Vt, Rp, Vp, Rr, Vr.
  unfold printed, with_requestdb, with_playdb, with_tabdb; simpl.
  now rewrite <- !app_assoc.
Qed.

(** X2. Loading again changes no table: whatever the files hold, the
    manager after two calls of [load_data] is the manager after one. *)
Theorem load_data_twice (w : World) :
  self (fst (load_data (fst (load_data w)))) = self (fst (load_data w)).
Proof.
  rewrite !load_data_run; simpl fst.
  unfold load_data_outcome at 1.
  assert (Hpaths : tabdb_path (self (load_data_outcome w))
                   = tabdb_path (self w) /\
                   playdb_path (self (load_data_outcome w))
                   = playdb_path (self w) /\
                   requestdb_path (self (load_data_outcome w))
                   = requestdb_path (self w)).
  { unfold load_data_outcome, load_playdb_outcome, load_requestdb_outcome.
    destruct (read_csv (tabdb_path (self w))) as [t|e]; [|repeat split].
    destruct (tabdb_error t); [repeat split|].
    destruct (read_csv (playdb_path (self w))) as [p|e]; [|repeat split].
    destruct (playdb_error p); [repeat split|].
    destruct (read_csv (requestdb_path (self w))) as [r|e]; [|repeat split].
    destruct (requestdb_error r); repeat split. }
  destruct Hpaths as (Pt & Pp & Pr).
  cbv zeta. unfold load_playdb_outcome at 1, load_requestdb_outcome at 1.
  rewrite Pt, Pp, Pr.
  unfold load_data_outcome, load_playdb_outcome, load_requestdb_outcome.
  destruct (read_csv (tabdb_path (self w))) as [t|e]; [|reflexivity].
  destruct (tabdb_error t); [reflexivity|].
  destruct (read_csv (playdb_path (self w))) as [p|e]; [|reflexivity].
  destruct (playdb_error p); [reflexivity|].
  destruct (read_csv (requestdb_path (self w))) as [r|e]; [|reflexivity].
  destruct (requestdb_error r); reflexivity.
Qed.

(** X3. A tab source that has the twelve columns but whose [year] is not
    numeric makes [load_data] print the line of the year, whatever
    [difficulty] is; with a numeric [year] and a [difficulty] that is not
    numeric it prints the line of the difficulty.  In both cases the
    frame stays installed as parsed and no other source is read. *)
Theorem load_data_type_mismatch (w : World) (t : DataFrame) :
  read_csv (tabdb_path (self w)) = Ok t ->
  forallb (has_column t) required_columns_tabdb = true ->
  (numeric_column t "year" = false ->
   load_data w =
   (printed ("An unexpected error occurred: "
             ++ "Column 'year' must be numeric in tabdb.csv.")
      (with_tabdb (Some t) w), Ok tt)) /\
  (numeric_column t "year" = true ->
   numeric_column t "difficulty" = false ->
   load_data w =
   (printed ("An unexpected error occurred: "
             ++ "Column 'difficulty' must be numeric in tabdb.csv.")
      (with_tabdb (Some t) w), Ok tt)).
Proof.
  intros Rt Hcols. apply first_missing_none in Hcols.
  rewrite load_data_run. unfold load_data_outcome, tabdb_error.
  rewrite Rt, Hcols. split.
  - intros ->. reflexivity.
  - intros -> ->. reflexivity.
Qed.

(** X4. The validators of the play and request tables accept a frame
    exactly when it has the [song] and [artist] columns, whatever its
    other columns, and then fill it with the empty string; they report a
    missing [song] before a missing [artist], name their file, and leave
    the frame as it is when they raise. *)
Theorem validate_playdb_requestdb (w : World) (df : DataFrame) :
  (playdb (self w) = Some df ->
   _validate_playdb w =
   if negb (has_column df "song") then
     (w, Raise (ValueError "Missing required column in playdb.csv: song"))
   else if negb (has_column df "artist") then
     (w, Raise (ValueError "Missing required column in playdb.csv: artist"))
   else (with_playdb (Some (fillna (Str "") df)) w, Ok tt)) /\
  (requestdb (self w) = Some df ->
   _validate_requestdb w =
   if negb (has_column df "song") then
     (w, Raise (ValueError "Missing required column in requestdb.csv: song"))
   else if negb (has_column df "artist") then
     (w, Raise
           (ValueError "Missing required column in requestdb.csv: artist"))
   else (with_requestdb (Some (fillna (Str "") df)) w, Ok tt)).
Proof.
  split; intros H.
  - rewrite (validate_playdb_run w df H).
    unfold playdb_error, first_missing; simpl.
    destruct (has_column df "song"); simpl; [|reflexivity].
    destruct (has_column df "artist"); reflexivity.
  - rewrite (validate_requestdb_run w df H).
    unfold requestdb_error, first_missing; simpl.
    destruct (has_column df "song"); simpl; [|reflexivity].
    destruct (has_column df "artist"); reflexivity.
Qed.

Lemma fillna_series_no_null v s : has_null s = false -> fillna_series v s = s.
Proof.
  unfold has_null, fillna_series. intros H. rewrite H.
  destruct s as [d vs]; simpl in *. f_equal.
  induction vs as [|c vs IH]; simpl in *; [reflexivity|].
  apply orb_false_elim in H as [Hc Hvs].
  unfold fillna_cell at 1. rewrite Hc. f_equal. auto.
Qed.

Lemma fillna_series_null s :
  has_null s = true ->
  dtype (fillna_series (Str "Unknown") s) = object_ /\
  In (Str "Unknown") (values (fillna_series (Str "Unknown") s)).
Proof.
  unfold has_null, fillna_series. intros H. rewrite H. simpl.
  split; [reflexivity|].
  apply existsb_exists in H as (c & Hin & Hc).
  apply in_map_iff. exists c. split; [|exact Hin].
  unfold fillna_cell. now rewrite Hc.
Qed.

Lemma fillna_numeric_column df name s :
  lookup_column name (columns df) = Some s ->
  numeric_column df name = true ->
  numeric_column (fillna (Str "Unknown") df) name = negb (has_null s).
Proof.
  unfold numeric_column. intros L. rewrite fillna_lookup, L. simpl.
  intros N. unfold has_null.
  destruct (existsb isna (values s)); simpl; [reflexivity | exact N].
Qed.

(** X5. After a valid tab source is loaded, a column of the source
    without a missing cell is stored as it was read, dtype and cells;
    a column with a missing cell is stored as an object column that
    holds "Unknown".  So the stored table still meets the rules of
    [_validate_tabdb] exactly when neither [year] nor [difficulty] had a
    missing cell. *)
Theorem load_valid_tab_dtypes (w : World) (t : DataFrame) (year difficulty : Series) :
  read_csv (tabdb_path (self w)) = Ok t ->
  valid_tab_source t = true ->
  lookup_column "year" (columns t) = Some year ->
  lookup_column "difficulty" (columns t) = Some difficulty ->
  exists t',
    tabdb (self (fst (load_data w))) = Some t' /\
    (forall name s, lookup_column name (columns t) = Some s ->
       has_null s = false -> lookup_column name (columns t') = Some s) /\
    (forall name s, lookup_column name (columns t) = Some s ->
       has_null s = true ->
       exists s', lookup_column name (columns t') = Some s' /\
                  dtype s' = object_ /\ In (Str "Unknown") (values s')) /\
    valid_tab_source t' = negb (has_null year) && negb (has_null difficulty).
Proof.
  intros Rt Vt Ly Ld. rewrite load_data_run; simpl fst.
  unfold load_data_outcome. rewrite Rt.
  rewrite (proj2 (tabdb_error_none t) Vt).
  match goal with
  | |- context [load_playdb_outcome ?d ?w0] =>
      destruct (load_playdb_outcome_frame d w0) as (Ht & _)
  end.
  exists (fillna (Str "Unknown") t). rewrite Ht. split; [reflexivity|].
  split; [|split].
  - intros name s L N. rewrite fillna_lookup, L. simpl.
    now rewrite fillna_series_no_null.
  - intros name s L N. rewrite fillna_lookup, L. simpl.
    eexists. split; [reflexivity|]. now apply fillna_series_null.
  - unfold valid_tab_source in *.
    apply andb_prop in Vt as [Vt Nd]. apply andb_prop in Vt as [Hc Ny].
    rewrite (fillna_numeric_column t "year" year Ly Ny).
    rewrite (fillna_numeric_column t "difficulty" difficulty Ld Nd).
    assert (forallb (has_column (fillna (Str "Unknown") t))
              required_columns_tabdb = true) as ->; [|reflexivity].
    apply forallb_forall. intros c Hin. rewrite fillna_has_column.
    apply (proj1 (forallb_forall _ _) Hc c Hin).
Qed.

(* ================================================================== *)
(** * More on QueryManager *)

(** X6. A query on a table that is not set raises the error of data not
    loaded and changes nothing: [filter_tabdb] and [filter_by_date_range]
    for the tab table, [filter_playdb_by_song] and [count_song_plays] for
    the play table, [filter_requestdb_by_artist] for the request table. *)
Theorem queries_not_loaded (w : World) :
  (tabdb (self w) = None ->
   (forall filters, filter_tabdb filters w = (w, Raise not_loaded)) /\
   (forall start_date end_date,
      filter_by_date_range start_date end_date w = (w, Raise not_loaded))) /\
  (playdb (self w) = None ->
   (forall song_title,
      filter_playdb_by_song song_title w = (w, Raise not_loaded)) /\
   (forall song_title,
      count_song_plays song_title w = (w, Raise not_loaded))) /\
  (requestdb (self w) = None ->
   forall artist_name,
     filter_requestdb_by_artist artist_name w = (w, Raise not_loaded)).
Proof.
  split; [|split]; intros H.
  - split; intros; [unfold filter_tabdb | unfold filter_by_date_range];
      run_py; now rewrite H.
  - split; intros; [unfold filter_playdb_by_song | unfold count_song_plays];
      run_py; now rewrite H.
  - intros. unfold filter_requestdb_by_artist. run_py. now rewrite H.
Qed.

Lemma meets_loc df m filters row :
  meets (loc df m) filters row = meets df filters row.
Proof.
  unfold meets. induction filters as [|kv rest IH]; simpl; [reflexivity|].
  now rewrite loc_row_cell, IH.
Qed.

Lemma filter_loop_rows filters :
  forall df r,
    well_formed df ->
    filter_loop df filters = Ok r ->
    column_names r = column_names df /\
    well_formed r /\
    iterrows r = filter (meets df filters) (iterrows df).
Proof.
  induction filters as [|[column value] rest IH]; intros df r W H.
  - inversion H; subst. repeat split; [exact W|].
    unfold meets; simpl. clear. induction (iterrows r) as [|x l IHl];
      simpl; [reflexivity | now rewrite <- IHl].
  - destruct (has_column df column) eqn:E.
    + destruct (proj1 (has_column_lookup df column) E) as [s Hs].
      rewrite (filter_loop_step _ _ _ _ s Hs) in H.
      destruct (IH _ r (loc_well_formed df _ W) H) as (Hn & Wr & Hr).
      rewrite loc_column_names in Hn.
      split; [exact Hn|]. split; [exact Wr|].
      rewrite Hr, (loc_rows_by_column df column s
                     (fun c => eq_cell c value) W Hs), filter_filter.
      apply filter_ext. intros row. unfold meets at 2; simpl.
      now rewrite meets_loc.
    + simpl in H. rewrite E in H. discriminate.
Qed.

(** X7. When [filter_tabdb] returns, for any number of criteria, the
    frame it returns has the columns of the tab table in their order, is
    rectangular, and its rows are the rows of the table that meet every
    criterion, in the order of the table; the manager is unchanged. *)
Theorem filter_tabdb_rows
  (w : World) (df r : DataFrame) (filters : list (string * Cell)) :
  tabdb (self w) = Some df ->
  well_formed df ->
  snd (filter_tabdb filters w) = Ok r ->
  fst (filter_tabdb filters w) = w /\
  column_names r = column_names df /\
  well_formed r /\
  iterrows r = filter (meets df filters) (iterrows df).
Proof.
  intros Ht W H. rewrite (filter_tabdb_run w df filters Ht) in *.
  split; [reflexivity|]. now apply filter_loop_rows.
Qed.

Lemma select_nil {A} (m : list bool) : select m (@nil A) = [].
Proof. destruct m as [|[] m]; reflexivity. Qed.

Lemma select_select {A} (m1 m2 : list bool) (x : list A) :
  select (select m1 m2) (select m1 x) = select (and_masks m1 m2) x.
Proof.
  revert m2 x. induction m1 as [|b1 m1 IH]; intros m2 x; [reflexivity|].
  destruct m2 as [|b2 m2].
  - now destruct b1.
  - destruct x as [|y x].
    + simpl. destruct b1; simpl; [destruct b2|]; now rewrite ?select_nil.
    + destruct b1; simpl; [destruct b2|]; now rewrite IH.
Qed.

Lemma and_masks_comm a b : and_masks a b = and_masks b a.
Proof.
  revert b. induction a as [|x a IH]; intros [|y b]; simpl; try reflexivity.
  now rewrite IH, andb_comm.
Qed.

Lemma loc_loc df column s (p : Cell -> bool) m :
  lookup_column column (columns df) = Some s ->
  exists s',
    lookup_column column (columns (loc df m)) = Some s' /\
    loc (loc df m) (map p (values s'))
    = loc df (and_masks m (map p (values s))).
Proof.
  intros L. eexists. split; [rewrite loc_lookup, L; reflexivity|].
  simpl values. rewrite select_map.
  unfold loc; simpl. f_equal; [apply select_select|].
  rewrite map_map. apply map_ext. intros [n c]. simpl.
  now rewrite select_select.
Qed.

Lemma filter_loop_swap df a b rest :
  has_column df (fst a) = true ->
  has_column df (fst b) = true ->
  filter_loop df (a :: b :: rest) = filter_loop df (b :: a :: rest).
Proof.
  destruct a as [ca va], b as [cb vb]; simpl fst. intros Ha Hb.
  apply has_column_lookup in Ha as [sa La].
  apply has_column_lookup in Hb as [sb Lb].
  rewrite (filter_loop_step df ca va _ sa La).
  rewrite (filter_loop_step df cb vb _ sb Lb).
  destruct (loc_loc df cb sb (fun c => eq_cell c vb)
              (map (fun c => eq_cell c va) (values sa)) Lb)
    as (sb' & Lb' & Eb).
  destruct (loc_loc df ca sa (fun c => eq_cell c va)
              (map (fun c => eq_cell c vb) (values sb)) La)
    as (sa' & La' & Ea).
  rewrite (filter_loop_step _ cb vb _ sb' Lb'), Eb.
  rewrite (filter_loop_step _ ca va _ sa' La'), Ea.
  now rewrite and_masks_comm.
Qed.

Lemma filter_loop_permutation filters filters' :
  Permutation filters filters' ->
  forall df,
    Forall (fun kv => has_column df (fst kv) = true) filters ->
    filter_loop df filters = filter_loop df filters'.
Proof.
  induction 1 as [|x l l' P IH|x y l|l l' l'' P1 IH1 P2 IH2];
    intros df Hall.
  - reflexivity.
  - destruct x as [c v]. inversion Hall as [|? ? Hc Hl]; subst.
    simpl in Hc.
    destruct (proj1 (has_column_lookup df c) Hc) as [s Hs].
    rewrite !(filter_loop_step df c v _ s Hs). apply IH.
    eapply Forall_impl; [|exact Hl]. intros kv Hkv.
    now rewrite loc_has_column.
  - inversion Hall as [|? ? Hy Hl]; subst.
    inversion Hl as [|? ? Hx Hl']; subst.
    now apply filter_loop_swap.
  - rewrite IH1 by assumption. apply IH2.
    eapply Permutation_Forall; eauto.
Qed.

(** X8. The order of the criteria does not matter: when every criterion
    names a column of the tab table, [filter_tabdb] returns the same
    frame for the criteria in any order. *)
Theorem filter_tabdb_any_order
  (w : World) (df : DataFrame) (filters filters' : list (string * Cell)) :
  tabdb (self w) = Some df ->
  Forall (fun kv => has_column df (fst kv) = true) filters ->
  Permutation filters filters' ->
  filter_tabdb filters w = filter_tabdb filters' w.
Proof.
  intros Ht Hall P. rewrite !(filter_tabdb_run w df _ Ht). f_equal.
  now apply filter_loop_permutation.
Qed.

Lemma select_all_false {A} (m : list bool) (l : list A) :
  Forall (fun b => b = false) m -> select m l = [].
Proof.
  intros H. revert l. induction H as [|b m Hb _ IH]; intros [|x l];
    simpl; try reflexivity.
  subst b. apply IH.
Qed.

Lemma eq_cell_text_on_number c v :
  number_or_missing c = true -> eq_cell c (Str v) = false.
Proof. destruct c; simpl; intros H; try discriminate; reflexivity. Qed.

Lemma loc_all_false df m :
  Forall (fun b => b = false) m ->
  index (loc df m) = [] /\ empty (loc df m) = true.
Proof.
  intros H. unfold empty, loc; simpl.
  now rewrite (select_all_false m (index df) H).
Qed.

(** X9. A value typed by the user is a string, and a string equals no
    number: on a column whose cells are numbers, booleans or missing,
    [filter_tabdb] with a string value returns a frame with the columns
    of the table and no row, whatever the string. *)
Theorem filter_tabdb_text_on_numbers
  (w : World) (df : DataFrame) (column : string) (s : Series) (v : string) :
  tabdb (self w) = Some df ->
  lookup_column column (columns df) = Some s ->
  forallb number_or_missing (values s) = true ->
  exists r,
    filter_tabdb [(column, Str v)] w = (w, Ok r) /\
    column_names r = column_names df /\
    index r = [] /\
    empty r = true.
Proof.
  intros Ht L N. rewrite (filter_tabdb_run w df _ Ht).
  rewrite (filter_loop_step df column (Str v) [] s L). simpl filter_loop.
  eexists. split; [reflexivity|]. split; [apply loc_column_names|].
  apply loc_all_false. apply Forall_map, Forall_forall. intros c Hin.
  apply eq_cell_text_on_number.
  apply (proj1 (forallb_forall _ _) N c Hin).
Qed.

(** X10. [filter_by_date_range] on a tab table without a [date] column
    raises the key error of [date] and changes nothing.  With a [date]
    column and a bound that denotes no instant it raises a type error,
    and the stored [date] column has been replaced by the parsed one
    before the error. *)
Theorem filter_by_date_range_errors
  (w : World) (df : DataFrame) (start_date end_date : string) :
  tabdb (self w) = Some df ->
  (has_column df "date" = false ->
   filter_by_date_range start_date end_date w = (w, Raise (KeyError "date"))) /\
  (forall date,
     lookup_column "date" (columns df) = Some date ->
     Timestamp_of_string start_date = None \/
     Timestamp_of_string end_date = None ->
     exists msg,
       filter_by_date_range start_date end_date w =
       (with_tabdb (Some (setitem df "date" (to_datetime date))) w,
        Raise (TypeError msg))).
Proof.
  intros Ht. split.
  - intros H. apply has_column_false in H.
    unfold filter_by_date_range. run_py. rewrite Ht. cbv beta iota.
    unfold getitem. now rewrite H.
  - intros date L Hbad.
    unfold filter_by_date_range. run_py. rewrite Ht. cbv beta iota.
    unfold getitem at 1. rewrite L. cbv beta iota.
    rewrite getitem_setitem. unfold compare_datetime.
    destruct (Timestamp_of_string start_date) as [lo|]; cbv beta iota;
      [|eauto].
    destruct (Timestamp_of_string end_date) as [hi|]; cbv beta iota;
      [|eauto].
    destruct Hbad; discriminate.
Qed.

(** X11. With bounds in the wrong order, the later instant first,
    [filter_by_date_range] raises nothing and returns a frame with the
    columns of the table and no row. *)
Theorem filter_by_date_range_reversed_bounds
  (w : World) (df : DataFrame) (date : Series)
  (start_date end_date : string) (lo hi : Z) :
  tabdb (self w) = Some df ->
  lookup_column "date" (columns df) = Some date ->
  Timestamp_of_string start_date = Some lo ->
  Timestamp_of_string end_date = Some hi ->
  hi < lo ->
  exists r,
    snd (filter_by_date_range start_date end_date w) = Ok r /\
    column_names r = column_names df /\
    index r = [] /\
    empty r = true.
Proof.
  intros Ht L Hlo Hhi Hlt.
  rewrite (filter_by_date_range_run w df date start_date end_date lo hi)
    by assumption.
  eexists. split; [reflexivity|]. split.
  - rewrite loc_column_names, setitem_column_names.
    assert (has_column df "date" = true) as ->; [|reflexivity].
    apply has_column_lookup; eauto.
  - apply loc_all_false. apply Forall_map, Forall_forall. intros c _.
    destruct c; try reflexivity. simpl.
    destruct (lo <=? t) eqn:E1; [|reflexivity].
    destruct (t <=? hi) eqn:E2; [|reflexivity].
    apply Z.leb_le in E1. apply Z.leb_le in E2. lia.
Qed.

(** X12. [filter_playdb_by_song] returns the rows of the play table whose
    [song] cell equals the title, in the order of the table, and
    [filter_requestdb_by_artist] the rows of the request table whose
    [artist] cell equals the name: the frame the loop of [filter_tabdb]
    gives on that table for the one criterion.  Neither changes the
    manager. *)
Theorem filter_by_song_and_by_artist
  (w : World) (df : DataFrame) (s : Series) (value : Cell) :
  well_formed df ->
  (playdb (self w) = Some df ->
   lookup_column "song" (columns df) = Some s ->
   exists r,
     filter_playdb_by_song value w = (w, Ok r) /\
     filter_loop df [("song", value)] = Ok r /\
     iterrows r =
     filter (fun row => eq_cell (row_cell df "song" row) value)
       (iterrows df)) /\
  (requestdb (self w) = Some df ->
   lookup_column "artist" (columns df) = Some s ->
   exists r,
     filter_requestdb_by_artist value w = (w, Ok r) /\
     filter_loop df [("artist", value)] = Ok r /\
     iterrows r =
     filter (fun row => eq_cell (row_cell df "artist" row) value)
       (iterrows df)).
Proof.
  intros W. split; intros Hdf L;
    exists (loc df (map (fun c => eq_cell c value) (values s))).
  - split; [|split].
    + unfold filter_playdb_by_song. run_py. rewrite Hdf. cbv beta iota.
      unfold getitem. now rewrite L.
    + now rewrite (filter_loop_step df "song" value [] s L).
    + now apply (loc_rows_by_column df "song" s (fun c => eq_cell c value)).
  - split; [|split].
    + unfold filter_requestdb_by_artist. run_py. rewrite Hdf. cbv beta iota.
      unfold getitem. now rewrite L.
    + now rewrite (filter_loop_step df "artist" value [] s L).
    + now apply (loc_rows_by_column df "artist" s (fun c => eq_cell c value)).
Qed.

Lemma count_and_nulls (s : Series) :
  (count s + List.length (filter isna (values s)))%nat
  = List.length (values s).
Proof.
  unfold count, notna. induction (values s) as [|c l IH]; [reflexivity|].
  simpl. destruct (isna c); simpl; lia.
Qed.

(** X13. [count_song_plays] reads its argument as the name of a column
    of the play table: for a name that is no column it raises the key
    error of that name, and for a column it returns the number of its
    cells less the missing ones.  It changes nothing. *)
Theorem count_song_plays_cases
  (w : World) (df : DataFrame) (song_title : string) :
  playdb (self w) = Some df ->
  (has_column df song_title = false ->
   count_song_plays song_title w = (w, Raise (KeyError song_title))) /\
  (forall s,
     lookup_column song_title (columns df) = Some s ->
     count_song_plays song_title w = (w, Ok (count s)) /\
     (count s + List.length (filter isna (values s)))%nat
     = List.length (values s)).
Proof.
  intros Hp. rewrite (count_song_plays_run w df song_title Hp).
  unfold getitem. split.
  - intros H. apply has_column_false in H. now rewrite H.
  - intros s L. rewrite L. split; [reflexivity | apply count_and_nulls].
Qed.

(* ================================================================== *)
(** * More on PlotManager *)

(** X14. Each of the seven plot methods raises the error of data not
    loaded, and changes nothing, when its table is not set: the tab table
    for six of them, the play table for the cumulative line chart. *)
Theorem plots_not_loaded (w : World) :
  (tabdb (self w) = None ->
   plot_difficulty_histogram w = (w, Raise not_loaded) /\
   plot_duration_histogram w = (w, Raise not_loaded) /\
   plot_language_bar_chart w = (w, Raise not_loaded) /\
   plot_source_bar_chart w = (w, Raise not_loaded) /\
   plot_bar_chart_by_decade w = (w, Raise not_loaded) /\
   plot_pie_chart_by_gender w = (w, Raise not_loaded)) /\
  (playdb (self w) = None ->
   plot_cumulative_line_chart w = (w, Raise not_loaded)).
Proof.
  split; intros H.
  - unfold plot_difficulty_histogram, plot_duration_histogram,
      plot_language_bar_chart, plot_source_bar_chart,
      plot_bar_chart_by_decade, plot_pie_chart_by_gender.
    run_py. rewrite H. repeat split.
  - unfold plot_cumulative_line_chart. run_py. now rewrite H.
Qed.

Lemma filter_all {A} (l : list A) : filter (fun _ => true) l = l.
Proof. induction l as [|x l IH]; simpl; [reflexivity | now rewrite IH]. Qed.

Lemma sum_bump x acc :
  list_sum (map snd (bump x acc)) = S (list_sum (map snd acc)).
Proof.
  induction acc as [|[k n] acc IH]; simpl; [reflexivity|].
  destruct (same_key k x); simpl; [reflexivity | rewrite IH; lia].
Qed.

Lemma sum_tally l : list_sum (map snd (tally l)) = List.length l.
Proof.
  induction l as [|x l IH] using rev_ind; [reflexivity|].
  rewrite tally_snoc, sum_bump, IH, length_app. simpl. lia.
Qed.

Lemma sum_perm (l l' : list (Cell * nat)) :
  Permutation l l' -> list_sum (map snd l) = list_sum (map snd l').
Proof.
  intros P. rewrite <- (filter_all l), <- (filter_all l').
  now apply count_for_perm.
Qed.

Lemma bump_positive x acc :
  Forall (fun e : Cell * nat => (0 < snd e)%nat) acc ->
  Forall (fun e : Cell * nat => (0 < snd e)%nat) (bump x acc).
Proof.
  induction 1 as [|[k n] acc Hn Hf IH]; simpl.
  - repeat constructor.
  - destruct (same_key k x); constructor; simpl in *; auto; lia.
Qed.

Lemma tally_positive l :
  Forall (fun e : Cell * nat => (0 < snd e)%nat) (tally l).
Proof.
  induction l as [|x l IH] using rev_ind; [constructor|].
  rewrite tally_snoc. now apply bump_positive.
Qed.

Lemma value_counts_perm s :
  Permutation (tally (filter notna (values s))) (value_counts s).
Proof. unfold value_counts. apply sort_by_perm. Qed.

Lemma StronglySorted_impl {A} (R R' : A -> A -> Prop) (l : list A) :
  (forall a b, R a b -> R' a b) ->
  StronglySorted R l -> StronglySorted R' l.
Proof.
  intros HR. induction 1 as [|a l _ IH Hf]; constructor; [exact IH|].
  eapply Forall_impl; [|exact Hf]. intros b. apply HR.
Qed.

Lemma value_counts_descending s : descending (value_counts s).
Proof.
  unfold descending, value_counts.
  apply (StronglySorted_impl
           (fun a b : Cell * nat => Nat.leb (snd b) (snd a) = true)).
  - intros a b H. now apply Nat.leb_le.
  - apply Sorted_StronglySorted.
    + intros a b c H1 H2. apply Nat.leb_le in H1, H2. apply Nat.leb_le. lia.
    + apply (sort_by_Sorted (fun a b : Cell * nat => Nat.leb (snd b) (snd a))).
      intros a b H. apply Nat.leb_gt in H. apply Nat.leb_le. lia.
Qed.

Lemma value_counts_spec s : counts_of s (value_counts s).
Proof.
  pose proof (value_counts_perm s) as P.
  assert (Hd : distinct_keys (value_counts s)).
  { eapply distinct_keys_perm; [exact P | apply tally_distinct]. }
  assert (Hc : forall k,
             list_sum (map snd (filter (fun e : Cell * nat =>
                                          same_key (fst e) k)
                                  (value_counts s)))
             = List.length (filter (fun c => same_key c k)
                              (filter notna (values s)))).
  { intros k. rewrite <- (count_for_perm _ _ _ P). apply count_for_tally. }
  split; [apply value_counts_descending|]. split; [exact Hd|].
  split; [|split].
  - intros k n Hin. split.
    + apply (Permutation_in _ (Permutation_sym P)) in Hin.
      apply (proj1 (Forall_forall _ _)
               (tally_positive (filter notna (values s))) _ Hin).
    + now rewrite <- (distinct_count_for _ k n Hd Hin), Hc.
  - intros c Hin N.
    assert (Hpos : (0 < List.length (filter (fun c0 => same_key c0 c)
                                       (filter notna (values s))))%nat).
    { assert (In c (filter (fun c0 => same_key c0 c)
                      (filter notna (values s)))).
      { apply filter_In. split; [|apply same_key_refl].
        apply filter_In. auto. }
      destruct (filter (fun c0 => same_key c0 c) (filter notna (values s)));
        [contradiction | simpl; lia]. }
    rewrite <- Hc in Hpos.
    destruct (count_for_pos _ _ Hpos) as ([k n] & Hk & Hs).
    exists k, n. auto.
  - rewrite <- (sum_perm _ _ P). apply sum_tally.
Qed.

(** X15. The series of the language and source bar charts and of the
    gender pie chart are the value counts of their column: one entry for
    each value that occurs, with the number of cells that hold it; the
    counts never go up from an entry to the next, and they add up to the
    number of cells of the column that are not missing.  The three
    methods change nothing. *)
Theorem value_count_charts (w : World) (df : DataFrame) (s : Series) :
  tabdb (self w) = Some df ->
  (lookup_column "language" (columns df) = Some s ->
   exists counts, plot_language_bar_chart w = (w, Ok counts) /\
                  counts_of s counts) /\
  (lookup_column "source" (columns df) = Some s ->
   exists counts, plot_source_bar_chart w = (w, Ok counts) /\
                  counts_of s counts) /\
  (lookup_column "gender" (columns df) = Some s ->
   exists counts, plot_pie_chart_by_gender w = (w, Ok counts) /\
                  counts_of s counts).
Proof.
  intros Ht.
  split; [|split]; intros L; exists (value_counts s);
    (split; [|apply value_counts_spec]).
  - unfold plot_language_bar_chart. run_py. rewrite Ht. cbv beta iota.
    unfold getitem. now rewrite L.
  - unfold plot_source_bar_chart. run_py. rewrite Ht. cbv beta iota.
    unfold getitem. now rewrite L.
  - unfold plot_pie_chart_by_gender. run_py. rewrite Ht. cbv beta iota.
    unfold getitem. now rewrite L.
Qed.

Lemma to_numeric_is_numeric s :
  issubdtype_number (dtype (to_numeric s)) = true.
Proof.
  unfold to_numeric. destruct (issubdtype_number (dtype s)) eqn:E;
    [exact E|].
  destruct (forallb is_int (map coerce_number (values s))); reflexivity.
Qed.

Lemma to_numeric_idempotent s : to_numeric (to_numeric s) = to_numeric s.
Proof.
  unfold to_numeric at 1. now rewrite to_numeric_is_numeric.
Qed.

Lemma set_column_same name s cols :
  lookup_column name cols = Some s -> set_column name s cols = cols.
Proof.
  induction cols as [|[n old] cols IH]; simpl; [discriminate|].
  destruct (String.eqb name n) eqn:E.
  - intros H; inversion H; subst. reflexivity.
  - intros H. now rewrite IH.
Qed.

Lemma setitem_same df name s :
  lookup_column name (columns df) = Some s -> setitem df name s = df.
Proof.
  intros L. unfold setitem. rewrite (set_column_same _ _ _ L).
  now destruct df.
Qed.

(** X16. Drawing the decade chart again gives the same series and leaves
    the stored tab table as the first drawing left it. *)
Theorem plot_bar_chart_by_decade_again
  (w : World) (df : DataFrame) (year : Series) :
  tabdb (self w) = Some df ->
  lookup_column "year" (columns df) = Some year ->
  let first := plot_bar_chart_by_decade w in
  plot_bar_chart_by_decade (fst first) = (fst first, snd first).
Proof.
  intros Ht Ly first. unfold first.
  rewrite (plot_bar_chart_by_decade_run w df year Ht Ly). simpl fst.
  simpl snd.
  set (Y := to_numeric year).
  set (D := map_series mul10 (map_series floordiv10 Y)).
  set (df2 := setitem (setitem df "year" Y) "decade" D).
  assert (L2 : lookup_column "year" (columns df2) = Some Y).
  { unfold df2, setitem; simpl.
    rewrite lookup_set_column_other by discriminate.
    apply lookup_set_column_same. }
  rewrite (plot_bar_chart_by_decade_run (with_tabdb (Some df2) w) df2 Y
             eq_refl L2).
  unfold Y at 1 2 3. rewrite to_numeric_idempotent. fold Y. fold D.
  rewrite (setitem_same df2 "year" Y L2).
  assert (LD : lookup_column "decade" (columns df2) = Some D).
  { unfold df2, setitem; simpl. apply lookup_set_column_same. }
  rewrite (setitem_same df2 "decade" D LD). reflexivity.
Qed.

Lemma decade_cell_notna c : notna (mul10 (floordiv10 c)) = is_number c.
Proof. destruct c; reflexivity. Qed.

(** X17. The counts of the decade chart add up to the number of rows
    whose year, once coerced, is a number: a row whose year is missing
    or is no number is in no bar.  On a tab table without a [year]
    column the method raises the key error of [year] and changes
    nothing. *)
Theorem plot_bar_chart_by_decade_total (w : World) (df : DataFrame) :
  tabdb (self w) = Some df ->
  (has_column df "year" = false ->
   plot_bar_chart_by_decade w = (w, Raise (KeyError "year"))) /\
  (forall year,
     lookup_column "year" (columns df) = Some year ->
     exists counts,
       snd (plot_bar_chart_by_decade w) = Ok counts /\
       list_sum (map snd counts)
       = List.length (filter is_number (values (to_numeric year)))).
Proof.
  intros Ht. split.
  - intros H. apply has_column_false in H.
    unfold plot_bar_chart_by_decade. run_py. rewrite Ht. cbv beta iota.
    unfold getitem. now rewrite H.
  - intros year Ly.
    rewrite (plot_bar_chart_by_decade_run w df year Ht Ly). simpl snd.
    eexists. split; [reflexivity|].
    rewrite <- (sum_perm _ _ (value_counts_sort_index_perm _)), sum_tally.
    simpl values. rewrite map_map.
    induction (values (to_numeric year)) as [|c l IH]; [reflexivity|].
    simpl. rewrite decade_cell_notna.
    destruct (is_number c); simpl; now rewrite IH.
Qed.

Lemma cumsum_from_ascending acc l :
  ascending (cumsum_from acc l) /\
  Forall (fun e : string * nat => (acc <= snd e)%nat) (cumsum_from acc l).
Proof.
  unfold ascending. revert acc.
  induction l as [|[n x] l IH]; intros acc; simpl.
  - split; constructor.
  - destruct (IH (acc + x)%nat) as [Hs Hf]. split.
    + constructor; [exact Hs|]. exact Hf.
    + constructor; [simpl; lia|].
      eapply Forall_impl; [|exact Hf]. intros e He. simpl in *. lia.
Qed.

Lemma last_cons_default {A} (x : A) (l : list A) (d d' : A) :
  last (x :: l) d = last (x :: l) d'.
Proof.
  revert x. induction l as [|y l IH]; intros x; [reflexivity|].
  change (last (y :: l) d = last (y :: l) d'). apply IH.
Qed.

Lemma cumsum_from_last acc l :
  last (map snd (cumsum_from acc l)) acc
  = (acc + list_sum (map snd l))%nat.
Proof.
  revert acc. induction l as [|[n x] l IH]; intros acc; [simpl; lia|].
  change (map snd (cumsum_from acc ((n, x) :: l)))
    with ((acc + x)%nat :: map snd (cumsum_from (acc + x) l)).
  change (list_sum (map snd ((n, x) :: l)))
    with (x + list_sum (map snd l))%nat.
  rewrite Nat.add_assoc, <- IH.
  destruct (map snd (cumsum_from (acc + x) l)) as [|y ys]; [reflexivity|].
  change (last (y :: ys) acc = last (y :: ys) (acc + x)%nat).
  apply last_cons_default.
Qed.

(** X18. On a play table with the [song] and [artist] columns the values
    of the cumulative line chart never go down from a column to the
    next, and the last one is the number of all cells with a value in
    the columns kept; when there is no other column the series is empty.
    On a play table without one of the two columns the method raises a
    key error.  It changes nothing. *)
Theorem plot_cumulative_line_chart_shape (w : World) (df : DataFrame) :
  playdb (self w) = Some df ->
  (has_column df "song" && has_column df "artist" = false ->
   exists k, plot_cumulative_line_chart w = (w, Raise (KeyError k))) /\
  (has_column df "song" && has_column df "artist" = true ->
   exists dropped sums,
     drop df ["song"; "artist"] = Ok dropped /\
     plot_cumulative_line_chart w = (w, Ok sums) /\
     List.length sums = List.length (columns dropped) /\
     ascending sums /\
     last (map snd sums) O
     = list_sum (map (fun c => count (snd c)) (columns dropped))).
Proof.
  intros Hp. rewrite (plot_cumulative_line_chart_run w df Hp).
  unfold drop. simpl find. split; intros H.
  - destruct (has_column df "song"); simpl; [|eauto].
    simpl in H. rewrite H. simpl. eauto.
  - apply andb_prop in H as [-> ->]. simpl.
    eexists. eexists. split; [reflexivity|]. split; [reflexivity|].
    unfold cumsum, count_axis0; simpl columns.
    set (kept := filter _ (columns df)).
    split; [|split].
    + rewrite <- (length_map fst), cumsum_from_names, !length_map.
      reflexivity.
    + apply cumsum_from_ascending.
    + rewrite cumsum_from_last, map_map. reflexivity.
Qed.

Lemma list_sum_constant {A} (l : list A) (n : nat) :
  list_sum (map (fun _ => n) l) = (List.length l * n)%nat.
Proof. induction l as [|x l IH]; simpl; [reflexivity | now rewrite IH]. Qed.

(** X19. After the validation of a rectangular play table the cumulative
    line chart is a straight line: the value of the k-th column kept,
    counting from 1, is k times the number of rows, whatever the cells
    of the source were. *)
Theorem plot_cumulative_line_chart_after_validation
  (w w' : World) (df : DataFrame) :
  playdb (self w) = Some df ->
  well_formed df ->
  _validate_playdb w = (w', Ok tt) ->
  exists sums,
    plot_cumulative_line_chart w' = (w', Ok sums) /\
    forall k, (k < List.length sums)%nat ->
      nth k (map snd sums) O = (S k * List.length (index df))%nat.
Proof.
  intros Hp W Hrun. rewrite (validate_playdb_run _ df Hp) in Hrun.
  destruct (playdb_error df) eqn:E; [discriminate|].
  inversion Hrun; subst w'; clear Hrun.
  apply playdb_error_none in E.
  set (filled := fillna (Str "") df).
  pose proof (fillna_no_null_column (Str "") df eq_refl) as Hnn.
  pose proof (fillna_well_formed (Str "") df W) as Wf.
  destruct (drop_ok filled ["song"; "artist"]) as [dropped Hd].
  { unfold valid_play_source, required_columns_playdb in E.
    unfold filled. simpl in *. now rewrite !fillna_has_column. }
  rewrite (plot_cumulative_line_chart_run _ filled) by reflexivity.
  rewrite Hd. eexists. split; [reflexivity|].
  intros k Hk. unfold cumsum in *.
  rewrite <- (length_map fst), cumsum_from_names, length_map in Hk.
  rewrite cumsum_from_nth by exact Hk. rewrite Nat.add_0_l.
  assert (Hc : map snd (count_axis0 dropped)
               = map (fun _ => List.length (index df)) (columns dropped)).
  { unfold count_axis0. rewrite map_map. apply map_ext_in.
    intros [n s] Hin. simpl.
    apply (proj2 (drop_columns_subset _ _ _ Hd)) in Hin.
    rewrite count_no_null by (eapply Hnn; eauto).
    apply (proj1 (Forall_forall _ _) Wf (n, s) Hin). }
  rewrite Hc, firstn_map, list_sum_constant, length_firstn.
  unfold count_axis0 in Hk. rewrite length_map in Hk.
  rewrite Nat.min_l by lia. reflexivity.
Qed.

Lemma to_numeric_length s :
  List.length (values (to_numeric s)) = List.length (values s).
Proof.
  unfold to_numeric. destruct (issubdtype_number (dtype s)); [reflexivity|].
  destruct (forallb is_int (map coerce_number (values s))); simpl;
    now rewrite ?length_map.
Qed.

Lemma lookup_length df name s :
  well_formed df ->
  lookup_column name (columns df) = Some s ->
  List.length (values s) = List.length (index df).
Proof.
  intros W L. apply (proj1 (Forall_forall _ _) W (name, s)).
  now apply lookup_column_In.
Qed.

Lemma load_data_outcome_tables w df :
  tabdb (self (load_data_outcome w)) = Some df
  \/ playdb (self (load_data_outcome w)) = Some df
  \/ requestdb (self (load_data_outcome w)) = Some df ->
  (tabdb (self w) = Some df \/ playdb (self w) = Some df
   \/ requestdb (self w) = Some df)
  \/ (exists path raw,
        read_csv path = Ok raw /\
        (df = raw \/ df = fillna (Str "Unknown") raw
         \/ df = fillna (Str "") raw)).
Proof.
  unfold load_data_outcome, load_playdb_outcome, load_requestdb_outcome.
  destruct (read_csv (tabdb_path (self w))) as [t|e] eqn:Rt; simpl;
    [|tauto].
  destruct (tabdb_error t); simpl.
  { intros [H|H]; [inversion H; subst; right; eauto 6 | tauto]. }
  destruct (read_csv (playdb_path (self w))) as [p|e] eqn:Rp; simpl.
  2:{ intros [H|H]; [inversion H; subst; right; eauto 7 | tauto]. }
  destruct (playdb_error p); simpl.
  { intros [H|[H|H]]; [inversion H; subst; right; eauto 7
                      |inversion H; subst; right; eauto 7 | tauto]. }
  destruct (read_csv (requestdb_path (self w))) as [r|e] eqn:Rr; simpl.
  2:{ intros [H|[H|H]]; [inversion H; subst; right; eauto 7
                        |inversion H; subst; right; eauto 8 | tauto]. }
  destruct (requestdb_error r); simpl;
    intros [H|[H|H]]; inversion H; subst; right; eauto 8.
Qed.

(** X20. The tables stay rectangular.  When every frame the files give
    is rectangular and the tables that are set are, so are the tables
    after [load_data], after [filter_by_date_range] and after
    [plot_bar_chart_by_decade], and so is the frame
    [filter_by_date_range] returns. *)
Theorem tables_stay_rectangular (w : World) :
  (forall path df, read_csv path = Ok df -> well_formed df) ->
  rectangular w ->
  rectangular (fst (load_data w)) /\
  (forall start_date end_date,
     rectangular (fst (filter_by_date_range start_date end_date w)) /\
     forall r, snd (filter_by_date_range start_date end_date w) = Ok r ->
               well_formed r) /\
  rectangular (fst (plot_bar_chart_by_decade w)).
Proof.
  intros Hfiles Hw. split; [|split].
  - rewrite load_data_run; simpl fst. intros df Hdf.
    destruct (load_data_outcome_tables w df Hdf)
      as [Hold|(path & raw & Hr & [->|[->| ->]])];
      [now apply Hw | | |]; try apply fillna_well_formed; eauto.
  - intros start_date end_date.
    assert (Hparsed : forall df date,
               tabdb (self w) = Some df ->
               getitem df "date" = Ok date ->
               well_formed (setitem df "date" (to_datetime date))).
    { intros df date Ht Gd. apply setitem_well_formed; [apply Hw; auto|].
      simpl. rewrite length_map. apply (lookup_length df "date").
      - apply Hw; auto.
      - unfold getitem in Gd.
        destruct (lookup_column "date" (columns df)); now inversion Gd. }
    split.
    + rewrite filter_by_date_range_world.
      destruct (tabdb (self w)) as [df|] eqn:Ht; [|exact Hw].
      destruct (getitem df "date") as [date|e] eqn:Gd; [|exact Hw].
      intros df' [H|[H|H]]; simpl in H.
      * inversion H; subst. now apply Hparsed.
      * apply Hw; auto.
      * apply Hw; auto.
    + intros r. unfold filter_by_date_range. run_py.
      destruct (tabdb (self w)) as [df|] eqn:Ht; cbv beta iota;
        [|discriminate].
      destruct (getitem df "date") as [date|e] eqn:Gd; cbv beta iota;
        [|discriminate].
      rewrite getitem_setitem.
      destruct (compare_datetime Z.geb (to_datetime date) start_date);
        cbv beta iota; [|discriminate].
      destruct (compare_datetime Z.leb (to_datetime date) end_date);
        cbv beta iota; [|discriminate].
      simpl. intros H; inversion H; subst.
      apply loc_well_formed. now apply Hparsed.
  - rewrite plot_bar_chart_by_decade_world.
    destruct (tabdb (self w)) as [df|] eqn:Ht; [|exact Hw].
    destruct (getitem df "year") as [year|e] eqn:Gy; [|exact Hw].
    assert (Ly : List.length (values (to_numeric year))
                 = List.length (index df)).
    { rewrite to_numeric_length. apply (lookup_length df "year").
      - apply Hw; auto.
      - unfold getitem in Gy.
        destruct (lookup_column "year" (columns df)); now inversion Gy. }
    intros df' [H|[H|H]]; simpl in H.
    + inversion H; subst.
      apply setitem_well_formed; [apply setitem_well_formed|].
      * apply Hw; auto.
      * exact Ly.
      * simpl. now rewrite !length_map.
    + apply Hw; auto.
    + apply Hw; auto.
Qed.

(* ================================================================== *)
(** * UserInterface *)

(** X21. The load button always reports success: whatever the files
    are, the handler shows the box "Data loaded successfully." and never
    an error box; when the tab file cannot be read it shows it all the
    same, with no table changed. *)
Theorem UserInterface_load_data_reports_success (w : World) :
  snd (UserInterface_load_data w)
  = [showinfo "Info" "Data loaded successfully."] /\
  (forall e, read_csv (tabdb_path (self w)) = Raise e ->
     self (fst (UserInterface_load_data w)) = self w).
Proof.
  unfold UserInterface_load_data. rewrite load_data_run.
  split; [reflexivity|].
  intros e H. simpl. unfold load_data_outcome. now rewrite H.
Qed.

(** X22. The filter button with a column and a value typed: the column
    [self] gives the box of a type error; before the tab table is loaded
    any other column gives the box of data not loaded; on a loaded table
    a column it does not have gives the box that names the column.  In
    the three cases nothing else is shown and nothing changes. *)
Theorem UserInterface_filter_data_errors (w : World) (c v : string) :
  c <> "" -> v <> "" ->
  (c = "self" ->
   exists msg,
     UserInterface_filter_data (Some c) (Some v) w
     = (w, [showerror "Error" msg])) /\
  (c <> "self" -> tabdb (self w) = None ->
   UserInterface_filter_data (Some c) (Some v) w = (w, [not_loaded_box])) /\
  (c <> "self" ->
   forall df, tabdb (self w) = Some df -> has_column df c = false ->
     UserInterface_filter_data (Some c) (Some v) w
     = (w, [showerror "Error"
              ("Column '" ++ c ++ "' does not exist in tabdb.")])).
Proof.
  intros Hc Hv.
  assert (Tc : truthy (Some c) = true).
  { simpl. destruct (String.eqb c "") eqn:E; [|reflexivity].
    apply String.eqb_eq in E. contradiction. }
  assert (Tv : truthy (Some v) = true).
  { simpl. destruct (String.eqb v "") eqn:E; [|reflexivity].
    apply String.eqb_eq in E. contradiction. }
  unfold UserInterface_filter_data, call_filter_tabdb. rewrite Tc, Tv.
  simpl andb. cbv iota. split; [|split].
  - intros ->. simpl. eauto.
  - intros Hs Ht. apply String.eqb_neq in Hs. rewrite Hs.
    unfold filter_tabdb. run_py. rewrite Ht. reflexivity.
  - intros Hs df Ht Habs. apply String.eqb_neq in Hs. rewrite Hs.
    rewrite (filter_tabdb_run w df _ Ht). simpl. now rewrite Habs.
Qed.

(** X23. The filter button does nothing when a dialog is cancelled or
    left empty: nothing is shown, no query runs, nothing changes. *)
Theorem UserInterface_filter_data_no_answer
  (w : World) (column value : option string) :
  truthy column && truthy value = false ->
  UserInterface_filter_data column value w = (w, []).
Proof.
  intros H. unfold UserInterface_filter_data.
  destruct column, value; try reflexivity. now rewrite H.
Qed.

Lemma empty_loc_rows df m :
  columns df <> [] ->
  empty (loc df m) = match rows_of (select m (index df))
                             (map (fun c => values (snd c))
                                (columns (loc df m))) with
                     | [] => true
                     | _ :: _ => false
                     end.
Proof.
  intros Hc. unfold empty, loc; simpl.
  destruct (select m (index df)); simpl; [reflexivity|].
  destruct (columns df); [contradiction | reflexivity].
Qed.

(** X24. The filter button on a column the tab table has: the handler
    shows one window with the columns of the table and the rows whose
    cell under the column is the string typed, in the order of the
    table, or the box "No data available" when there is no such row.
    Nothing changes. *)
Theorem UserInterface_filter_data_shows
  (w : World) (df : DataFrame) (c v : string) (s : Series) :
  c <> "" -> v <> "" -> c <> "self" ->
  tabdb (self w) = Some df ->
  well_formed df ->
  lookup_column c (columns df) = Some s ->
  UserInterface_filter_data (Some c) (Some v) w =
  (w, match filter (fun row => eq_cell (row_cell df c row) (Str v))
              (iterrows df) with
      | [] => [no_data]
      | rows => [Treeview "Filtered Data" (column_names df) (map snd rows)]
      end).
Proof.
  intros Hc Hv Hs Ht W L.
  assert (Tc : truthy (Some c) = true).
  { simpl. destruct (String.eqb c "") eqn:E; [|reflexivity].
    apply String.eqb_eq in E. contradiction. }
  assert (Tv : truthy (Some v) = true).
  { simpl. destruct (String.eqb v "") eqn:E; [|reflexivity].
    apply String.eqb_eq in E. contradiction. }
  unfold UserInterface_filter_data, call_filter_tabdb. rewrite Tc, Tv.
  apply String.eqb_neq in Hs. rewrite Hs. simpl andb. cbv iota.
  rewrite (filter_tabdb_run w df _ Ht).
  rewrite (filter_loop_step df c (Str v) [] s L). simpl filter_loop.
  cbv iota. f_equal. unfold display_dataframe.
  set (m := map (fun c0 => eq_cell c0 (Str v)) (values s)).
  rewrite <- (loc_rows_by_column df c s (fun c0 => eq_cell c0 (Str v)) W L).
  fold m. rewrite loc_column_names.
  rewrite empty_loc_rows.
  - change (rows_of (select m (index df))
              (map (fun c0 : string * Series => values (snd c0))
                 (columns (loc df m))))
      with (iterrows (loc df m)).
    now destruct (iterrows (loc df m)).
  - intros E. rewrite E in L. discriminate.
Qed.

(** X25. The filter button on a column of numbers never finds a row:
    when the cells of the column are numbers, booleans or missing, the
    handler shows the box "No data available" whatever value is typed. *)
Theorem UserInterface_filter_data_on_numbers
  (w : World) (df : DataFrame) (c v : string) (s : Series) :
  c <> "" -> v <> "" -> c <> "self" ->
  tabdb (self w) = Some df ->
  lookup_column c (columns df) = Some s ->
  forallb number_or_missing (values s) = true ->
  UserInterface_filter_data (Some c) (Some v) w = (w, [no_data]).
Proof.
  intros Hc Hv Hs Ht L N.
  assert (Tc : truthy (Some c) = true).
  { simpl. destruct (String.eqb c "") eqn:E; [|reflexivity].
    apply String.eqb_eq in E. contradiction. }
  assert (Tv : truthy (Some v) = true).
  { simpl. destruct (String.eqb v "") eqn:E; [|reflexivity].
    apply String.eqb_eq in E. contradiction. }
  unfold UserInterface_filter_data, call_filter_tabdb. rewrite Tc, Tv.
  apply String.eqb_neq in Hs. rewrite Hs. simpl andb. cbv iota.
  rewrite (filter_tabdb_run w df _ Ht).
  rewrite (filter_loop_step df c (Str v) [] s L). simpl filter_loop.
  cbv iota. f_equal. unfold display_dataframe.
  assert (E : empty (loc df (map (fun c0 => eq_cell c0 (Str v)) (values s)))
              = true).
  { apply loc_all_false. apply Forall_map, Forall_forall. intros x Hin.
    apply eq_cell_text_on_number.
    apply (proj1 (forallb_forall _ _) N x Hin). }
  now rewrite E.
Qed.

Lemma is_selected_false selected_plot name :
  selected_plot <> Some name -> is_selected selected_plot name = false.
Proof.
  destruct selected_plot as [x|]; [|reflexivity]. simpl. intros H.
  apply String.eqb_neq. congruence.
Qed.

(** X26. The plot button with an answer that is none of the seven names,
    or with the dialog cancelled, shows the warning of an invalid plot
    type; no plot method runs and nothing changes. *)
Theorem UserInterface_plot_data_invalid
  (w : World) (selected_plot : option string) :
  (forall name, In name plot_options -> selected_plot <> Some name) ->
  UserInterface_plot_data selected_plot w
  = (w, [showwarning "Warning" "Invalid plot type selected."]).
Proof.
  intros H. unfold UserInterface_plot_data, selected_chart.
  rewrite !is_selected_false; [reflexivity| | | | | | |];
    apply H; simpl; tauto.
Qed.

(** X27. Before any table is loaded, the plot button shows the box of
    data not loaded for each of the seven names; the renderer is not
    reached and nothing changes. *)
Theorem UserInterface_plot_data_not_loaded (w : World) (name : string) :
  tabdb (self w) = None ->
  playdb (self w) = None ->
  In name plot_options ->
  UserInterface_plot_data (Some name) w = (w, [not_loaded_box]).
Proof.
  intros Ht Hp Hin. unfold UserInterface_plot_data.
  assert (Hrun : forall A (m : M A) (chart : A -> Chart),
             m w = (w, Raise not_loaded) ->
             draw m chart w = (w, Raise not_loaded)).
  { intros A m chart Hm. unfold draw. run_py. now rewrite Hm. }
  assert (H6 : plot_difficulty_histogram w = (w, Raise not_loaded) /\
               plot_duration_histogram w = (w, Raise not_loaded) /\
               plot_language_bar_chart w = (w, Raise not_loaded) /\
               plot_source_bar_chart w = (w, Raise not_loaded) /\
               plot_bar_chart_by_decade w = (w, Raise not_loaded) /\
               plot_pie_chart_by_gender w = (w, Raise not_loaded) /\
               plot_cumulative_line_chart w = (w, Raise not_loaded)).
  { unfold plot_difficulty_histogram, plot_duration_histogram,
      plot_language_bar_chart, plot_source_bar_chart,
      plot_bar_chart_by_decade, plot_pie_chart_by_gender,
      plot_cumulative_line_chart.
    run_py. rewrite Ht, Hp. repeat split. }
  destruct H6 as (H1 & H2 & H3 & H4 & H5 & H6 & H7).
  simpl in Hin.
  destruct Hin as [<-|[<-|[<-|[<-|[<-|[<-|[<-|[]]]]]]]];
    unfold selected_chart; simpl;
    rewrite Hrun by assumption; reflexivity.
Qed.

End Program.

(* ================================================================== *)
(** * Sources are loaded in sequence *)




(* ================================================================== *)
(** * The program on the sample data *)

Lemma sample_tab_well_formed : well_formed sample_tab.
Proof. unfold well_formed; simpl. repeat constructor. Qed.

Lemma sample_play_well_formed : well_formed sample_play.
Proof. unfold well_formed; simpl. repeat constructor. Qed.

(** C7 on the sample directory: the load succeeds and the tab table has
    no missing cell in any row. *)
Lemma load_valid_tab_fills_unknown_witness :
  snd (load_data sample_files initial_world) = Ok tt /\
  In "tabdb.csv loaded successfully."
    (stdout (fst (load_data sample_files initial_world))) /\
  exists df',
    tabdb (self (fst (load_data sample_files initial_world))) = Some df' /\
    no_null_row df'.
Proof.
  destruct (load_valid_tab_fills_unknown sample_files initial_world
              sample_tab)
    as (H1 & H2 & df' & H3 & _ & _ & _ & H4 & _);
    [reflexivity | reflexivity | exact sample_tab_well_formed |].
  split; [exact H1|]. split; [exact H2|]. exists df'. split; assumption.
Defined.





(** C3 as claimed fails on the sample directory.  After the load the stored [date]
    column holds the strings of the file and the filler; after
    [filter_by_date_range] the stored column holds parsed instants and a
    missing cell again; after [plot_bar_chart_by_decade] the stored table
    has one column more.  [filter_tabdb] on the same table leaves it as
    it is. *)
Lemma queries_leave_tables_counterexample :
  let w1 := fst (load_data sample_files initial_world) in
  let w2 :=
    fst (filter_by_date_range sample_datetime_of iso_date
           "2020-01-01" "2020-12-31" w1) in
  let w3 := fst (plot_bar_chart_by_decade sample_number_of_string
      sample_float64_of_int sample_float64_floordiv10
      sample_float64_mul10 w1) in
  let w4 := fst (filter_tabdb iso_date [("artist", Str "Artist X")] w1) in
  let date_column w :=
    match tabdb (self w) with
    | Some df => lookup_column "date" (columns df)
    | None => None
    end in
  date_column w1 =
  Some (mkSeries object_ [Str "2020-01-05"; Str "2020-03-10"; Str "Unknown"]) /\
  date_column w2 =
  Some (mkSeries datetime64 [Timestamp 20200105; Timestamp 20200310; NaN]) /\
  tabdb (self w2) <> tabdb (self w1) /\
  option_map column_names (tabdb (self w3)) =
  Some (required_columns_tabdb ++ ["decade"])%list /\
  tabdb (self w3) <> tabdb (self w1) /\
  w4 = w1.
Proof.
  cbv zeta. split; [reflexivity|]. split; [reflexivity|].
  split; [intros H; vm_compute in H; discriminate H|].
  split; [reflexivity|].
  split; [intros H; vm_compute in H; discriminate H|].
  reflexivity.
Qed.

(** The amended C3 on the loaded sample directory: after
    [filter_by_date_range] the play table and the [song] column of the
    tab table are what they were. *)
Lemma queries_write_only_date_year_decade_witness :
  let w1 := fst (load_data sample_files initial_world) in
  let w2 :=
    fst (filter_by_date_range sample_datetime_of iso_date
           "2020-01-01" "2020-12-31" w1) in
  playdb (self w2) = playdb (self w1) /\
  exists df', tabdb (self w2) = Some df' /\
              lookup_column "song" (columns df')
              = Some (texts ["Song A"; "Song B"; "Song C"]).
Proof.
  cbv zeta.
  destruct (queries_write_only_date_year_decade sample_datetime_of iso_date
              sample_number_of_string
              sample_float64_of_int sample_float64_floordiv10
              sample_float64_mul10
              (fst (load_data sample_files initial_world)))
    as (_ & _ & _ & _ & _ & H & _).
  destruct (H "2020-01-01" "2020-12-31" (fillna (Str "Unknown") sample_tab)
              eq_refl)
    as ((_ & _ & _ & Hp & _) & df' & Ht & (_ & Hcols) & _).
  split; [exact Hp|]. exists df'. split; [exact Ht|].
  rewrite Hcols; [reflexivity|].
  simpl. intros [H'|[]]. discriminate H'.
Defined.

(** C4 on the sample table: the one row dated in January 2020. *)
Lemma filter_by_date_range_selects_witness :
  exists r,
    snd (filter_by_date_range sample_datetime_of iso_date
           "2020-01-01" "2020-02-01"
           (with_tabdb (Some sample_tab) initial_world)) = Ok r /\
    index r = [0].
Proof.
  destruct (filter_by_date_range_selects sample_datetime_of iso_date
              (with_tabdb (Some sample_tab) initial_world) sample_tab
              (mkSeries object_ [Str "2020-01-05"; Str "2020-03-10"; NaN])
              "2020-01-01" "2020-02-01" 20200101 20200201)
    as (r & H1 & H2 & _);
    [reflexivity | exact sample_tab_well_formed | reflexivity | reflexivity
    | reflexivity | lia |].
  exists r. split; [exact H1|]. rewrite H2. reflexivity.
Defined.

(** C5 on the sample table: the rows of Artist X that are rock. *)
Lemma filter_tabdb_and_composes_witness :
  exists r1 r,
    filter_tabdb iso_date (dict_of [("artist", Str "Artist X")])
      (with_tabdb (Some sample_tab) initial_world)
    = (with_tabdb (Some sample_tab) initial_world, Ok r1) /\
    filter_tabdb iso_date (dict_of [("type", Str "rock")])
      (with_tabdb (Some r1) (with_tabdb (Some sample_tab) initial_world))
    = (with_tabdb (Some r1) (with_tabdb (Some sample_tab) initial_world),
       Ok r) /\
    filter_tabdb iso_date
      (dict_of [("artist", Str "Artist X"); ("type", Str "rock")])
      (with_tabdb (Some sample_tab) initial_world)
    = (with_tabdb (Some sample_tab) initial_world, Ok r) /\
    map fst (iterrows r) = [2].
Proof.
  destruct (filter_tabdb_and_composes iso_date
              (with_tabdb (Some sample_tab) initial_world) sample_tab
              "artist" "type" (Str "Artist X") (Str "rock"))
    as (r1 & r & H1 & H2 & H3 & H4);
    [reflexivity | exact sample_tab_well_formed | reflexivity | reflexivity
    | left; discriminate |].
  exists r1, r. repeat (split; [assumption|]). rewrite H4. reflexivity.
Defined.

(** C6 on the sample table: a criterion on a column it does not have,
    after one on a column it has. *)
Lemma filter_tabdb_unknown_column_witness :
  exists c,
    In c ["artist"; "composer"] /\
    has_column sample_tab c = false /\
    filter_tabdb iso_date
      [("artist", Str "Artist X"); ("composer", Str "Nobody")]
      (with_tabdb (Some sample_tab) initial_world)
    = (with_tabdb (Some sample_tab) initial_world,
       Raise (ValueError ("Column '" ++ c ++ "' does not exist in tabdb."))).
Proof.
  apply (filter_tabdb_unknown_column iso_date
           (with_tabdb (Some sample_tab) initial_world) sample_tab
           [("artist", Str "Artist X"); ("composer", Str "Nobody")]).
  - reflexivity.
  - exists "composer". split; [simpl; auto | reflexivity].
Defined.

(** C8 on the sample table, whose years are 1985, 1989 and 1994, and on
    the table whose years are the texts 1985, eighties and 1994: the
    text that denotes no number counts for no decade. *)
Lemma plot_bar_chart_by_decade_counts_witness :
  snd (plot_bar_chart_by_decade sample_number_of_string
                                sample_float64_of_int sample_float64_floordiv10
                                sample_float64_mul10
         (with_tabdb (Some sample_tab) initial_world))
  = Ok [(Int 1980, 2%nat); (Int 1990, 1%nat)] /\
  exists counts,
    snd (plot_bar_chart_by_decade sample_number_of_string
        sample_float64_of_int sample_float64_floordiv10
        sample_float64_mul10
           (with_tabdb (Some sample_tab_text_year) initial_world))
    = Ok counts /\
    map snd counts = [1%nat; 1%nat] /\
    count_of_decade 1980 counts = 1%nat /\
    count_of_decade 1990 counts = 1%nat.
Proof.
  split.
  - destruct (plot_bar_chart_by_decade_counts sample_number_of_string
      sample_float64_of_int sample_float64_floordiv10
      sample_float64_mul10
                (with_tabdb (Some sample_tab) initial_world) sample_tab
                (mkSeries int64 [Int 1985; Int 1989; Int 1994]))
      as (counts & H1 & _ & _ & _ & _ & H2).
    + reflexivity.
    + reflexivity.
    + repeat (constructor;
              [unfold year_fits, issubdtype_number, dtype,
                 Int64_min, Int64_max; lia|]).
      constructor.
    + rewrite H1, (H2 eq_refl). reflexivity.
  - destruct (plot_bar_chart_by_decade_counts sample_number_of_string
      sample_float64_of_int sample_float64_floordiv10
      sample_float64_mul10
                (with_tabdb (Some sample_tab_text_year) initial_world)
                sample_tab_text_year
                (texts ["1985"; "eighties"; "1994"]))
      as (counts & H1 & _ & _ & _ & H2 & _).
    + reflexivity.
    + reflexivity.
    + repeat (constructor;
              [split; [reflexivity | vm_compute; try exact I;
                                     split; discriminate]|]).
      constructor.
    + exists counts. split; [exact H1|].
      split; [|split; rewrite H2; reflexivity].
      assert (E : Ok counts
                  = snd (plot_bar_chart_by_decade sample_number_of_string
                      sample_float64_of_int sample_float64_floordiv10
                      sample_float64_mul10
                           (with_tabdb (Some sample_tab_text_year)
                              initial_world)))
        by (symmetry; exact H1).
      vm_compute in E. injection E as E. rewrite E. reflexivity.
Defined.

(** C9 on the sample play source as parsed, whose two date columns have
    3 and 5 cells with a value. *)
Lemma plot_cumulative_line_chart_running_sums_witness :
  exists sums,
    plot_cumulative_line_chart (with_playdb (Some sample_play) initial_world)
    = (with_playdb (Some sample_play) initial_world, Ok sums) /\
    map fst sums = ["20200107"; "20200114"] /\
    map snd sums = [3; 8]%nat.
Proof.
  destruct (plot_cumulative_line_chart_running_sums
              (with_playdb (Some sample_play) initial_world) sample_play)
    as (sums & H1 & H2 & _ & H3);
    [reflexivity | reflexivity | reflexivity |].
  exists sums. split; [exact H1|]. split; [exact H2|]. apply H3. reflexivity.
Defined.

(** C10 on the sample play source: two of its cells are missing, and
    after validation the count of each date column is 5, the number of
    rows. *)
Lemma validated_playdb_counts_every_row_witness :
  let w := with_playdb (Some sample_play) initial_world in
  let w' := with_playdb (Some (fillna (Str "") sample_play)) initial_world in
  count sample_play_first_date = 3%nat /\
  count_song_plays "20200107" w' = (w', Ok 5%nat) /\
  count_song_plays "20200114" w' = (w', Ok 5%nat).
Proof.
  cbv zeta.
  destruct (validated_playdb_counts_every_row
              (with_playdb (Some sample_play) initial_world)
              (with_playdb (Some (fillna (Str "") sample_play)) initial_world)
              sample_play)
    as (df' & _ & Hdf & _ & _ & Hcount & _);
    [reflexivity | exact sample_play_well_formed | reflexivity |].
  subst df'. split; [reflexivity|].
  split; apply Hcount; reflexivity.
Defined.

(* ================================================================== *)
(** * The other methods on the sample data *)

(** X1 on the sample directory. *)
Lemma load_data_all_valid_witness :
  stdout (fst (load_data sample_files initial_world))
  = ["tabdb.csv loaded successfully."; "playdb.csv loaded successfully.";
     "requestdb.csv loaded successfully."] /\
  requestdb (self (fst (load_data sample_files initial_world)))
  = Some (fillna (Str "") sample_request).
Proof.
  rewrite (load_data_all_valid sample_files initial_world sample_tab
             sample_play sample_request);
    try reflexivity.
  split; reflexivity.
Defined.

(** X3 on the directory whose tab file has a [year] column of text. *)
Lemma load_data_type_mismatch_witness :
  load_data files_tab_text_year initial_world =
  (printed
     "An unexpected error occurred: Column 'year' must be numeric in tabdb.csv."
     (with_tabdb (Some sample_tab_text_year) initial_world), Ok tt).
Proof.
  apply (proj1 (load_data_type_mismatch files_tab_text_year initial_world
                  sample_tab_text_year eq_refl eq_refl)).
  reflexivity.
Defined.

(** X4 on the sample play source. *)
Lemma validate_playdb_requestdb_witness :
  _validate_playdb play_world
  = (with_playdb (Some (fillna (Str "") sample_play)) play_world, Ok tt).
Proof.
  exact (proj1 (validate_playdb_requestdb play_world sample_play) eq_refl).
Defined.

(** X5 on the sample directory: [year] and [difficulty] have no missing
    cell, and the stored table still meets the rules. *)
Lemma load_valid_tab_dtypes_witness :
  exists t',
    tabdb (self (fst (load_data sample_files initial_world))) = Some t' /\
    valid_tab_source t' = true.
Proof.
  destruct (load_valid_tab_dtypes sample_files initial_world sample_tab
              (mkSeries int64 [Int 1985; Int 1989; Int 1994])
              (mkSeries int64 [Int 1; Int 3; Int 2]))
    as (t' & Ht & _ & _ & Hv); try reflexivity.
  exists t'. split; [exact Ht | exact Hv].
Defined.

(** X6 in the initial state. *)
Lemma queries_not_loaded_witness :
  filter_tabdb iso_date [("artist", Str "Artist X")] initial_world
  = (initial_world, Raise not_loaded) /\
  count_song_plays "20200107" initial_world
  = (initial_world, Raise not_loaded).
Proof.
  destruct (queries_not_loaded sample_datetime_of iso_date initial_world)
    as (Ht & Hp & _).
  split; [apply (proj1 (Ht eq_refl)) | apply (proj2 (Hp eq_refl))].
Defined.

(** X7 on the sample table: the rows of Artist X that are rock. *)
Lemma filter_tabdb_rows_witness :
  exists r,
    snd (filter_tabdb iso_date
           [("artist", Str "Artist X"); ("type", Str "rock")] tab_world)
    = Ok r /\
    map fst (iterrows r) = [2].
Proof.
  eexists. split; [reflexivity|].
  rewrite (proj2 (proj2 (proj2
             (filter_tabdb_rows iso_date tab_world sample_tab _
                [("artist", Str "Artist X"); ("type", Str "rock")]
                eq_refl sample_tab_well_formed eq_refl)))).
  reflexivity.
Defined.

(** X8 on the sample table. *)
Lemma filter_tabdb_any_order_witness :
  filter_tabdb iso_date
    [("artist", Str "Artist X"); ("type", Str "rock")] tab_world
  = filter_tabdb iso_date
      [("type", Str "rock"); ("artist", Str "Artist X")] tab_world.
Proof.
  apply (filter_tabdb_any_order iso_date tab_world sample_tab);
    [reflexivity | repeat constructor | apply perm_swap].
Defined.

(** X9 on the sample table: the year typed against the int64 years. *)
Lemma filter_tabdb_text_on_numbers_witness :
  exists r,
    filter_tabdb iso_date [("year", Str "1985")] tab_world
    = (tab_world, Ok r) /\
    index r = [].
Proof.
  destruct (filter_tabdb_text_on_numbers iso_date tab_world sample_tab
              "year" (mkSeries int64 [Int 1985; Int 1989; Int 1994]) "1985")
    as (r & H & _ & Hi & _); try reflexivity.
  exists r. split; assumption.
Defined.

(** X10 on the sample table: a bound that is no date. *)
Lemma filter_by_date_range_errors_witness :
  exists msg,
    filter_by_date_range sample_datetime_of iso_date "soon" "2020-12-31"
      tab_world
    = (with_tabdb
         (Some (setitem sample_tab "date"
                  (mkSeries datetime64
                     [Timestamp 20200105; Timestamp 20200310; NaN])))
         tab_world,
       Raise (TypeError msg)).
Proof.
  apply (proj2 (filter_by_date_range_errors sample_datetime_of iso_date
                  tab_world sample_tab "soon" "2020-12-31" eq_refl)
           (mkSeries object_ [Str "2020-01-05"; Str "2020-03-10"; NaN]));
    [reflexivity | left; reflexivity].
Defined.

(** X11 on the sample table. *)
Lemma filter_by_date_range_reversed_bounds_witness :
  exists r,
    snd (filter_by_date_range sample_datetime_of iso_date
           "2020-12-31" "2020-01-01" tab_world) = Ok r /\
    index r = [].
Proof.
  destruct (filter_by_date_range_reversed_bounds sample_datetime_of iso_date
              tab_world sample_tab
              (mkSeries object_ [Str "2020-01-05"; Str "2020-03-10"; NaN])
              "2020-12-31" "2020-01-01" 20201231 20200101)
    as (r & H & _ & Hi & _); try reflexivity.
  exists r. split; assumption.
Defined.

(** X12 on the sample play source. *)
Lemma filter_by_song_and_by_artist_witness :
  exists r,
    filter_playdb_by_song iso_date (Str "Song C") play_world
    = (play_world, Ok r) /\
    map fst (iterrows r) = [2].
Proof.
  destruct (proj1 (filter_by_song_and_by_artist iso_date play_world
                     sample_play
                     (texts ["Song A"; "Song B"; "Song C"; "Song D";
                             "Song E"])
                     (Str "Song C") sample_play_well_formed)
              eq_refl eq_refl)
    as (r & H & _ & Hr).
  exists r. split; [exact H|]. rewrite Hr. reflexivity.
Defined.

(** X13 on the sample play source: a song title is no column. *)
Lemma count_song_plays_cases_witness :
  count_song_plays "Song A" play_world
  = (play_world, Raise (KeyError "Song A")).
Proof.
  apply (proj1 (count_song_plays_cases play_world sample_play "Song A"
                  eq_refl)).
  reflexivity.
Defined.

(** X14 in the initial state. *)
Lemma plots_not_loaded_witness :
  plot_language_bar_chart initial_world = (initial_world, Raise not_loaded) /\
  plot_cumulative_line_chart initial_world
  = (initial_world, Raise not_loaded).
Proof.
  destruct (plots_not_loaded sample_number_of_string
                             sample_float64_of_int sample_float64_floordiv10
                             sample_float64_mul10 initial_world)
    as (Ht & Hp).
  destruct (Ht eq_refl) as (_ & _ & Hl & _).
  split; [exact Hl | exact (Hp eq_refl)].
Defined.

(** X15 on the sample table: two songs in English, one in Spanish. *)
Lemma value_count_charts_witness :
  exists counts,
    plot_language_bar_chart tab_world = (tab_world, Ok counts) /\
    list_sum (map snd counts) = 3%nat.
Proof.
  destruct (proj1 (value_count_charts tab_world sample_tab
                     (texts ["english"; "english"; "spanish"]) eq_refl)
              eq_refl)
    as (counts & H & _ & _ & _ & _ & Hsum).
  exists counts. split; [exact H|]. rewrite Hsum. reflexivity.
Defined.

(** X16 on the sample table. *)
Lemma plot_bar_chart_by_decade_again_witness :
  let first := plot_bar_chart_by_decade sample_number_of_string
      sample_float64_of_int sample_float64_floordiv10
      sample_float64_mul10 tab_world in
  plot_bar_chart_by_decade sample_number_of_string
                           sample_float64_of_int sample_float64_floordiv10
                           sample_float64_mul10 (fst first)
  = (fst first, snd first).
Proof.
  apply (plot_bar_chart_by_decade_again sample_number_of_string
      sample_float64_of_int sample_float64_floordiv10
      sample_float64_mul10 tab_world
           sample_tab (mkSeries int64 [Int 1985; Int 1989; Int 1994]));
    reflexivity.
Defined.

(** X17 on the sample table: its three years are numbers. *)
Lemma plot_bar_chart_by_decade_total_witness :
  exists counts,
    snd (plot_bar_chart_by_decade sample_number_of_string
        sample_float64_of_int sample_float64_floordiv10
        sample_float64_mul10 tab_world)
    = Ok counts /\
    list_sum (map snd counts) = 3%nat.
Proof.
  destruct (proj2 (plot_bar_chart_by_decade_total sample_number_of_string
      sample_float64_of_int sample_float64_floordiv10
      sample_float64_mul10
                     tab_world sample_tab eq_refl)
              (mkSeries int64 [Int 1985; Int 1989; Int 1994]) eq_refl)
    as (counts & H & Hsum).
  exists counts. split; [exact H|]. rewrite Hsum. reflexivity.
Defined.

(** X18 on the sample play source as parsed. *)
Lemma plot_cumulative_line_chart_shape_witness :
  exists sums,
    plot_cumulative_line_chart play_world = (play_world, Ok sums) /\
    ascending sums /\
    last (map snd sums) O = 8%nat.
Proof.
  destruct (proj2 (plot_cumulative_line_chart_shape play_world sample_play
                     eq_refl) eq_refl)
    as (dropped & sums & Hd & H & _ & Ha & Hl).
  exists sums. split; [exact H|]. split; [exact Ha|].
  rewrite Hl. inversion Hd. reflexivity.
Defined.

(** X19 on the sample play source: five rows, two date columns. *)
Lemma plot_cumulative_line_chart_after_validation_witness :
  exists sums,
    plot_cumulative_line_chart
      (with_playdb (Some (fillna (Str "") sample_play)) play_world)
    = (with_playdb (Some (fillna (Str "") sample_play)) play_world, Ok sums) /\
    map snd sums = [5; 10]%nat.
Proof.
  destruct (plot_cumulative_line_chart_after_validation play_world
              (with_playdb (Some (fillna (Str "") sample_play)) play_world)
              sample_play eq_refl sample_play_well_formed eq_refl)
    as (sums & H & _).
  exists sums. split; [exact H|].
  inversion H. reflexivity.
Defined.

Lemma sample_files_well_formed path df :
  sample_files path = Ok df -> well_formed df.
Proof.
  unfold sample_files.
  destruct (String.eqb path "tabdb.csv");
    [intros H; inversion H; apply sample_tab_well_formed|].
  destruct (String.eqb path "playdb.csv");
    [intros H; inversion H; apply sample_play_well_formed|].
  destruct (String.eqb path "requestdb.csv"); [|discriminate].
  intros H; inversion H. unfold well_formed; simpl. repeat constructor.
Qed.

(** X20 on the sample directory. *)
Lemma tables_stay_rectangular_witness :
  rectangular (fst (load_data sample_files initial_world)).
Proof.
  apply (tables_stay_rectangular sample_files sample_datetime_of iso_date
           sample_number_of_string
           sample_float64_of_int sample_float64_floordiv10
           sample_float64_mul10 initial_world).
  - exact sample_files_well_formed.
  - intros df [H|[H|H]]; discriminate H.
Defined.

(** X21 on the directory without a tab file. *)
Lemma UserInterface_load_data_reports_success_witness :
  UserInterface_load_data files_without_tab initial_world
  = (printed "Error: [Errno 2] No such file or directory: 'tabdb.csv'"
       initial_world,
     [showinfo "Info" "Data loaded successfully."]) /\
  self (fst (UserInterface_load_data files_without_tab initial_world))
  = self initial_world.
Proof.
  split; [reflexivity|].
  apply (proj2 (UserInterface_load_data_reports_success files_without_tab
                  initial_world) (no_such_file "tabdb.csv")).
  reflexivity.
Defined.

(** X22 on the sample table: a column it does not have. *)
Lemma UserInterface_filter_data_errors_witness :
  UserInterface_filter_data iso_date (Some "composer") (Some "Nobody")
    tab_world
  = (tab_world,
     [showerror "Error" "Column 'composer' does not exist in tabdb."]).
Proof.
  destruct (UserInterface_filter_data_errors iso_date tab_world
              "composer" "Nobody") as (_ & _ & H);
    [discriminate | discriminate |].
  apply (H ltac:(discriminate) sample_tab eq_refl eq_refl).
Defined.

(** X23: the first dialog cancelled. *)
Lemma UserInterface_filter_data_no_answer_witness :
  UserInterface_filter_data iso_date None (Some "rock") tab_world
  = (tab_world, []).
Proof.
  apply UserInterface_filter_data_no_answer. reflexivity.
Defined.

(** X24 on the sample table: the two rows of Artist X. *)
Lemma UserInterface_filter_data_shows_witness :
  exists rows,
    UserInterface_filter_data iso_date (Some "artist") (Some "Artist X")
      tab_world
    = (tab_world,
       [Treeview "Filtered Data" required_columns_tabdb rows]) /\
    List.length rows = 2%nat.
Proof.
  eexists. split.
  - rewrite (UserInterface_filter_data_shows iso_date tab_world sample_tab
               "artist" "Artist X"
               (texts ["Artist X"; "Artist Y"; "Artist X"]));
      try discriminate; try reflexivity.
    exact sample_tab_well_formed.
  - reflexivity.
Defined.

(** X25 on the sample table: a year typed against the int64 years. *)
Lemma UserInterface_filter_data_on_numbers_witness :
  UserInterface_filter_data iso_date (Some "year") (Some "1985") tab_world
  = (tab_world, [no_data]).
Proof.
  apply (UserInterface_filter_data_on_numbers iso_date tab_world sample_tab
           "year" "1985" (mkSeries int64 [Int 1985; Int 1989; Int 1994]));
    try discriminate; reflexivity.
Defined.

(** X26: the dialog cancelled. *)
Lemma UserInterface_plot_data_invalid_witness :
  UserInterface_plot_data sample_number_of_string sample_render
      sample_float64_of_int sample_float64_floordiv10
      sample_float64_mul10 None
    tab_world
  = (tab_world, [showwarning "Warning" "Invalid plot type selected."]).
Proof.
  apply UserInterface_plot_data_invalid. intros name _. discriminate.
Defined.

(** X27 in the initial state. *)
Lemma UserInterface_plot_data_not_loaded_witness :
  UserInterface_plot_data sample_number_of_string sample_render
      sample_float64_of_int sample_float64_floordiv10
      sample_float64_mul10
    (Some "Decade Bar Chart") initial_world
  = (initial_world, [not_loaded_box]).
Proof.
  apply UserInterface_plot_data_not_loaded;
    [reflexivity | reflexivity | simpl; tauto].
Defined.
